(** * AdaptiveLearn360: content prioritisation and adaptive scheduling

    A shallow embedding of the study-content utilities (prioritizeContent,
    groupContentIntoSessions, recommendContentSequence,
    generateBalancedStudyMix), of the scheduling utilities
    (generateAdaptiveSchedule, adjustScheduleBasedOnPerformance,
    calculateOptimalBreakTime, detectStudyPattern), of the adaptive
    behaviour utilities and of the state updates of the context
    providers, followed by the properties established about them.

    Conventions of the embedding.
    - A JavaScript value that may be [undefined]/[null] is an [option].
    - Integer-valued numbers (minutes, difficulty, scores of the
      prioritizer, millisecond timestamps) are [Z]; fractional numbers
      (average score, affinity scores, consistency) are [Q], and the
      arithmetic the source performs on them in binary64 is rounded
      operation by operation with [B64.rnd].
    - An object used as a dictionary is an association list kept in
      property-creation order; [ownPropertyOrder] gives the order in which
      [Object.keys] enumerates it.
    - A function that can raise a [TypeError] returns a [Result]. *)

From Stdlib Require Import ZArith QArith Qround String Ascii List Bool Lia.
From Stdlib Require Import Permutation Sorted.
Import ListNotations.

Local Open Scope string_scope.
Local Open Scope Z_scope.
Local Open Scope list_scope.

(** ** JavaScript runtime pieces *)

Module Js.

(** Outcome of a call that either returns or raises a TypeError. *)
Inductive Result (A : Type) : Type :=
| Ok (a : A)
| TypeError.
Arguments Ok {A} a.
Arguments TypeError {A}.

Definition bind {A B} (r : Result A) (k : A -> Result B) : Result B :=
  match r with
  | Ok a => k a
  | TypeError => TypeError
  end.

Fixpoint mapM {A B} (f : A -> Result B) (l : list A) : Result (list B) :=
  match l with
  | [] => Ok []
  | x :: t => bind (f x) (fun y => bind (mapM f t) (fun ys => Ok (y :: ys)))
  end.

(** Names every object literal inherits from [Object.prototype]: reading
    one of them from a literal that does not define it yields a function
    (or the prototype itself), never [undefined]. *)
Definition objectPrototypeKeys : list string :=
  [ "constructor"; "hasOwnProperty"; "isPrototypeOf";
    "propertyIsEnumerable"; "toLocaleString"; "toString"; "valueOf";
    "__defineGetter__"; "__defineSetter__"; "__lookupGetter__";
    "__lookupSetter__"; "__proto__" ].

Definition inherited (k : string) : bool :=
  existsb (String.eqb k) objectPrototypeKeys.

(** [arr.includes(x)] for an array of strings and a possibly undefined
    string [x]. *)
Definition includes (arr : list string) (x : option string) : bool :=
  match x with
  | None => false
  | Some s => existsb (String.eqb s) arr
  end.

(** [Array.prototype.sort(cmp)] for a consistent comparator: the sort is
    stable, so its result is the one of this insertion sort, which places
    an element before the first later one it does not exceed. *)
Fixpoint insert {A} (cmp : A -> A -> Z) (x : A) (l : list A) : list A :=
  match l with
  | [] => [x]
  | y :: t => if cmp x y <=? 0 then x :: y :: t else y :: insert cmp x t
  end.

Fixpoint stable_sort {A} (cmp : A -> A -> Z) (l : list A) : list A :=
  match l with
  | [] => []
  | x :: t => insert cmp x (stable_sort cmp t)
  end.

(** Array indices among property keys: a canonical decimal numeral
    below 2^32 - 1.  [Object.keys] lists them first, in numeric order. *)
Definition digitValue (c : ascii) : option N :=
  let n := N_of_ascii c in
  if ((48 <=? n) && (n <=? 57))%N then Some (n - 48)%N else None.

Fixpoint decimalValue (acc : N) (s : string) : option N :=
  match s with
  | EmptyString => Some acc
  | String c t =>
      match digitValue c with
      | Some d => decimalValue (acc * 10 + d)%N t
      | None => None
      end
  end.

Definition arrayIndex (s : string) : option N :=
  match s with
  | EmptyString => None
  | String "0" EmptyString => Some 0%N
  | String "0" _ => None
  | _ =>
      match decimalValue 0 s with
      | Some n => if (n <? 4294967295)%N then Some n else None
      | None => None
      end
  end.

Definition indexOr0 (s : string) : Z :=
  match arrayIndex s with
  | Some n => Z.of_N n
  | None => 0
  end.

Definition isIndexKey {V} (e : string * V) : bool :=
  match arrayIndex (fst e) with
  | Some _ => true
  | None => false
  end.

(** Enumeration order of the own properties of an object whose
    properties were created in the order of [o]. *)
Definition ownPropertyOrder {V} (o : list (string * V)) : list (string * V) :=
  stable_sort (fun a b => indexOr0 (fst a) - indexOr0 (fst b))
              (filter isIndexKey o)
  ++ filter (fun e => negb (isIndexKey e)) o.

(** [Math.round]: nearest integer, halves towards plus infinity. *)
Definition Math_round (x : Q) : Z := Qfloor (x + (1 # 2)).

Definition Math_ceil (x : Q) : Z := Qceiling x.

Definition Qltb (x y : Q) : bool := negb (Qle_bool y x).

Definition isZero (x : Q) : bool := Qeq_bool x 0.

End Js.

(** ** Binary64 rounding

    Every arithmetic operation of the source on fractional numbers is the
    exact operation followed by rounding to the nearest double, ties to
    even.  Overflow to an infinity is outside the model: the magnitudes
    involved are minutes, percentages and scores. *)

Module B64.

(** Nearest integer to [a / b], ties to even, for positive [b]. *)
Definition divNearestEven (a b : Z) : Z :=
  let q := a / b in
  let r := a mod b in
  if 2 * r <? b then q
  else if b <? 2 * r then q + 1
       else if Z.even q then q else q + 1.

(** [floor (log2 (n / d))] for positive [n], [d]. *)
Definition floorLog2 (n d : Z) : Z :=
  let k := Z.log2 n - Z.log2 d in
  if 0 <=? k
  then (if d * 2 ^ k <=? n then k else k - 1)
  else (if d <=? n * 2 ^ (- k) then k else k - 1).

(** The double nearest to the positive rational [n / d]: 53 significant
    bits, least significant bit never below 2^-1074. *)
Definition rndPos (n d : Z) : Q :=
  let s := Z.min (52 - floorLog2 n d) 1074 in
  if 0 <=? s
  then Qred (Qmake (divNearestEven (n * 2 ^ s) d) (Z.to_pos (2 ^ s)))
  else inject_Z (divNearestEven n (d * 2 ^ (- s)) * 2 ^ (- s)).

Definition rnd (q : Q) : Q :=
  match Qnum q with
  | Z0 => 0%Q
  | Zpos n => rndPos (Zpos n) (Zpos (Qden q))
  | Zneg n => Qopp (rndPos (Zpos n) (Zpos (Qden q)))
  end.

Definition add (x y : Q) : Q := rnd (x + y)%Q.
Definition sub (x y : Q) : Q := rnd (x - y)%Q.
Definition mul (x y : Q) : Q := rnd (x * y)%Q.
(** Division by a non-zero divisor. *)
Definition div (x y : Q) : Q := rnd (x / y)%Q.

(** A decimal literal of the source, e.g. [0.1] or [0.005]. *)
Definition lit (q : Q) : Q := rnd q.

End B64.

(** ** Data model *)

(** A unit of study material.  [dueDate] and [lastStudied] hold the
    millisecond timestamp the stored date denotes. *)
Module Item.
Record t : Type := mk {
  id : string;
  subject : option string;
  difficulty : Z;
  dueDate : option Z;
  estimatedDuration : option Z;
  previouslyStruggled : bool;
  lastStudied : option Z;
  dependsOn : option (list string);
  priorityScore : option Z;
  priority : option string;
  category : option string
}.
End Item.

(** A session produced by groupContentIntoSessions. *)
Module Session.
Record t : Type := mk {
  items : list Item.t;
  estimatedDuration : Z;
  priority : option string
}.
End Session.

Record Performance : Type := {
  averageScore : option Q;
  weakAreas : option (list string);
  strongAreas : option (list string)
}.

Record Habits : Type := {
  preferredStudyTime : option (list (string * Q));
  consistencyScore : option Q
}.

Record Preferences : Type := {
  studyDuration : option Z;
  breakDuration : option Z
}.

Record UserData : Type := {
  performance : option Performance;
  habits : option Habits;
  preferences : option Preferences
}.

(** ** Content prioritisation utilities *)

Module ContentPrioritization.

Import Js.

Definition areasOr (sel : Performance -> option (list string))
           (p : option Performance) : list string :=
  match p with
  | Some perf => match sel perf with Some a => a | None => [] end
  | None => []
  end.

(** *** prioritizeContent *)

Definition msPerDay : Z := 1000 * 60 * 60 * 24.

(** Factor 4.  [daysUntilDue] is the millisecond distance to the due
    date, floored at 0 and divided by [msPerDay]; its comparisons with 1,
    3 and 7 are comparisons of the distance with that many days. *)
Definition deadlineBonus (now : Z) (item : Item.t) : Z :=
  match Item.dueDate item with
  | None => 0
  | Some due =>
      let msUntilDue := Z.max 0 (due - now) in
      if msUntilDue <? 1 * msPerDay then 3
      else if msUntilDue <? 3 * msPerDay then 2
      else if msUntilDue <? 7 * msPerDay then 1
      else 0
  end.

Definition computePriorityScore (now : Z) (weak strong : list string)
           (item : Item.t) : Z :=
  let s0 := 5 in
  let s1 := if includes weak (Item.subject item) then s0 + 3 else s0 in
  let s2 := if includes strong (Item.subject item) then s1 - 2 else s1 in
  let s3 := s2 + Z.min 2 (Z.max 0 (Item.difficulty item - 3)) in
  let s4 := s3 + deadlineBonus now item in
  let s5 := if Item.previouslyStruggled item then s4 + 2 else s4 in
  match Item.lastStudied item with
  | None => s5 + 1
  | Some _ => s5
  end.

Definition priorityLevel (priorityScore : Z) : string :=
  if 10 <=? priorityScore then "critical"
  else if 8 <=? priorityScore then "high"
  else if 5 <=? priorityScore then "medium"
  else if 3 <=? priorityScore then "low"
  else "optional".

(** The body of the [forEach]: the item with its two computed fields
    overwritten. *)
Definition scoreItem (now : Z) (weak strong : list string)
           (item : Item.t) : Item.t :=
  let priorityScore := computePriorityScore now weak strong item in
  Item.mk (Item.id item) (Item.subject item) (Item.difficulty item)
          (Item.dueDate item) (Item.estimatedDuration item)
          (Item.previouslyStruggled item) (Item.lastStudied item)
          (Item.dependsOn item)
          (Some priorityScore) (Some (priorityLevel priorityScore))
          (Item.category item).

(** The score read back by the sort comparator; every item has one once
    the [forEach] has run. *)
Definition scoreOf (item : Item.t) : Z :=
  match Item.priorityScore item with
  | Some s => s
  | None => 0
  end.

Definition byScoreDescending (a b : Item.t) : Z := scoreOf b - scoreOf a.

Definition prioritizeContent (now : Z) (contentItems : option (list Item.t))
           (userData : option UserData) : list Item.t :=
  match contentItems, userData with
  | Some (first :: rest), Some ud =>
      let weak := areasOr weakAreas (performance ud) in
      let strong := areasOr strongAreas (performance ud) in
      let prioritizedItems := map (scoreItem now weak strong) (first :: rest) in
      stable_sort byScoreDescending prioritizedItems
  | _, _ => []
  end.

(** *** groupContentIntoSessions *)

(** What reading a key of the [priorities] literal gives once [|| 0] has
    been applied: a number, or a member inherited from the prototype. *)
Inductive PriorityValue : Type :=
| Number (n : Z)
| Inherited.

Definition getPriorityValue (priority : option string) : PriorityValue :=
  match priority with
  | None => Number 0
  | Some p =>
      if String.eqb p "critical" then Number 4
      else if String.eqb p "high" then Number 3
      else if String.eqb p "medium" then Number 2
      else if String.eqb p "low" then Number 1
      else if String.eqb p "optional" then Number 0
      else if inherited p then Inherited
      else Number 0
  end.

(** [candidate > highest] as the reducer evaluates it.  The right operand
    is always a number there (the accumulator starts at 'low' and is only
    replaced by an item that compared greater); an inherited member on
    the left converts to NaN and the comparison is false. *)
Definition exceeds (candidate highest : PriorityValue) : bool :=
  match candidate, highest with
  | Number c, Number h => h <? c
  | _, _ => false
  end.

(** The reducer keeps an object and only its [priority] is read
    afterwards: the accumulator is that field. *)
Definition highestPriority (items : list Item.t) : option string :=
  fold_left
    (fun highest item =>
       if exceeds (getPriorityValue (Item.priority item))
                  (getPriorityValue highest)
       then Item.priority item else highest)
    items (Some "low").

Definition itemDuration (item : Item.t) : Z :=
  match Item.estimatedDuration item with
  | None => 10
  | Some 0 => 10
  | Some d => d
  end.

Definition freshSession : Session.t := Session.mk [] 0 (Some "medium").

Definition withHighestPriority (s : Session.t) : Session.t :=
  Session.mk (Session.items s) (Session.estimatedDuration s)
             (highestPriority (Session.items s)).

(** Loop state: the [sessions] array and [currentSession]. *)
Record Grouping : Type := {
  sessions : list Session.t;
  currentSession : Session.t
}.

Definition addItem (sessionDuration : Z) (g : Grouping) (item : Item.t)
  : Grouping :=
  let duration := itemDuration item in
  let cur := currentSession g in
  let g' :=
    if (sessionDuration <? Session.estimatedDuration cur + duration)
       && (0 <? Z.of_nat (length (Session.items cur)))
    then {| sessions := sessions g ++ [withHighestPriority cur];
            currentSession := freshSession |}
    else g in
  let cur' := currentSession g' in
  {| sessions := sessions g';
     currentSession :=
       Session.mk (Session.items cur' ++ [item])
                  (Session.estimatedDuration cur' + duration)
                  (Session.priority cur') |}.

Definition flush (g : Grouping) : list Session.t :=
  if 0 <? Z.of_nat (length (Session.items (currentSession g)))
  then sessions g ++ [withHighestPriority (currentSession g)]
  else sessions g.

Definition groupContentIntoSessions (prioritizedItems : option (list Item.t))
           (sessionDuration : Z) : list Session.t :=
  match prioritizedItems with
  | Some (first :: rest) =>
      flush (fold_left (addItem sessionDuration) (first :: rest)
                       {| sessions := []; currentSession := freshSession |})
  | _ => []
  end.

(** *** recommendContentSequence *)

Definition subjectOf (item : Item.t) : string :=
  match Item.subject item with
  | None => "general"
  | Some "" => "general"
  | Some s => s
  end.

Definition Groups : Type := list (string * list Item.t).

(** [groups[subject].push(item)] on an own property, creating the
    property at the end when it does not exist yet. *)
Fixpoint pushTo (subject : string) (item : Item.t) (groups : Groups)
  : Groups :=
  match groups with
  | [] => [(subject, [item])]
  | (k, l) :: rest =>
      if String.eqb subject k then (k, l ++ [item]) :: rest
      else (k, l) :: pushTo subject item rest
  end.

(** The grouping reducer.  A subject named like a member of
    [Object.prototype] finds that member in [groups[subject]], which has
    no [push]. *)
Definition groupItem (groups : Result Groups) (item : Item.t)
  : Result Groups :=
  bind groups (fun g =>
    let subject := subjectOf item in
    if inherited subject then TypeError
    else Ok (pushTo subject item g)).

Definition dependsOnIncludes (a : Item.t) (other : string) : bool :=
  match Item.dependsOn a with
  | Some deps => existsb (String.eqb other) deps
  | None => false
  end.

Definition dependencyCompare (a b : Item.t) : Z :=
  if dependsOnIncludes a (Item.id b) then 1
  else if dependsOnIncludes b (Item.id a) then -1
  else Item.difficulty a - Item.difficulty b.

(** One pass of [subjects.forEach]: the item at [index] of every subject
    that has one. *)
Definition roundAt (index : nat) (bySubject : Groups) : list Item.t :=
  flat_map (fun g => match nth_error (snd g) index with
                     | Some item => [item]
                     | None => []
                     end) bySubject.

(** The [while (hasMore)] loop; [None] when the fuel runs out before
    [hasMore] becomes false. *)
Fixpoint interleave (fuel index : nat) (bySubject : Groups)
         (result : list Item.t) : option (list Item.t) :=
  match fuel with
  | O => None
  | S fuel' =>
      match roundAt index bySubject with
      | [] => Some result
      | emitted => interleave fuel' (S index) bySubject (result ++ emitted)
      end
  end.

Section Sequencer.

(** The comparator of the per-subject sort is not a consistent one, so
    the order the engine produces is its own; only the elements are
    fixed. *)
Variable engineSort : (Item.t -> Item.t -> Z) -> list Item.t -> list Item.t.

Definition sortGroups (bySubject : Groups) : Groups :=
  map (fun g => (fst g, engineSort dependencyCompare (snd g)))
      (ownPropertyOrder bySubject).

Definition recommendContentSequence (contentItems : option (list Item.t))
  : option (Result (list Item.t)) :=
  match contentItems with
  | Some (first :: rest) =>
      match fold_left groupItem (first :: rest) (Ok []) with
      | TypeError => Some TypeError
      | Ok bySubject =>
          option_map Ok
            (interleave (S (length (first :: rest))) 0
                        (sortGroups bySubject) [])
      end
  | _ => Some (Ok [])
  end.

End Sequencer.

(** *** generateBalancedStudyMix *)

(** Weak / strong / new percentages. *)
Definition mixPercentages (perf : option Performance) : Z * Z * Z :=
  match perf with
  | None => (60, 20, 20)
  | Some p =>
      let avgScore :=
        match averageScore p with
        | Some a => if isZero a then 70%Q else a
        | None => 70%Q
        end in
      if Qltb avgScore 60 then (70, 15, 15)
      else if Qltb 85 avgScore then (40, 20, 40)
      else (60, 20, 20)
  end.

(** [Math.round(totalItems * (percentage / 100))]. *)
Definition shareOf (totalItems percentage : Z) : Z :=
  Math_round (B64.mul (inject_Z totalItems)
                      (B64.div (inject_Z percentage) 100)).

(** weakCount, strongCount and the initial newCount. *)
Definition targetCounts (contentItems : list Item.t)
           (perf : option Performance) : Z * Z * Z :=
  let '(weakPct, strongPct, newPct) := mixPercentages perf in
  let totalItems := Z.min (Z.of_nat (length contentItems)) 10 in
  (shareOf totalItems weakPct, shareOf totalItems strongPct,
   shareOf totalItems newPct).

Definition tag (c : string) (item : Item.t) : Item.t :=
  Item.mk (Item.id item) (Item.subject item) (Item.difficulty item)
          (Item.dueDate item) (Item.estimatedDuration item)
          (Item.previouslyStruggled item) (Item.lastStudied item)
          (Item.dependsOn item) (Item.priorityScore item)
          (Item.priority item) (Some c).

Definition sliceFront (count : Z) (l : list Item.t) : list Item.t :=
  firstn (Z.to_nat (Z.min count (Z.of_nat (length l)))) l.

Definition generateBalancedStudyMix (contentItems : option (list Item.t))
           (perf : option Performance) : list Item.t :=
  match contentItems with
  | Some (first :: rest) =>
      let items := first :: rest in
      let '(weakCount, strongCount, newCount0) := targetCounts items perf in
      let weak := areasOr weakAreas perf in
      let strong := areasOr strongAreas perf in
      let weakAreaItems :=
        filter (fun i => includes weak (Item.subject i)) items in
      let strongAreaItems :=
        filter (fun i => includes strong (Item.subject i)) items in
      let newContentItems :=
        filter (fun i => negb (includes weak (Item.subject i))
                         && negb (includes strong (Item.subject i))) items in
      let weakLen := Z.of_nat (length weakAreaItems) in
      let strongLen := Z.of_nat (length strongAreaItems) in
      let newCount1 :=
        if weakLen <? weakCount then newCount0 + (weakCount - weakLen)
        else newCount0 in
      let newCount :=
        if strongLen <? strongCount then newCount1 + (strongCount - strongLen)
        else newCount1 in
      map (tag "weak-area") (sliceFront weakCount weakAreaItems)
      ++ map (tag "strong-area") (sliceFront strongCount strongAreaItems)
      ++ map (tag "new-content") (sliceFront newCount newContentItems)
  | _ => []
  end.

End ContentPrioritization.

(** ** Adaptive scheduling utilities *)

(** A [Date] in local time: a calendar day number and the milliseconds
    elapsed within that day. *)
Module Date.
Record t : Type := mk {
  day : Z;
  timeOfDay : Z
}.

Definition toMs (d : t) : Z := day d * 86400000 + timeOfDay d.

(** [d.setHours(h, 0, 0, 0)]. *)
Definition setHours (d : t) (h : Z) : t := mk (day d) (h * 3600000).

(** [d.setDate(d.getDate() + 1)]: the same time on the next calendar day. *)
Definition nextDay (d : t) : t := mk (day d + 1) (timeOfDay d).
End Date.

(** A session of the schedule. *)
Module StudySession.
Record t : Type := mk {
  date : Date.t;
  items : list Item.t;
  duration : Z;
  breakDuration : Z;
  completed : bool
}.
End StudySession.

(** Recent performance data given to the schedule adjustment. *)
Module Feedback.
Record t : Type := mk {
  completedItems : option (list Item.t);
  struggledItems : option (list Item.t);
  averageScore : option Q
}.
End Feedback.

Module AdaptiveScheduling.

Import Js.

(** *** generateAdaptiveSchedule *)

(** The [defaultHours] literal. *)
Definition defaultHours (period : string) : option (Z * Z) :=
  if String.eqb period "morning" then Some (9, 11)
  else if String.eqb period "afternoon" then Some (14, 16)
  else if String.eqb period "evening" then Some (19, 21)
  else None.

Definition preferredTimeOf (h : option Habits) : list (string * Q) :=
  match h with
  | Some hb => match preferredStudyTime hb with Some m => m | None => [] end
  | None => []
  end.

(** The [forEach] over [Object.entries(preferredTime)], which lists the
    properties in their enumeration order (index-like keys first); the
    state is [(bestPeriod, highestScore)]. *)
Definition bestPeriod (h : option Habits) : string :=
  fst (fold_left
         (fun (acc : string * Q) (entry : string * Q) =>
            if Qltb (snd acc) (snd entry) then (fst entry, snd entry) else acc)
         (ownPropertyOrder (preferredTimeOf h)) ("evening", 0%Q)).

(** [defaultHours[bestPeriod]].  [None] is a value that cannot be
    destructured as an array: [undefined] for a name the literal lacks, or
    a member inherited from the prototype. *)
Definition getBestStudyHours (h : option Habits) : option (Z * Z) :=
  defaultHours (bestPeriod h).

Definition isWeak (perf : option Performance) (item : Item.t) : bool :=
  match perf with
  | Some p =>
      match weakAreas p with
      | Some w => includes w (Item.subject item)
      | None => false
      end
  | None => false
  end.

Definition weakThenHard (perf : option Performance) (a b : Item.t) : Z :=
  let aIsWeak := isWeak perf a in
  let bIsWeak := isWeak perf b in
  if aIsWeak && negb bIsWeak then -1
  else if negb aIsWeak && bIsWeak then 1
  else Item.difficulty b - Item.difficulty a.

Definition consistencyOf (h : option Habits) : Q :=
  match h with
  | Some hb =>
      match consistencyScore hb with
      | Some c => if isZero c then (1 # 2)%Q else c
      | None => (1 # 2)%Q
      end
  | None => (1 # 2)%Q
  end.

(** [Math.max(1, Math.min(3, Math.ceil(length / (days * consistency))))].
    A zero product makes the quotient an infinity of the sign of the
    consistency score. *)
Definition itemsPerDayOf (len daysToSchedule : Z) (h : option Habits) : Z :=
  let consistency := consistencyOf h in
  let denominator := B64.mul (inject_Z daysToSchedule) consistency in
  if isZero denominator
  then (if Qltb 0 consistency then 3 else 1)
  else Z.max 1 (Z.min 3 (Math_ceil (B64.div (inject_Z len) denominator))).

Definition averageScoreOf (perf : option Performance) : Q :=
  match perf with
  | Some p =>
      match averageScore p with
      | Some a => if isZero a then 70%Q else a
      | None => 70%Q
      end
  | None => 70%Q
  end.

Definition studyDurationOf (prefs : option Preferences) : Z :=
  match prefs with
  | Some p =>
      match studyDuration p with
      | Some 0 => 25
      | Some d => d
      | None => 25
      end
  | None => 25
  end.

Definition breakDurationOf (prefs : option Preferences) : Z :=
  match prefs with
  | Some p =>
      match breakDuration p with
      | Some 0 => 5
      | Some d => d
      | None => 5
      end
  | None => 5
  end.

Definition adjustedDurationOf (baseStudyDuration : Z) (averageScore : Q)
           (dayItems : list Item.t) : Z :=
  let total := fold_left (fun sum item => sum + Item.difficulty item) dayItems 0 in
  let difficultyFactor :=
    B64.div (inject_Z total) (inject_Z (Z.of_nat (length dayItems))) in
  Math_round
    (B64.mul
       (B64.mul (inject_Z baseStudyDuration)
                (B64.add 1 (B64.mul (B64.sub difficultyFactor 3)
                                    (B64.lit (1 # 10)))))
       (B64.add 1 (B64.mul (B64.sub 70 averageScore) (B64.lit (5 # 1000))))).

(** The items of one day, by cyclic indexing; an index outside the array
    reads [undefined]. *)
Definition dayItemsAt (sortedContent : list Item.t) (itemsPerDay day : Z)
  : list (option Item.t) :=
  let len := Z.of_nat (length sortedContent) in
  let startIndex := Z.rem (day * itemsPerDay) len in
  map (fun i => nth_error sortedContent
                          (Z.to_nat (Z.rem (startIndex + Z.of_nat i) len)))
      (seq 0 (Z.to_nat itemsPerDay)).

(** One iteration of the [for] loop over the days.  Destructuring the
    hours raises when there are none; reading [difficulty] of an undefined
    item raises too. *)
Definition scheduleDay (ud : UserData) (sortedContent : list Item.t)
           (itemsPerDay day : Z) (currentDate : Date.t)
  : Result StudySession.t :=
  let dayItems := dayItemsAt sortedContent itemsPerDay day in
  match getBestStudyHours (habits ud) with
  | None => TypeError
  | Some (startHour, endHour) =>
      let sessionDate := Date.setHours currentDate startHour in
      bind (mapM (fun o : option Item.t =>
                    match o with Some i => Ok i | None => TypeError end)
                 dayItems)
           (fun items =>
              Ok (StudySession.mk sessionDate items
                    (adjustedDurationOf (studyDurationOf (preferences ud))
                                        (averageScoreOf (performance ud)) items)
                    (breakDurationOf (preferences ud)) false))
  end.

(** [remaining] iterations of the loop, starting at [day]. *)
Fixpoint scheduleFrom (ud : UserData) (sortedContent : list Item.t)
         (itemsPerDay : Z) (remaining : nat) (day : Z) (currentDate : Date.t)
  : Result (list StudySession.t) :=
  match remaining with
  | O => Ok []
  | S remaining' =>
      bind (scheduleDay ud sortedContent itemsPerDay day currentDate)
           (fun session =>
              bind (scheduleFrom ud sortedContent itemsPerDay remaining'
                                 (day + 1) (Date.nextDay currentDate))
                   (fun later => Ok (session :: later)))
  end.

Definition generateAdaptiveSchedule (userData : option UserData)
           (contentItems : option (list Item.t)) (startDate : Date.t)
           (daysToSchedule : Z) : Result (list StudySession.t) :=
  match userData, contentItems with
  | Some ud, Some (first :: rest) =>
      let sortedContent :=
        stable_sort (weakThenHard (performance ud)) (first :: rest) in
      let itemsPerDay :=
        itemsPerDayOf (Z.of_nat (length sortedContent)) daysToSchedule
                      (habits ud) in
      scheduleFrom ud sortedContent itemsPerDay (Z.to_nat daysToSchedule)
                   0 startDate
  | _, _ => Ok []
  end.

(** *** adjustScheduleBasedOnPerformance *)

Fixpoint findIndex {A} (p : A -> bool) (l : list A) : option nat :=
  match l with
  | [] => None
  | x :: t => if p x then Some O else option_map S (findIndex p t)
  end.

(** [arr[i] = v] for an index inside the array. *)
Fixpoint assignAt {A} (i : nat) (v : A) (l : list A) : list A :=
  match l, i with
  | [], _ => []
  | _ :: t, O => v :: t
  | x :: t, S i' => x :: assignAt i' v t
  end.

Definition reinforce (reinforcementNeeded : list Item.t)
           (s : StudySession.t) : StudySession.t :=
  StudySession.mk (StudySession.date s)
                  (firstn 2 reinforcementNeeded ++ StudySession.items s)
                  (StudySession.duration s + 10)
                  (StudySession.breakDuration s)
                  (StudySession.completed s).

Definition shorten (s : StudySession.t) : StudySession.t :=
  StudySession.mk (StudySession.date s) (StudySession.items s)
                  (Z.max 15 (StudySession.duration s - 5))
                  (StudySession.breakDuration s)
                  (StudySession.completed s).

(** The struggled-items step. *)
Definition addReinforcement (now : Date.t) (f : Feedback.t)
           (updatedSchedule : list StudySession.t) : list StudySession.t :=
  let reinforcementNeeded :=
    match Feedback.struggledItems f with Some l => l | None => [] end in
  if (0 <? Z.of_nat (length reinforcementNeeded))
     && (0 <? Z.of_nat (length updatedSchedule))
  then
    match findIndex (fun s => Date.toMs now <? Date.toMs (StudySession.date s))
                    updatedSchedule with
    | Some nextSessionIndex =>
        match nth_error updatedSchedule nextSessionIndex with
        | Some next =>
            assignAt nextSessionIndex (reinforce reinforcementNeeded next)
                     updatedSchedule
        | None => updatedSchedule
        end
    | None => updatedSchedule
    end
  else updatedSchedule.

(** The [forEach] of the good-performance step, from position [index]. *)
Fixpoint shortenFrom (index : nat) (l : list StudySession.t)
  : list StudySession.t :=
  match l with
  | [] => []
  | session :: t =>
      (if (0 <? index)%nat then shorten session else session)
        :: shortenFrom (S index) t
  end.

Definition performsWell (f : Feedback.t) : bool :=
  match Feedback.averageScore f with
  | Some a => negb (isZero a) && Qltb 85 a
  | None => false
  end.

Definition adjustScheduleBasedOnPerformance (now : Date.t)
           (currentSchedule : option (list StudySession.t))
           (performanceFeedback : option Feedback.t)
  : option (list StudySession.t) :=
  match currentSchedule, performanceFeedback with
  | Some schedule, Some f =>
      let updatedSchedule := addReinforcement now f schedule in
      Some (if performsWell f then shortenFrom 0 updatedSchedule
            else updatedSchedule)
  | _, _ => currentSchedule
  end.

End AdaptiveScheduling.

(** ** The full user record

    The fields of the user data the remaining utilities read, around the
    records above. *)

Module Profile.

(** One day of the completion history. *)
Record DayRecord : Type := {
  date : string;
  sessionsCompleted : Z;
  duration : Z
}.

Record HabitDetails : Type := {
  core : Habits;
  averageSessionLength : option Q;
  distractionLevel : option string;
  completionHistory : option (list DayRecord)
}.

Record PerformanceDetails : Type := {
  scores : Performance;
  completionRate : option Q
}.

Record Accessibility : Type := {
  highContrast : option bool;
  largeText : option bool;
  screenReader : option bool;
  motionReduced : option bool
}.

Record t : Type := {
  performance : option PerformanceDetails;
  habits : option HabitDetails;
  preferences : option Preferences;
  accessibility : option Accessibility
}.

Definition averageScoreOf (p : PerformanceDetails) : option Q :=
  averageScore (scores p).

End Profile.

(** ** Adaptive behaviour utilities *)

Module AdaptiveBehavior.

Import Js.

(** [x > t] and [x < t] for a possibly undefined number [x]: a comparison
    with [undefined] is false. *)
Definition above (x : option Q) (t : Q) : bool :=
  match x with
  | Some a => Qltb t a
  | None => false
  end.

Definition below (x : option Q) (t : Q) : bool :=
  match x with
  | Some a => Qltb a t
  | None => false
  end.

(** *** calculateBestLearningTime

    [Object.entries(preferredStudyTime)] lists the properties in their
    enumeration order, index-like keys first. *)

Definition calculateBestLearningTime (h : option Habits) : string :=
  match h with
  | None => "evening"
  | Some hb =>
      match preferredStudyTime hb with
      | None => "evening"
      | Some preferred =>
          fst (fold_left
                 (fun (acc : string * Q) (entry : string * Q) =>
                    if Qltb (snd acc) (snd entry)
                    then (fst entry, snd entry) else acc)
                 (ownPropertyOrder preferred) ("evening", 0%Q))
      end
  end.

(** *** determineLayoutComplexity *)

Definition determineLayoutComplexity
           (perf : option Profile.PerformanceDetails) (deviceType : string)
  : string :=
  match perf with
  | None => "simple"
  | Some p =>
      let averageScore := Profile.averageScoreOf p in
      let completionRate := Profile.completionRate p in
      if String.eqb deviceType "mobile" then "simple"
      else if above averageScore 80 && above completionRate (B64.lit (7 # 10))
      then "advanced"
      else if above averageScore 60 && above completionRate (B64.lit (5 # 10))
      then "standard"
      else "guided"
  end.

(** *** calculateOptimalStudyDuration

    [None] is NaN: the result when [performance] carries no average
    score. *)
Definition calculateOptimalStudyDuration
           (h : option Profile.HabitDetails)
           (perf : option Profile.PerformanceDetails) : option Z :=
  match h, perf with
  | Some hb, Some p =>
      let baseTime :=
        match Profile.averageSessionLength hb with
        | Some l => if isZero l then 25%Q else l
        | None => 25%Q
        end in
      match Profile.averageScoreOf p with
      | None => None
      | Some score =>
          let perfFactor := B64.div score 100 in
          let optimalTime :=
            B64.mul baseTime
                    (B64.add (B64.lit (7 # 10))
                             (B64.mul (B64.lit (5 # 10)) perfFactor)) in
          Some (Math_round (B64.div optimalTime 5) * 5)
      end
  | _, _ => Some 25
  end.

(** *** shouldChunkContent *)

(** [thresholds[contentType] || 70]; [None] is a member inherited from the
    prototype, which compares false with every score. *)
Definition chunkThreshold (contentType : option string) : option Q :=
  match contentType with
  | None => Some 70%Q
  | Some c =>
      if String.eqb c "reading" then Some 70%Q
      else if String.eqb c "video" then Some 60%Q
      else if String.eqb c "practice" then Some 75%Q
      else if String.eqb c "quiz" then Some 80%Q
      else if inherited c then None
      else Some 70%Q
  end.

Definition shouldChunkContent (perf : option Profile.PerformanceDetails)
           (contentType : option string) : bool :=
  match perf with
  | None => true
  | Some p =>
      match chunkThreshold contentType with
      | Some threshold => below (Profile.averageScoreOf p) threshold
      | None => false
      end
  end.

(** *** getAccessibilityRecommendations *)

Definition truthy (b : option bool) : bool :=
  match b with
  | Some true => true
  | _ => false
  end.

Definition noRecommendations : Profile.Accessibility :=
  {| Profile.highContrast := Some false;
     Profile.largeText := Some false;
     Profile.screenReader := Some false;
     Profile.motionReduced := Some false |}.

(** [{ ...accessibility }]: the explicit settings, none when the user has
    no accessibility record. *)
Definition spreadAccessibility (a : option Profile.Accessibility)
  : Profile.Accessibility :=
  match a with
  | Some s => s
  | None => {| Profile.highContrast := None;
               Profile.largeText := None;
               Profile.screenReader := None;
               Profile.motionReduced := None |}
  end.

Definition withLargeText (a : Profile.Accessibility) (v : option bool)
  : Profile.Accessibility :=
  {| Profile.highContrast := Profile.highContrast a;
     Profile.largeText := v;
     Profile.screenReader := Profile.screenReader a;
     Profile.motionReduced := Profile.motionReduced a |}.

Definition getAccessibilityRecommendations (userData : option Profile.t)
           (deviceType : string) : Profile.Accessibility :=
  match userData with
  | None => noRecommendations
  | Some ud =>
      let r0 := spreadAccessibility (Profile.accessibility ud) in
      let r1 :=
        if String.eqb deviceType "mobile"
        then withLargeText r0
               (if truthy (Profile.largeText r0)
                then Profile.largeText r0 else Some true)
        else r0 in
      match Profile.performance ud, Profile.habits ud with
      | Some p, Some hb =>
          if below (Profile.averageScoreOf p) 65
             && above (Profile.averageSessionLength hb) 45
          then withLargeText r1 (Some true)
          else r1
      | _, _ => r1
      end
  end.

(** *** generateAdaptiveUIHints *)

Record UIHints : Type := {
  simplifyNavigation : bool;
  useVisualAids : bool;
  useStepByStep : bool;
  suggestMoreBreaks : bool;
  highlightKeyInfo : bool;
  useCompactLayout : bool;
  emphasizeProgress : bool
}.

Definition profileAverageScore (userData : option Profile.t) : option Q :=
  match userData with
  | Some ud =>
      match Profile.performance ud with
      | Some p => Profile.averageScoreOf p
      | None => None
      end
  | None => None
  end.

Definition profileHabits (userData : option Profile.t)
  : option Profile.HabitDetails :=
  match userData with
  | Some ud => Profile.habits ud
  | None => None
  end.

Definition profileConsistency (userData : option Profile.t) : option Q :=
  match profileHabits userData with
  | Some hb => consistencyScore (Profile.core hb)
  | None => None
  end.

Definition generateAdaptiveUIHints (userData : option Profile.t)
           (deviceType timeOfDay adaptiveLayout : string) : UIHints :=
  {| simplifyNavigation :=
       String.eqb timeOfDay "night" || String.eqb deviceType "mobile";
     useVisualAids := below (profileAverageScore userData) 70;
     useStepByStep := below (profileConsistency userData) (B64.lit (6 # 10));
     suggestMoreBreaks :=
       Qltb 40
            (match profileHabits userData with
             | Some hb =>
                 match Profile.averageSessionLength hb with
                 | Some l => l
                 | None => 0%Q
                 end
             | None => 0%Q
             end);
     highlightKeyInfo :=
       String.eqb timeOfDay "morning"
       || match profileHabits userData with
          | Some hb =>
              match Profile.distractionLevel hb with
              | Some level => String.eqb level "high"
              | None => false
              end
          | None => false
          end;
     useCompactLayout :=
       String.eqb deviceType "mobile" || String.eqb adaptiveLayout "focused";
     emphasizeProgress :=
       below (profileConsistency userData) (B64.lit (7 # 10)) |}.

End AdaptiveBehavior.

(** ** Remaining scheduling utilities *)

Module StudyRhythm.

Import Js.

(** *** calculateOptimalBreakTime *)

Definition calculateOptimalBreakTime
           (sessionDuration userFatigueLevel contentDifficulty : Q) : Z :=
  let baseBreak := Z.max 5 (Math_round (B64.div sessionDuration 5)) in
  let fatigueAdjustment := B64.mul (B64.sub userFatigueLevel 5) (1 # 2) in
  let difficultyAdjustment := B64.mul (B64.sub contentDifficulty 3) (1 # 2) in
  let breakTime :=
    Math_round (B64.add (B64.add (inject_Z baseBreak) fatigueAdjustment)
                        difficultyAdjustment) in
  Z.max 5 (Z.min 20 breakTime).

(** *** detectStudyPattern *)

Record StudyPattern : Type := {
  pattern : string;
  recommendation : string;
  averageSessions : option Q;
  averageDuration : option Q
}.

Definition totalSessionsOf (history : list Profile.DayRecord) : Z :=
  fold_left (fun sum day => sum + Profile.sessionsCompleted day) history 0.

Definition totalDurationOf (history : list Profile.DayRecord) : Z :=
  fold_left (fun sum day => sum + Profile.duration day) history 0.

Definition detectStudyPattern (h : option Profile.HabitDetails)
  : StudyPattern :=
  let unknown :=
    {| pattern := "unknown";
       recommendation :=
         "Start with short, regular study sessions to establish a pattern";
       averageSessions := None;
       averageDuration := None |} in
  match h with
  | None => unknown
  | Some hb =>
      match Profile.completionHistory hb with
      | None => unknown
      | Some [] => unknown
      | Some history =>
          let totalSessions := totalSessionsOf history in
          let avgSessions :=
            B64.div (inject_Z totalSessions)
                    (inject_Z (Z.of_nat (length history))) in
          let totalDuration := totalDurationOf history in
          let avgDuration :=
            if 0 <? totalSessions
            then B64.div (inject_Z totalDuration) (inject_Z totalSessions)
            else 0%Q in
          let labelled (p r : string) :=
            {| pattern := p; recommendation := r;
               averageSessions := Some avgSessions;
               averageDuration := Some avgDuration |} in
          if Qle_bool (5 # 2) avgSessions
          then labelled "frequent-short"
                 "You study frequently in short bursts. Try grouping sessions for deeper focus."
          else if Qle_bool 1 avgSessions && Qle_bool 45 avgDuration
          then labelled "daily-long"
                 "You prefer longer daily sessions. Consider adding more breaks to maintain effectiveness."
          else if Qltb avgSessions 1 && Qle_bool 60 avgDuration
          then labelled "infrequent-intensive"
                 "You study intensively but infrequently. Try adding shorter, more regular sessions."
          else labelled "irregular"
                 "Your study pattern is still developing. Aim for consistency with 25-minute focused sessions."
      end
  end.

End StudyRhythm.

(** ** Context providers: the state updates they compute *)

Module Providers.

Import Js.

(** *** UserProvider.addStudySession

    The function handed to [setUserData], on the completion history;
    [today] is the ISO date of the call. *)
Fixpoint bumpEntry (today : string) (minutes : Z)
         (history : list Profile.DayRecord) : option (list Profile.DayRecord) :=
  match history with
  | [] => None
  | entry :: rest =>
      if String.eqb (Profile.date entry) today
      then Some ({| Profile.date := Profile.date entry;
                    Profile.sessionsCompleted :=
                      Profile.sessionsCompleted entry + 1;
                    Profile.duration := Profile.duration entry + minutes |}
                   :: rest)
      else option_map (cons entry) (bumpEntry today minutes rest)
  end.


(** *** AdaptiveProvider *)

(** [handleResize], on [window.innerWidth]. *)
Definition deviceTypeOf (innerWidth : Z) : string :=
  if innerWidth <=? 480 then "mobile"
  else if innerWidth <=? 1024 then "tablet"
  else "desktop".

(** [updateTimeOfDay], on the hour of the clock. *)
Definition timeOfDayOf (hour : Z) : string :=
  if (5 <=? hour) && (hour <? 12) then "morning"
  else if (12 <=? hour) && (hour <? 17) then "afternoon"
  else if (17 <=? hour) && (hour <? 21) then "evening"
  else "night".

(** *** ThemeProvider *)

Definition themeNames : list string :=
  ["default"; "highContrast"; "night"; "focus"].

(** The first effect's choice of theme. *)
Definition selectTheme (highContrast focusMode : bool) (timeOfDay : string)
  : string :=
  if highContrast then "highContrast"
  else if focusMode then "focus"
  else if String.eqb timeOfDay "night" then "night"
  else "default".

(** [changeTheme]: the new active theme.  [themeOptions[themeName]] is
    truthy for the four themes and for every inherited member. *)
Definition changeTheme (activeTheme themeName : string) : string :=
  if existsb (String.eqb themeName) themeNames || inherited themeName
  then themeName else activeTheme.

Definition toggleAnimation (animation : string) : string :=
  if String.eqb animation "enabled" then "reduced" else "enabled".

End Providers.

(** * Properties *)

(** ** The stable sort *)

Module SortFacts.

Import Js.

Section Sorting.

Context {A : Type}.
Variable cmp : A -> A -> Z.

(** [a] may stand before [b]. *)
Definition before (a b : A) : Prop := cmp a b <= 0.

Lemma insert_perm x l : Permutation (x :: l) (insert cmp x l).
Proof.
  induction l as [|y t IH]; simpl.
  - apply Permutation_refl.
  - destruct (cmp x y <=? 0).
    + apply Permutation_refl.
    + eapply Permutation_trans; [apply perm_swap|].
      apply perm_skip, IH.
Qed.

Lemma stable_sort_perm l : Permutation l (stable_sort cmp l).
Proof.
  induction l as [|x t IH]; simpl.
  - apply Permutation_refl.
  - eapply Permutation_trans; [|apply insert_perm].
    apply perm_skip, IH.
Qed.

Lemma stable_sort_length l : length (stable_sort cmp l) = length l.
Proof. symmetry. apply Permutation_length, stable_sort_perm. Qed.

Lemma stable_sort_in x l : In x (stable_sort cmp l) -> In x l.
Proof.
  apply Permutation_in, Permutation_sym, stable_sort_perm.
Qed.

(** An element that may stand before the head of a list is inserted in
    front of it. *)
Lemma insert_front x l : HdRel before x l -> insert cmp x l = x :: l.
Proof.
  intros H. destruct l as [|y t]; simpl; [reflexivity|].
  inversion H as [|? ? Hxy]; subst. unfold before in Hxy.
  apply Z.leb_le in Hxy. rewrite Hxy. reflexivity.
Qed.

(** Sorting a sorted array leaves it as it is. *)
Lemma stable_sort_sorted_id l : Sorted before l -> stable_sort cmp l = l.
Proof.
  induction 1 as [|x t Hs IH Hhd]; simpl; [reflexivity|].
  rewrite IH. apply insert_front, Hhd.
Qed.

Hypothesis cmp_total : forall a b, cmp a b <= 0 \/ cmp b a <= 0.

Lemma insert_sorted x l : Sorted before l -> Sorted before (insert cmp x l).
Proof.
  induction 1 as [|y t Hs IH Hhd]; simpl.
  - repeat constructor.
  - destruct (cmp x y <=? 0) eqn:E.
    + apply Z.leb_le in E. repeat constructor; assumption.
    + apply Z.leb_gt in E.
      constructor; [exact IH|].
      destruct t as [|z t']; simpl.
      * constructor. unfold before. destruct (cmp_total x y); lia.
      * destruct (cmp x z <=? 0).
        -- constructor. unfold before. destruct (cmp_total x y); lia.
        -- inversion Hhd; subst. constructor. assumption.
Qed.

Lemma stable_sort_sorted l : Sorted before (stable_sort cmp l).
Proof.
  induction l as [|x t IH]; simpl; [constructor|].
  apply insert_sorted, IH.
Qed.

Lemma stable_sort_idempotent l :
  stable_sort cmp (stable_sort cmp l) = stable_sort cmp l.
Proof. apply stable_sort_sorted_id, stable_sort_sorted. Qed.

End Sorting.

End SortFacts.

(** ** Prioritisation *)

Module PrioritizationFacts.

Import Js ContentPrioritization.

Lemma byScoreDescending_total a b :
  byScoreDescending a b <= 0 \/ byScoreDescending b a <= 0.
Proof. unfold byScoreDescending. lia. Qed.

(** Scoring reads none of the fields it writes. *)
Lemma scoreItem_again now weak strong item :
  scoreItem now weak strong (scoreItem now weak strong item)
  = scoreItem now weak strong item.
Proof. destruct item. reflexivity. Qed.

Lemma map_fixed {A} (f : A -> A) l :
  (forall x, In x l -> f x = x) -> map f l = l.
Proof.
  induction l as [|x t IH]; intros H; simpl; [reflexivity|].
  rewrite (H x (or_introl eq_refl)), IH; [reflexivity|].
  intros y Hy. apply H. right. exact Hy.
Qed.

Lemma prioritizeContent_present now l ud :
  prioritizeContent now (Some l) (Some ud)
  = stable_sort byScoreDescending
      (map (scoreItem now (areasOr weakAreas (performance ud))
                      (areasOr strongAreas (performance ud))) l).
Proof. destruct l; reflexivity. Qed.

Lemma prioritizeContent_absent_user now contentItems :
  prioritizeContent now contentItems None = [].
Proof. destruct contentItems as [[|? ?]|]; reflexivity. Qed.

(** C8: with the clock fixed, prioritizeContent applied to its own output
    (same userData) returns that output again: same order, same
    priorityScore and priority on every item. *)
Theorem prioritizeContent_idempotent :
  forall (now : Z) (contentItems : option (list Item.t))
         (userData : option UserData),
    prioritizeContent now (Some (prioritizeContent now contentItems userData))
                      userData
    = prioritizeContent now contentItems userData.
Proof.
  intros now contentItems [ud|].
  2:{ rewrite !prioritizeContent_absent_user. reflexivity. }
  destruct contentItems as [l|]; [|reflexivity].
  rewrite !prioritizeContent_present.
  set (f := scoreItem now _ _).
  rewrite (map_fixed f).
  - apply SortFacts.stable_sort_idempotent, byScoreDescending_total.
  - intros x Hx. apply SortFacts.stable_sort_in in Hx.
    apply in_map_iff in Hx. destruct Hx as [y [<- _]].
    apply scoreItem_again.
Qed.

End PrioritizationFacts.

(** ** Session grouping *)

Module GroupingFacts.

Import Js ContentPrioritization.

Definition totalDuration (items : list Item.t) : Z :=
  fold_right (fun item acc => itemDuration item + acc) 0 items.

(** The duration an item declares, 10 only when none is recorded. *)
Definition declaredDuration (item : Item.t) : Z :=
  match Item.estimatedDuration item with
  | None => 10
  | Some d => d
  end.

Definition totalDeclared (items : list Item.t) : Z :=
  fold_right (fun item acc => declaredDuration item + acc) 0 items.

(** All items held by a grouping state, in order. *)
Definition heldItems (g : Grouping) : list Item.t :=
  concat (map Session.items (sessions g)) ++ Session.items (currentSession g).

(** A session within the target, or a lone item above it. *)
Definition withinTarget (sessionDuration : Z) (s : Session.t) : Prop :=
  Session.estimatedDuration s = totalDuration (Session.items s)
  /\ (totalDuration (Session.items s) <= sessionDuration
      \/ exists item, Session.items s = [item]
                      /\ sessionDuration < itemDuration item).

(** The same bound read on the declared durations. *)
Definition withinTargetDeclared (sessionDuration : Z) (s : Session.t) : Prop :=
  totalDeclared (Session.items s) <= sessionDuration
  \/ exists item, Session.items s = [item]
                  /\ sessionDuration < declaredDuration item.

Definition groupingInvariant (sessionDuration : Z) (g : Grouping) : Prop :=
  Forall (withinTarget sessionDuration) (sessions g)
  /\ Forall (fun s => Session.items s <> []) (sessions g)
  /\ Session.estimatedDuration (currentSession g)
     = totalDuration (Session.items (currentSession g))
  /\ (Session.items (currentSession g) = []
      \/ withinTarget sessionDuration (currentSession g)).

Lemma totalDuration_app a b :
  totalDuration (a ++ b) = totalDuration a + totalDuration b.
Proof.
  induction a as [|x a IH]; simpl; [reflexivity|].
  rewrite IH. lia.
Qed.

Lemma declared_le_duration item : declaredDuration item <= itemDuration item.
Proof.
  unfold declaredDuration, itemDuration.
  destruct (Item.estimatedDuration item) as [[| |]|]; lia.
Qed.

Lemma totalDeclared_le items : totalDeclared items <= totalDuration items.
Proof.
  induction items as [|x l IH]; simpl; [lia|].
  pose proof (declared_le_duration x). lia.
Qed.

Lemma withinTarget_declared T s :
  withinTarget T s -> withinTargetDeclared T s.
Proof.
  intros [_ [Hle | [item [Hone Hgt]]]].
  - left. pose proof (totalDeclared_le (Session.items s)). lia.
  - unfold withinTargetDeclared. rewrite Hone. simpl.
    destruct (Z_le_gt_dec (declaredDuration item) T) as [Hd | Hd].
    + left. lia.
    + right. exists item. split; [reflexivity | lia].
Qed.

Lemma length_pos_nonempty {A} (l : list A) :
  (0 <? Z.of_nat (length l)) = true <-> l <> [].
Proof.
  destruct l as [|x l].
  - simpl. split; [discriminate | congruence].
  - split; [discriminate|]. intros _. apply Z.ltb_lt. simpl. lia.
Qed.

Lemma heldItems_addItem T g item :
  heldItems (addItem T g item) = heldItems g ++ [item].
Proof.
  unfold addItem, heldItems.
  destruct ((T <? _) && _); simpl.
  - rewrite map_app, concat_app. simpl. rewrite app_nil_r, <- app_assoc.
    reflexivity.
  - rewrite app_assoc. reflexivity.
Qed.

Lemma heldItems_fold T l : forall g,
  heldItems (fold_left (addItem T) l g) = heldItems g ++ l.
Proof.
  induction l as [|x l IH]; intro g; simpl.
  - rewrite app_nil_r. reflexivity.
  - rewrite IH, heldItems_addItem, <- app_assoc. reflexivity.
Qed.

Lemma flush_items g :
  concat (map Session.items (flush g)) = heldItems g.
Proof.
  unfold flush, heldItems.
  destruct (0 <? Z.of_nat (length (Session.items (currentSession g)))) eqn:E.
  - rewrite map_app, concat_app. simpl. rewrite app_nil_r. reflexivity.
  - destruct (Session.items (currentSession g)); simpl in *.
    + rewrite app_nil_r. reflexivity.
    + apply Z.ltb_ge in E. lia.
Qed.

Lemma invariant_addItem T g item :
  groupingInvariant T g -> groupingInvariant T (addItem T g item).
Proof.
  intros (Hdone & Hne & Hsum & Hcur).
  unfold addItem, groupingInvariant.
  destruct (T <? Session.estimatedDuration (currentSession g) + itemDuration item)
    eqn:Eover;
  destruct (0 <? Z.of_nat (length (Session.items (currentSession g)))) eqn:Elen;
  simpl.
  - (* the current session is closed and the item opens a new one *)
    apply length_pos_nonempty in Elen.
    destruct Hcur as [Hcur | Hcur]; [contradiction|].
    repeat split.
    + apply Forall_app. split; [assumption|]. constructor; [|constructor].
      exact Hcur.
    + apply Forall_app. split; [assumption|]. constructor; [|constructor].
      exact Elen.
    + lia.
    + right. unfold withinTarget. simpl. split; [lia|].
      destruct (Z_le_gt_dec (itemDuration item) T).
      * left. lia.
      * right. exists item. split; [reflexivity | lia].
  - (* the current session is empty *)
    assert (Hnil : Session.items (currentSession g) = []).
    { destruct (Session.items (currentSession g)); [reflexivity|].
      simpl in Elen. apply Z.ltb_ge in Elen. lia. }
    rewrite Hnil in *. simpl in *.
    repeat split; try assumption; try lia.
    right. unfold withinTarget. simpl. split; [lia|].
    destruct (Z_le_gt_dec (itemDuration item) T).
    + left. lia.
    + right. exists item. split; [reflexivity | lia].
  - (* the item fits *)
    apply Z.ltb_ge in Eover.
    repeat split; try assumption.
    + rewrite totalDuration_app. simpl. lia.
    + right. unfold withinTarget. simpl. rewrite totalDuration_app. simpl.
      split; [lia|]. left. lia.
  - apply Z.ltb_ge in Eover.
    repeat split; try assumption.
    + rewrite totalDuration_app. simpl. lia.
    + right. unfold withinTarget. simpl. rewrite totalDuration_app. simpl.
      split; [lia|]. left. lia.
Qed.

Lemma invariant_fold T l : forall g,
  groupingInvariant T g -> groupingInvariant T (fold_left (addItem T) l g).
Proof.
  induction l as [|x l IH]; intros g Hg; simpl; [exact Hg|].
  apply IH, invariant_addItem, Hg.
Qed.

Lemma invariant_flush T g :
  groupingInvariant T g ->
  Forall (withinTarget T) (flush g)
  /\ Forall (fun s => Session.items s <> []) (flush g).
Proof.
  intros (Hdone & Hne & Hsum & Hcur). unfold flush.
  destruct (0 <? Z.of_nat (length (Session.items (currentSession g)))) eqn:E.
  - apply length_pos_nonempty in E.
    destruct Hcur as [Hcur | Hcur]; [contradiction|].
    split; apply Forall_app; (split; [assumption|]);
      (constructor; [|constructor]); assumption.
  - split; assumption.
Qed.

Lemma invariant_initial T :
  groupingInvariant T {| sessions := []; currentSession := freshSession |}.
Proof.
  repeat split; simpl; try constructor. reflexivity.
Qed.

Lemma grouped_sessions T (prioritizedItems : option (list Item.t)) :
  Forall (withinTarget T) (groupContentIntoSessions prioritizedItems T)
  /\ Forall (fun s => Session.items s <> [])
            (groupContentIntoSessions prioritizedItems T).
Proof.
  unfold groupContentIntoSessions.
  destruct prioritizedItems as [[|first rest]|]; try (split; constructor).
  apply invariant_flush, invariant_fold, invariant_initial.
Qed.

(** The accumulator of the priority reducer is the seed or a label whose
    value is a number above the seed's: the right operand of [exceeds] is
    never an inherited member. *)
Lemma highest_is_numeric items : forall seed n,
  getPriorityValue seed = Number n -> 1 <= n ->
  exists m,
    getPriorityValue
      (fold_left
         (fun highest item =>
            if exceeds (getPriorityValue (Item.priority item))
                       (getPriorityValue highest)
            then Item.priority item else highest)
         items seed) = Number m /\ 1 <= m.
Proof.
  induction items as [|x l IH]; intros seed n Hseed Hn; simpl.
  - exists n. split; assumption.
  - rewrite Hseed.
    destruct (getPriorityValue (Item.priority x)) as [c|] eqn:Ec; simpl.
    + destruct (n <? c) eqn:Elt.
      * apply Z.ltb_lt in Elt. apply (IH _ c Ec). lia.
      * apply (IH _ n Hseed Hn).
    + apply (IH _ n Hseed Hn).
Qed.

(** A session's priority is never below 'low', whatever its items. *)
Lemma session_priority_floor items :
  exists m, getPriorityValue (highestPriority items) = Number m /\ 1 <= m.
Proof. apply (highest_is_numeric items (Some "low") 1); [reflexivity | lia]. Qed.

(** What the reducer does return: a label no item of the session exceeds,
    which is the seed 'low' or the label of one of the items. *)
Lemma highest_is_maximal items : forall seed n,
  getPriorityValue seed = Number n ->
  let result :=
    fold_left
      (fun highest item =>
         if exceeds (getPriorityValue (Item.priority item))
                    (getPriorityValue highest)
         then Item.priority item else highest)
      items seed in
  exists m,
    getPriorityValue result = Number m
    /\ n <= m
    /\ (result = seed \/ exists item, In item items /\ Item.priority item = result)
    /\ Forall (fun item =>
                 exceeds (getPriorityValue (Item.priority item)) (Number m)
                 = false) items.
Proof.
  induction items as [|x l IH]; intros seed n Hseed; simpl.
  - exists n. repeat split; [exact Hseed | lia | left; reflexivity | constructor].
  - rewrite Hseed.
    destruct (getPriorityValue (Item.priority x)) as [c|] eqn:Ec; simpl.
    + destruct (n <? c) eqn:Elt.
      * apply Z.ltb_lt in Elt.
        destruct (IH _ c Ec) as (m & Hm & Hle & Horigin & Hall).
        exists m. repeat split; [exact Hm | lia | |].
        -- right. destruct Horigin as [-> | (item & Hin & Hp)].
           ++ exists x. split; [left; reflexivity | reflexivity].
           ++ exists item. split; [right; exact Hin | exact Hp].
        -- constructor; [|exact Hall]. rewrite Ec. simpl.
           apply Z.ltb_ge. exact Hle.
      * apply Z.ltb_ge in Elt.
        destruct (IH _ n Hseed) as (m & Hm & Hle & Horigin & Hall).
        exists m. repeat split; [exact Hm | exact Hle | |].
        -- destruct Horigin as [-> | (item & Hin & Hp)]; [left; reflexivity|].
           right. exists item. split; [right; exact Hin | exact Hp].
        -- constructor; [|exact Hall]. rewrite Ec. simpl.
           apply Z.ltb_ge. lia.
    + destruct (IH _ n Hseed) as (m & Hm & Hle & Horigin & Hall).
      exists m. repeat split; [exact Hm | exact Hle | |].
      * destruct Horigin as [-> | (item & Hin & Hp)]; [left; reflexivity|].
        right. exists item. split; [right; exact Hin | exact Hp].
      * constructor; [|exact Hall]. rewrite Ec. reflexivity.
Qed.

Definition sampleItem (name : string) (minutes : option Z)
           (label : option string) : Item.t :=
  Item.mk name (Some "algebra") 3 None minutes false None None None label None.

(** C1: in every session returned by groupContentIntoSessions the durations
    of the items (10 for an item without one) add up to at most the target,
    unless the session consists of a single item that alone exceeds the
    target; the session's estimatedDuration is that sum.  Items of 15, 15
    and 15 minutes with target 25 give three sessions of one item each. *)
Theorem group_duration_within_target :
  forall (prioritizedItems : option (list Item.t)) (targetDuration : Z),
    Forall (fun s => withinTarget targetDuration s
                     /\ withinTargetDeclared targetDuration s)
           (groupContentIntoSessions prioritizedItems targetDuration)
    /\ map (fun s => length (Session.items s))
           (groupContentIntoSessions
              (Some [sampleItem "a" (Some 15) None;
                     sampleItem "b" (Some 15) None;
                     sampleItem "c" (Some 15) None]) 25)
       = [1%nat; 1%nat; 1%nat].
Proof.
  intros prioritizedItems T. split; [|reflexivity].
  destruct (grouped_sessions T prioritizedItems) as [H _].
  eapply Forall_impl; [|exact H].
  intros s Hs. split; [exact Hs | apply withinTarget_declared, Hs].
Qed.

(** C4: a session made of one item of priority 'optional' is returned with
    priority 'low', a priority none of its items has: the reducer starts
    from 'low' and only a strictly higher item replaces it. *)
Theorem group_priority_optional_becomes_low :
  let item := sampleItem "a" (Some 10) (Some "optional") in
  groupContentIntoSessions (Some [item]) 25
  = [Session.mk [item] 10 (Some "low")]
  /\ getPriorityValue (Item.priority item) = Number 0
  /\ Item.priority item <> Some "low".
Proof.
  repeat split. discriminate.
Qed.

(** C10: the items of the returned sessions, taken session after session,
    are the input sequence: nothing is dropped, repeated or moved. *)
Theorem group_preserves_items :
  forall (prioritizedItems : list Item.t) (targetDuration : Z),
    concat (map Session.items
                (groupContentIntoSessions (Some prioritizedItems)
                                          targetDuration))
    = prioritizedItems.
Proof.
  intros [|first rest] T; [reflexivity|].
  unfold groupContentIntoSessions.
  rewrite flush_items, heldItems_fold. reflexivity.
Qed.

End GroupingFacts.

(** ** Study mix *)

Module StudyMixFacts.

Import Js ContentPrioritization.

Definition mixItem (name subject : string) : Item.t :=
  Item.mk name (Some subject) 3 None None false None None None None None.

Definition strugglingLearner (score : Q) : option Performance :=
  Some {| averageScore := Some score;
          weakAreas := Some ["calculus"];
          strongAreas := Some ["physics"] |}.

(** Seven items of a weak subject, two of a strong one, two of neither. *)
Definition elevenItems : list Item.t :=
  [ mixItem "w1" "calculus"; mixItem "w2" "calculus"; mixItem "w3" "calculus";
    mixItem "w4" "calculus"; mixItem "w5" "calculus"; mixItem "w6" "calculus";
    mixItem "w7" "calculus";
    mixItem "s1" "physics"; mixItem "s2" "physics";
    mixItem "n1" "history"; mixItem "n2" "history" ].

Lemma mixPercentages_cases perf :
  mixPercentages perf = (60, 20, 20)
  \/ mixPercentages perf = (70, 15, 15)
  \/ mixPercentages perf = (40, 20, 40).
Proof.
  unfold mixPercentages. destruct perf as [p|]; [|auto].
  destruct (Qltb _ 60); [auto|]. destruct (Qltb 85 _); auto.
Qed.

(** A score below 60 that is not 0 selects 70/15/15. *)
Lemma mixPercentages_struggling p a :
  averageScore p = Some a -> ~ (a == 0)%Q -> (a < 60)%Q ->
  mixPercentages (Some p) = (70, 15, 15).
Proof.
  intros Ha Hnz Hlt. unfold mixPercentages. rewrite Ha.
  assert (Hz : isZero a = false).
  { unfold isZero. destruct (Qeq_bool a 0) eqn:E; [|reflexivity].
    apply Qeq_bool_iff in E. contradiction. }
  rewrite Hz. unfold Qltb.
  destruct (Qle_bool 60 a) eqn:E; [|reflexivity].
  apply Qle_bool_iff in E. exfalso. apply (Qlt_not_le _ _ Hlt E).
Qed.

(** In binary64 the three shares are the exact products rounded half up. *)
Lemma shareOf_exact totalItems pct :
  1 <= totalItems <= 10 -> In pct [60; 20; 70; 15; 40] ->
  shareOf totalItems pct = Qfloor (inject_Z (totalItems * pct) / 100 + (1 # 2)).
Proof.
  intros Ht Hp.
  assert (Hcases : In totalItems [1; 2; 3; 4; 5; 6; 7; 8; 9; 10]).
  { simpl. lia. }
  simpl in Hcases, Hp.
  repeat (destruct Hcases as [<- | Hcases]);
    try contradiction;
    repeat (destruct Hp as [<- | Hp]); try contradiction;
    vm_compute; reflexivity.
Qed.

Lemma sliceFront_length count l :
  0 <= count ->
  Z.of_nat (length (sliceFront count l)) = Z.min count (Z.of_nat (length l)).
Proof.
  intros Hc. unfold sliceFront. rewrite length_firstn. lia.
Qed.

Lemma targetCounts_bounds items perf w s n :
  items <> [] -> targetCounts items perf = (w, s, n) ->
  0 <= w /\ 0 <= s /\ 0 <= n /\ w + s + n <= 11.
Proof.
  intros Hne. unfold targetCounts.
  assert (Ht : In (Z.min (Z.of_nat (length items)) 10)
                  [1; 2; 3; 4; 5; 6; 7; 8; 9; 10]).
  { destruct items as [|x l]; [contradiction|]. simpl length. simpl In. lia. }
  set (t := Z.min _ 10) in *. clearbody t. simpl in Ht.
  destruct (mixPercentages_cases perf) as [-> | [-> | ->]];
    repeat (destruct Ht as [<- | Ht]); try contradiction;
    intros H; vm_compute in H; inversion H; subst; lia.
Qed.

Lemma selection_length_bound (weakItems strongItems newItems : list Item.t)
      (w s n : Z) :
  0 <= w -> 0 <= s -> 0 <= n ->
  let weakLen := Z.of_nat (length weakItems) in
  let strongLen := Z.of_nat (length strongItems) in
  let n1 := if weakLen <? w then n + (w - weakLen) else n in
  let n2 := if strongLen <? s then n1 + (s - strongLen) else n1 in
  Z.of_nat (length (map (tag "weak-area") (sliceFront w weakItems)
                    ++ map (tag "strong-area") (sliceFront s strongItems)
                    ++ map (tag "new-content") (sliceFront n2 newItems)))
  <= w + s + n.
Proof.
  intros Hw Hs Hn weakLen strongLen n1 n2.
  rewrite !length_app, !length_map.
  pose proof (sliceFront_length w weakItems Hw) as H1.
  pose proof (sliceFront_length s strongItems Hs) as H2.
  assert (Hn1 : 0 <= n1 /\ n1 <= n + Z.max 0 (w - weakLen)).
  { subst n1. destruct (Z.ltb_spec weakLen w); lia. }
  assert (Hn2 : 0 <= n2 /\ n2 <= n1 + Z.max 0 (s - strongLen)).
  { subst n2. destruct (Z.ltb_spec strongLen s); lia. }
  pose proof (sliceFront_length n2 newItems (proj1 Hn2)) as H3.
  fold weakLen in H1. fold strongLen in H2.
  lia.
Qed.

(** Whatever the input, the mix has at most eleven items. *)
Lemma mix_length_le_11 contentItems perf :
  (length (generateBalancedStudyMix contentItems perf) <= 11)%nat.
Proof.
  unfold generateBalancedStudyMix.
  destruct contentItems as [[|first rest]|]; simpl length; try lia.
  destruct (targetCounts (first :: rest) perf) as [[w s] n] eqn:Ecounts.
  apply targetCounts_bounds in Ecounts; [|discriminate].
  destruct Ecounts as (Hw & Hs & Hn & Hsum).
  match goal with
  | |- (length ?l <= 11)%nat =>
      assert (Hb : Z.of_nat (length l) <= w + s + n);
      [ apply selection_length_bound; assumption | lia ]
  end.
Qed.

(** C2: the function can return more than ten items.  For a learner with
    average score 50 and eleven available items (seven weak, two strong,
    two new) the targets are 7, 2 and 2, and all eleven are returned. *)
Theorem mix_returns_eleven_items :
  targetCounts elevenItems (strugglingLearner 50) = (7, 2, 2)
  /\ length (generateBalancedStudyMix (Some elevenItems) (strugglingLearner 50))
     = 11%nat.
Proof. split; vm_compute; reflexivity. Qed.

(** C6: an average score of 0 does not select 70/15/15.  The score is
    read as [averageScore || 70], so 0 is replaced by 70 and the default
    60/20/20 applies: with ten items the targets are 6, 2, 2 where
    70/15/15 gives 7, 2, 2. *)
Theorem mix_zero_score_uses_default :
  mixPercentages (strugglingLearner 0) = (60, 20, 20)
  /\ targetCounts (firstn 10 elevenItems) (strugglingLearner 0) = (6, 2, 2)
  /\ (shareOf 10 70, shareOf 10 15, shareOf 10 15) = (7, 2, 2).
Proof. repeat split; vm_compute; reflexivity. Qed.

End StudyMixFacts.

(** ** Schedule generation *)

Module ScheduleFacts.

Import Js AdaptiveScheduling.

Definition lesson (name subject : string) (level : Z) : Item.t :=
  Item.mk name (Some subject) level None None false None None None None None.

Definition mondayMorning : Date.t := Date.mk 19500 (8 * 3600000).

(** A learner whose strongest study period is the night. *)
Definition nightOwl : UserData :=
  {| performance := None;
     habits := Some {| preferredStudyTime :=
                         Some [("morning", 7 # 10); ("afternoon", 3 # 10);
                               ("evening", 2 # 10); ("night", 9 # 10)];
                       consistencyScore := Some (65 # 100) |};
     preferences := None |}.

(** A learner about whom nothing is recorded. *)
Definition blankUser : UserData :=
  {| performance := None; habits := None; preferences := None |}.

Lemma itemsPerDayOf_positive len days h : 1 <= itemsPerDayOf len days h.
Proof.
  unfold itemsPerDayOf.
  destruct (isZero _); [destruct (Qltb 0 _); lia | lia].
Qed.

Lemma mapM_defined {A} (l : list (option A)) :
  Forall (fun o => o <> None) l ->
  exists items,
    mapM (fun o : option A => match o with Some i => Ok i | None => TypeError end) l
    = Ok items.
Proof.
  induction 1 as [|o t Ho Ht [items IH]]; simpl.
  - exists []. reflexivity.
  - destruct o as [i|]; [|congruence]. simpl. rewrite IH. simpl.
    exists (i :: items). reflexivity.
Qed.

(** Cyclic indexing never leaves a non-empty array. *)
Lemma dayItemsAt_defined sortedContent itemsPerDay day :
  sortedContent <> [] -> 0 <= day -> 0 <= itemsPerDay ->
  Forall (fun o => o <> None) (dayItemsAt sortedContent itemsPerDay day).
Proof.
  intros Hne Hday Hipd. unfold dayItemsAt.
  apply Forall_forall. intros o Ho.
  apply in_map_iff in Ho. destruct Ho as [i [<- _]].
  apply nth_error_Some.
  assert (Hlen : 0 < Z.of_nat (length sortedContent)).
  { destruct sortedContent; [contradiction | simpl; lia]. }
  set (len := Z.of_nat (length sortedContent)) in *.
  assert (Hstart : 0 <= Z.rem (day * itemsPerDay) len).
  { apply Z.rem_nonneg; [lia|]. apply Z.mul_nonneg_nonneg; assumption. }
  pose proof (Z.rem_bound_pos (Z.rem (day * itemsPerDay) len + Z.of_nat i) len)
    as Hb.
  lia.
Qed.

Lemma scheduleDay_returns ud sortedContent itemsPerDay day currentDate hours :
  getBestStudyHours (habits ud) = Some hours ->
  sortedContent <> [] -> 0 <= day -> 0 <= itemsPerDay ->
  exists session,
    scheduleDay ud sortedContent itemsPerDay day currentDate = Ok session.
Proof.
  intros Hh Hne Hday Hipd. unfold scheduleDay. rewrite Hh.
  destruct hours as [startHour endHour].
  destruct (mapM_defined _ (dayItemsAt_defined _ _ _ Hne Hday Hipd))
    as [items ->].
  simpl. eexists. reflexivity.
Qed.

Lemma scheduleFrom_returns ud sortedContent itemsPerDay hours :
  getBestStudyHours (habits ud) = Some hours ->
  sortedContent <> [] -> 0 <= itemsPerDay ->
  forall remaining day currentDate,
    0 <= day ->
    exists schedule,
      scheduleFrom ud sortedContent itemsPerDay remaining day currentDate
      = Ok schedule
      /\ length schedule = remaining.
Proof.
  intros Hh Hne Hipd.
  induction remaining as [|n IH]; intros day currentDate Hday; simpl.
  - exists []. split; reflexivity.
  - destruct (scheduleDay_returns ud _ _ _ currentDate _ Hh Hne Hday Hipd)
      as [session ->].
    destruct (IH (day + 1) (Date.nextDay currentDate)) as [later [-> Hlen]];
      [lia|].
    simpl. exists (session :: later). split; [reflexivity|].
    simpl. rewrite Hlen. reflexivity.
Qed.

(** A loop that runs at least once never yields the empty schedule. *)
Lemma scheduleFrom_not_empty ud sortedContent itemsPerDay n day currentDate :
  scheduleFrom ud sortedContent itemsPerDay (S n) day currentDate <> Ok [].
Proof.
  simpl. destruct (scheduleDay _ _ _ _ _); simpl; [|discriminate].
  destruct (scheduleFrom _ _ _ _ _ _); simpl; discriminate.
Qed.

Lemma defaultHours_known period :
  In period ["morning"; "afternoon"; "evening"] ->
  exists hours, defaultHours period = Some hours.
Proof.
  simpl. intros [<- | [<- | [<- | []]]]; eexists; reflexivity.
Qed.

(** With a best period outside the table the first day already raises. *)
Lemma schedule_raises_without_hours ud first rest startDate days :
  getBestStudyHours (habits ud) = None -> 1 <= days ->
  generateAdaptiveSchedule (Some ud) (Some (first :: rest)) startDate days
  = TypeError.
Proof.
  intros Hh Hd. unfold generateAdaptiveSchedule.
  destruct (Z.to_nat days) as [|n] eqn:E; [lia|].
  simpl. unfold scheduleDay. rewrite Hh. reflexivity.
Qed.

(** C3 (as stated): with userData absent the result is the empty array
    although the content list is not empty and seven days are asked for;
    so it is with userData present and zero days. *)
Lemma schedule_empty_despite_content :
  generateAdaptiveSchedule None (Some [lesson "l1" "calculus" 3])
                           mondayMorning 7 = Ok []
  /\ length (@nil StudySession.t) <> 7%nat
  /\ generateAdaptiveSchedule (Some blankUser)
                              (Some [lesson "l1" "calculus" 3])
                              mondayMorning 0 = Ok [].
Proof. repeat split. discriminate. Qed.

(** C3 (amended): for a present userData whose best study period is
    morning, afternoon or evening and a non-empty content list, the
    schedule is returned and has one session per day asked for (none when
    daysToSchedule is not positive).  The empty array is returned when
    userData is absent or the content list is absent or empty, and an
    empty result always means one of these or a non-positive number of
    days. *)
Theorem schedule_has_one_session_per_day :
  forall (ud : UserData) (contentItems : list Item.t) (startDate : Date.t)
         (daysToSchedule : Z),
    contentItems <> [] ->
    In (bestPeriod (habits ud)) ["morning"; "afternoon"; "evening"] ->
    (exists schedule,
        generateAdaptiveSchedule (Some ud) (Some contentItems) startDate
                                 daysToSchedule = Ok schedule
        /\ length schedule = Z.to_nat daysToSchedule)
    /\ generateAdaptiveSchedule None (Some contentItems) startDate
                                daysToSchedule = Ok []
    /\ generateAdaptiveSchedule (Some ud) None startDate daysToSchedule = Ok []
    /\ generateAdaptiveSchedule (Some ud) (Some []) startDate daysToSchedule
       = Ok []
    /\ (forall u c,
           generateAdaptiveSchedule u c startDate daysToSchedule = Ok [] ->
           u = None \/ c = None \/ c = Some [] \/ daysToSchedule <= 0).
Proof.
  intros ud contentItems startDate days Hne Hperiod.
  repeat split.
  - destruct contentItems as [|first rest]; [contradiction|].
    unfold generateAdaptiveSchedule.
    destruct (defaultHours_known _ Hperiod) as [hours Hh].
    apply (scheduleFrom_returns ud _ _ hours); try exact Hh; try lia.
    + intro Hnil.
      apply (f_equal (@length Item.t)) in Hnil.
      rewrite SortFacts.stable_sort_length in Hnil. discriminate.
    + pose proof (itemsPerDayOf_positive
                    (Z.of_nat (length (stable_sort
                                         (weakThenHard (performance ud))
                                         (first :: rest))))
                    days (habits ud)). lia.
  - intros [u|] [[|first rest]|] H; auto.
    right. right. right.
    destruct (Z_le_gt_dec days 0) as [Hd | Hd]; [exact Hd|].
    exfalso. unfold generateAdaptiveSchedule in H.
    destruct (Z.to_nat days) as [|n] eqn:E; [lia|].
    exact (scheduleFrom_not_empty _ _ _ _ _ _ H).
Qed.

Lemma schedule_has_one_session_per_day_witness :
  exists schedule,
    generateAdaptiveSchedule (Some blankUser)
                             (Some [lesson "l1" "calculus" 4;
                                    lesson "l2" "physics" 2])
                             mondayMorning 7 = Ok schedule
    /\ length schedule = 7%nat.
Proof.
  apply (schedule_has_one_session_per_day
           blankUser [lesson "l1" "calculus" 4; lesson "l2" "physics" 2]
           mondayMorning 7).
  - discriminate.
  - simpl. right. right. left. reflexivity.
Defined.

(** C5: the call raises a TypeError for a learner whose highest-scored
    study period is "night": the hours table has no such entry and the
    result of the lookup is destructured as an array. *)
Theorem schedule_raises_for_night_owl :
  bestPeriod (habits nightOwl) = "night"
  /\ getBestStudyHours (habits nightOwl) = None
  /\ generateAdaptiveSchedule (Some nightOwl)
                              (Some [lesson "l1" "calculus" 3])
                              mondayMorning 7 = TypeError.
Proof. repeat split; vm_compute; reflexivity. Qed.

End ScheduleFacts.

(** ** Schedule adjustment *)

Module AdjustmentFacts.

Import Js AdaptiveScheduling.

Definition reinforcementOf (f : Feedback.t) : list Item.t :=
  match Feedback.struggledItems f with Some l => l | None => [] end.

(** The position the struggled-items step rewrites, if any. *)
Definition reinforcedIndex (now : Date.t) (f : Feedback.t)
           (schedule : list StudySession.t) : option nat :=
  if (0 <? Z.of_nat (length (reinforcementOf f)))
     && (0 <? Z.of_nat (length schedule))
  then findIndex (fun s => Date.toMs now <? Date.toMs (StudySession.date s))
                 schedule
  else None.

(** The session at position [i] once the struggled-items step has run. *)
Definition afterReinforcement (now : Date.t) (f : Feedback.t)
           (schedule : list StudySession.t) (i : nat) (s : StudySession.t)
  : StudySession.t :=
  match reinforcedIndex now f schedule with
  | Some k => if Nat.eqb i k then reinforce (reinforcementOf f) s else s
  | None => s
  end.

Lemma findIndex_in_range {A} (p : A -> bool) l k :
  findIndex p l = Some k -> exists x, nth_error l k = Some x.
Proof.
  revert k. induction l as [|y t IH]; intros k; simpl; [discriminate|].
  destruct (p y).
  - intros [= <-]. exists y. reflexivity.
  - destruct (findIndex p t) as [j|]; simpl; [|discriminate].
    intros [= <-]. apply (IH j eq_refl).
Qed.

Lemma nth_error_assignAt {A} (l : list A) : forall k v i x,
  nth_error l i = Some x ->
  nth_error (assignAt k v l) i = Some (if Nat.eqb i k then v else x).
Proof.
  induction l as [|y t IH]; intros k v i x; [destruct i; discriminate|].
  destruct k as [|k], i as [|i]; simpl; intros H.
  - reflexivity.
  - exact H.
  - exact H.
  - apply IH, H.
Qed.

Lemma length_assignAt {A} (l : list A) : forall k v,
  length (assignAt k v l) = length l.
Proof.
  induction l as [|y t IH]; intros [|k] v; simpl; try reflexivity.
  rewrite IH. reflexivity.
Qed.

Lemma addReinforcement_length now f schedule :
  length (addReinforcement now f schedule) = length schedule.
Proof.
  unfold addReinforcement.
  destruct (_ && _); [|reflexivity].
  destruct (findIndex _ schedule) as [k|]; [|reflexivity].
  destruct (nth_error schedule k); [|reflexivity].
  apply length_assignAt.
Qed.

Lemma addReinforcement_nth now f schedule i s :
  nth_error schedule i = Some s ->
  nth_error (addReinforcement now f schedule) i
  = Some (afterReinforcement now f schedule i s).
Proof.
  intros Hs. unfold addReinforcement, afterReinforcement, reinforcedIndex.
  fold (reinforcementOf f).
  destruct (_ && _); [|exact Hs].
  destruct (findIndex _ schedule) as [k|] eqn:Ek; [|exact Hs].
  destruct (findIndex_in_range _ _ _ Ek) as [next Hnext]. rewrite Hnext.
  rewrite (nth_error_assignAt _ _ _ _ _ Hs).
  destruct (Nat.eqb_spec i k) as [-> | Hik]; [|reflexivity].
  rewrite Hnext in Hs. injection Hs as ->. reflexivity.
Qed.

Lemma shortenFrom_length l : forall index,
  length (shortenFrom index l) = length l.
Proof.
  induction l as [|s t IH]; intro index; simpl; [reflexivity|].
  rewrite IH. reflexivity.
Qed.

Lemma shortenFrom_nth l : forall index i s,
  nth_error l i = Some s ->
  nth_error (shortenFrom index l) i
  = Some (if (0 <? index + i)%nat then shorten s else s).
Proof.
  induction l as [|x t IH]; intros index i s; [destruct i; discriminate|].
  destruct i as [|i]; simpl.
  - intros [= <-]. rewrite Nat.add_0_r. reflexivity.
  - intros H. rewrite (IH (S index) i s H).
    replace (S index + i)%nat with (index + S i)%nat by lia. reflexivity.
Qed.

Lemma performsWell_above_85 f a :
  Feedback.averageScore f = Some a -> (85 < a)%Q -> performsWell f = true.
Proof.
  intros Ha Hgt. unfold performsWell. rewrite Ha.
  apply andb_true_iff. split.
  - apply negb_true_iff. unfold isZero.
    destruct (Qeq_bool a 0) eqn:E; [|reflexivity].
    apply Qeq_bool_iff in E. rewrite E in Hgt. discriminate Hgt.
  - unfold Qltb. apply negb_true_iff.
    destruct (Qle_bool a 85) eqn:E; [|reflexivity].
    apply Qle_bool_iff in E. exfalso. apply (Qlt_not_le _ _ Hgt E).
Qed.

(** C9: when feedback.averageScore exceeds 85 the returned schedule has
    the sessions of the input at the same positions; every session at an
    index above 0 has its duration lowered by 5 but not below 15, the
    session at index 0 is not touched by this rule, and the duration that
    is lowered is the one left by the struggled-items step (10 minutes
    more for the session that step rewrote, wherever it sits). *)
Theorem good_performance_shortens_later_sessions :
  forall (now : Date.t) (schedule : list StudySession.t) (f : Feedback.t)
         (score : Q),
    Feedback.averageScore f = Some score ->
    (85 < score)%Q ->
    exists updated,
      adjustScheduleBasedOnPerformance now (Some schedule) (Some f)
      = Some updated
      /\ length updated = length schedule
      /\ forall (i : nat) (s : StudySession.t),
          nth_error schedule i = Some s ->
          let reinforced := afterReinforcement now f schedule i s in
          StudySession.duration reinforced
          = (if match reinforcedIndex now f schedule with
                | Some k => Nat.eqb i k
                | None => false
                end
             then StudySession.duration s + 10
             else StudySession.duration s)
          /\ exists u,
              nth_error updated i = Some u
              /\ (i = 0%nat -> u = reinforced)
              /\ ((0 < i)%nat ->
                  StudySession.duration u
                  = Z.max 15 (StudySession.duration reinforced - 5)
                  /\ StudySession.items u = StudySession.items reinforced
                  /\ StudySession.date u = StudySession.date reinforced
                  /\ StudySession.breakDuration u
                     = StudySession.breakDuration reinforced
                  /\ StudySession.completed u
                     = StudySession.completed reinforced).
Proof.
  intros now schedule f score Hscore Hgt.
  unfold adjustScheduleBasedOnPerformance.
  rewrite (performsWell_above_85 f score Hscore Hgt).
  eexists. split; [reflexivity|]. split.
  - rewrite shortenFrom_length. apply addReinforcement_length.
  - intros i s Hs.
    set (reinforced := afterReinforcement now f schedule i s). split.
    + subst reinforced. unfold afterReinforcement.
      destruct (reinforcedIndex now f schedule) as [k|]; [|reflexivity].
      destruct (Nat.eqb i k); reflexivity.
    + pose proof (addReinforcement_nth now f schedule i s Hs) as Hr.
      fold reinforced in Hr.
      rewrite (shortenFrom_nth _ 0 i reinforced Hr). simpl.
      eexists. split; [reflexivity|]. split.
      * intros ->. reflexivity.
      * intros Hi. destruct i as [|i]; [lia|]. simpl.
        repeat split.
Qed.

Definition sessionAt (dayNumber minutes : Z) : StudySession.t :=
  StudySession.mk (Date.mk dayNumber (19 * 3600000)) [] minutes 5 false.

Definition praise : Feedback.t :=
  Feedback.mk None
              (Some [Item.mk "q1" (Some "calculus") 4 None None true None
                             None None None None])
              (Some 90%Q).

Lemma good_performance_shortens_later_sessions_witness :
  exists updated,
    adjustScheduleBasedOnPerformance
      (Date.mk 10 0)
      (Some [sessionAt 9 30; sessionAt 11 30; sessionAt 12 18])
      (Some praise)
    = Some updated
    /\ map StudySession.duration updated = [30; 35; 15].
Proof.
  destruct (good_performance_shortens_later_sessions
              (Date.mk 10 0)
              [sessionAt 9 30; sessionAt 11 30; sessionAt 12 18]
              praise 90%Q eq_refl eq_refl) as [updated [Heq _]].
  exists updated. split; [exact Heq|].
  vm_compute in Heq. injection Heq as Hu. rewrite <- Hu. reflexivity.
Defined.

End AdjustmentFacts.

(** ** Content sequencing *)

Module SequencerFacts.

Import Js ContentPrioritization.

Definition subjectIs (k : string) (item : Item.t) : Prop := subjectOf item = k.

(** Groups with distinct keys, each holding items of its own subject. *)
Definition keyed (gs : Groups) : Prop :=
  NoDup (map fst gs)
  /\ Forall (fun g => Forall (subjectIs (fst g)) (snd g)) gs.

(** Wherever two neighbours share a subject, everything emitted after
    them belongs to that subject too. *)
Definition spaced (out : list Item.t) : Prop :=
  forall pre x y post,
    out = pre ++ x :: y :: post ->
    subjectOf x = subjectOf y ->
    Forall (subjectIs (subjectOf y)) post.

(** The same, read from the front of the list. *)
Fixpoint spacedFrom (out : list Item.t) : Prop :=
  match out with
  | x :: rest =>
      match rest with
      | y :: post =>
          (subjectOf x = subjectOf y -> Forall (subjectIs (subjectOf y)) post)
          /\ spacedFrom rest
      | [] => True
      end
  | [] => True
  end.

(** Groups that still have an item at [index]. *)
Definition active (index : nat) (gs : Groups) : Groups :=
  filter (fun g => (index <? length (snd g))%nat) gs.

Lemma spacedFrom_tail x rest : spacedFrom (x :: rest) -> spacedFrom rest.
Proof. destruct rest as [|y post]; simpl; [trivial | intros [_ H]; exact H]. Qed.

Lemma spacedFrom_spaced out : spacedFrom out -> spaced out.
Proof.
  intros H pre. revert out H.
  induction pre as [|p pre IH]; intros out H x y post Hout Hxy.
  - subst out. simpl in H. apply (proj1 H), Hxy.
  - subst out. apply (IH _ (spacedFrom_tail _ _ H) x y post eq_refl Hxy).
Qed.

(** Appending to a run of distinct subjects: only the seam matters. *)
Lemma spacedFrom_app a : forall b,
  NoDup (map subjectOf a) ->
  spacedFrom b ->
  (forall a' x y post,
      a = a' ++ [x] -> b = y :: post -> subjectOf x = subjectOf y ->
      Forall (subjectIs (subjectOf y)) post) ->
  spacedFrom (a ++ b).
Proof.
  induction a as [|x a IH]; intros b Hnd Hb Hseam; [exact Hb|].
  destruct a as [|x' a'].
  - simpl. destruct b as [|y post]; [exact I|].
    split; [|exact Hb].
    intros Hxy. apply (Hseam [] x y post eq_refl eq_refl Hxy).
  - change ((x :: x' :: a') ++ b) with (x :: x' :: (a' ++ b)).
    cbn [spacedFrom]. split.
    + intros Hxx. exfalso. simpl in Hnd. inversion Hnd as [|? ? Hnot _]; subst.
      apply Hnot. left. symmetry. exact Hxx.
    + apply (IH b).
      * simpl in Hnd. inversion Hnd; assumption.
      * exact Hb.
      * intros a0 x0 y post Ha Hbq Hxy.
        apply (Hseam (x :: a0) x0 y post); [|exact Hbq | exact Hxy].
        simpl. rewrite Ha. reflexivity.
Qed.

(** *** Grouping by subject *)

Lemma pushTo_key_origin k item gs k' :
  In k' (map fst (pushTo k item gs)) -> k' = k \/ In k' (map fst gs).
Proof.
  induction gs as [|[k0 l] rest IH]; simpl.
  - intros [<- | []]. left. reflexivity.
  - destruct (String.eqb k k0); simpl.
    + intros H. right. exact H.
    + intros [<- | H]; [right; left; reflexivity|].
      destruct (IH H) as [-> | Hin]; [left; reflexivity | right; right; exact Hin].
Qed.

Lemma pushTo_keyed k item gs :
  subjectOf item = k -> keyed gs -> keyed (pushTo k item gs).
Proof.
  intros Hk. induction gs as [|[k0 l] rest IH]; intros [Hnd Hall].
  - split; simpl.
    + constructor; [intros [] | constructor].
    + repeat constructor. exact Hk.
  - simpl in Hnd. inversion Hnd as [|? ? Hnot Hnd']; subst.
    inversion Hall as [|? ? Hl Hrest]; subst.
    simpl. destruct (String.eqb_spec (subjectOf item) k0) as [Heq | Hne].
    + split; simpl.
      * constructor; assumption.
      * constructor; [|exact Hrest].
        simpl. apply Forall_app. split; [exact Hl|].
        constructor; [exact Heq | constructor].
    + destruct (IH (conj Hnd' Hrest)) as [Hnd2 Hall2].
      split; simpl.
      * constructor; [|exact Hnd2].
        intros Hin. apply pushTo_key_origin in Hin.
        destruct Hin as [Hin | Hin]; [apply Hne; symmetry; exact Hin | exact (Hnot Hin)].
      * constructor; assumption.
Qed.

Lemma pushTo_items k item gs :
  Permutation (flat_map snd (pushTo k item gs)) (flat_map snd gs ++ [item]).
Proof.
  induction gs as [|[k0 l] rest IH]; simpl.
  - apply Permutation_refl.
  - destruct (String.eqb k k0); simpl.
    + rewrite <- !app_assoc. apply Permutation_app_head, Permutation_app_comm.
    + rewrite <- app_assoc. apply Permutation_app_head, IH.
Qed.

Lemma groupItem_raised items : fold_left groupItem items TypeError = TypeError.
Proof. induction items as [|x l IH]; simpl; [reflexivity | exact IH]. Qed.

Lemma grouping_keyed items : forall acc gs,
  fold_left groupItem items (Ok acc) = Ok gs ->
  keyed acc ->
  keyed gs /\ Permutation (flat_map snd gs) (flat_map snd acc ++ items).
Proof.
  induction items as [|x l IH]; intros acc gs; simpl.
  - intros [= <-] Hacc. split; [exact Hacc|]. rewrite app_nil_r.
    apply Permutation_refl.
  - destruct (inherited (subjectOf x)).
    + rewrite groupItem_raised. discriminate.
    + intros Hfold Hacc.
      destruct (IH _ _ Hfold (pushTo_keyed _ x acc eq_refl Hacc)) as [Hk Hp].
      split; [exact Hk|].
      eapply Permutation_trans; [exact Hp|].
      change (x :: l) with ([x] ++ l). rewrite app_assoc.
      apply Permutation_app_tail, pushTo_items.
Qed.

(** Grouping raises only on a subject named like an inherited member. *)
Lemma grouping_returns items : forall acc,
  Forall (fun item => inherited (subjectOf item) = false) items ->
  exists gs, fold_left groupItem items (Ok acc) = Ok gs.
Proof.
  induction items as [|x l IH]; intros acc Hall; simpl.
  - exists acc. reflexivity.
  - inversion Hall as [|? ? Hx Hl]; subst. rewrite Hx. apply IH, Hl.
Qed.

(** *** Enumeration order and per-subject sort *)

Lemma filter_split_perm {A} (p : A -> bool) l :
  Permutation (filter p l ++ filter (fun e => negb (p e)) l) l.
Proof.
  induction l as [|x t IH]; simpl; [apply Permutation_refl|].
  destruct (p x); simpl.
  - apply perm_skip, IH.
  - apply Permutation_sym.
    eapply Permutation_trans; [apply perm_skip, Permutation_sym, IH|].
    apply Permutation_middle.
Qed.

Lemma ownPropertyOrder_perm {V} (o : list (string * V)) :
  Permutation (ownPropertyOrder o) o.
Proof.
  unfold ownPropertyOrder.
  eapply Permutation_trans; [|apply (filter_split_perm isIndexKey)].
  apply Permutation_app_tail, Permutation_sym, SortFacts.stable_sort_perm.
Qed.

Lemma keyed_perm gs gs' : Permutation gs gs' -> keyed gs -> keyed gs'.
Proof.
  intros Hp [Hnd Hall]. split.
  - apply (Permutation_NoDup (Permutation_map fst Hp) Hnd).
  - apply (Permutation_Forall Hp Hall).
Qed.

Section EngineSort.

Variable engineSort : (Item.t -> Item.t -> Z) -> list Item.t -> list Item.t.
Hypothesis engineSort_perm :
  forall cmp l, Permutation l (engineSort cmp l).

Definition sortEach (gs : Groups) : Groups :=
  map (fun g => (fst g, engineSort dependencyCompare (snd g))) gs.

Lemma sortEach_keyed gs : keyed gs -> keyed (sortEach gs).
Proof.
  intros [Hnd Hall]. unfold sortEach. split.
  - rewrite map_map. simpl. exact Hnd.
  - apply Forall_map. eapply Forall_impl; [|exact Hall].
    intros g Hg. simpl.
    apply (Permutation_Forall (engineSort_perm _ _) Hg).
Qed.

Lemma sortEach_items gs :
  Permutation (flat_map snd (sortEach gs)) (flat_map snd gs).
Proof.
  induction gs as [|g rest IH]; simpl; [apply Permutation_refl|].
  apply Permutation_app; [apply Permutation_sym, engineSort_perm | exact IH].
Qed.

Lemma sortGroups_keyed gs : keyed gs -> keyed (sortGroups engineSort gs).
Proof.
  intros Hk. apply (sortEach_keyed (ownPropertyOrder gs)).
  apply (keyed_perm gs); [apply Permutation_sym, ownPropertyOrder_perm | exact Hk].
Qed.

Lemma sortGroups_items gs :
  Permutation (flat_map snd (sortGroups engineSort gs)) (flat_map snd gs).
Proof.
  eapply Permutation_trans; [apply (sortEach_items (ownPropertyOrder gs))|].
  apply Permutation_flat_map, ownPropertyOrder_perm.
Qed.

End EngineSort.

(** *** Round-robin interleaving *)

Lemma roundAt_cons index g gs :
  roundAt index (g :: gs)
  = match nth_error (snd g) index with
    | Some item => [item]
    | None => []
    end ++ roundAt index gs.
Proof. reflexivity. Qed.

Lemma roundAt_subjects index gs :
  Forall (fun g => Forall (subjectIs (fst g)) (snd g)) gs ->
  map subjectOf (roundAt index gs) = map fst (active index gs).
Proof.
  induction 1 as [|g rest Hg Hrest IH]; [reflexivity|].
  rewrite roundAt_cons, map_app, IH. unfold active at 2. simpl filter.
  fold (active index rest).
  destruct (nth_error (snd g) index) as [item|] eqn:E.
  - assert (Hlt : (index <? length (snd g))%nat = true).
    { apply Nat.ltb_lt, nth_error_Some. congruence. }
    rewrite Hlt. simpl. f_equal.
    apply nth_error_In in E. rewrite Forall_forall in Hg. apply Hg, E.
  - assert (Hge : (index <? length (snd g))%nat = false).
    { apply Nat.ltb_ge, nth_error_None, E. }
    rewrite Hge. reflexivity.
Qed.

Lemma active_succ index gs :
  active (S index) gs
  = filter (fun g => (S index <? length (snd g))%nat) (active index gs).
Proof.
  unfold active. induction gs as [|g rest IH]; simpl; [reflexivity|].
  destruct (Nat.ltb_spec (S index) (length (snd g))) as [H1 | H1];
    destruct (Nat.ltb_spec index (length (snd g))) as [H2 | H2];
    simpl; try lia.
  - destruct (Nat.ltb_spec (S index) (length (snd g))); [|lia].
    rewrite IH. reflexivity.
  - destruct (Nat.ltb_spec (S index) (length (snd g))); [lia|]. exact IH.
  - exact IH.
Qed.

Lemma roundAt_beyond index gs :
  Forall (fun g => (length (snd g) <= index)%nat) gs -> roundAt index gs = [].
Proof.
  induction 1 as [|g rest Hg Hrest IH]; [reflexivity|].
  rewrite roundAt_cons, IH.
  apply nth_error_None in Hg. rewrite Hg. reflexivity.
Qed.

Lemma skipn_split index (l : list Item.t) :
  skipn index l
  = match nth_error l index with
    | Some item => [item]
    | None => []
    end ++ skipn (S index) l.
Proof.
  revert l. induction index as [|n IH]; intros [|x t]; try reflexivity.
  simpl nth_error. change (skipn (S n) (x :: t)) with (skipn n t).
  rewrite (IH t). reflexivity.
Qed.

Lemma round_then_rest index gs :
  Permutation (roundAt index gs ++ flat_map (fun g => skipn (S index) (snd g)) gs)
              (flat_map (fun g => skipn index (snd g)) gs).
Proof.
  induction gs as [|g rest IH]; [apply Permutation_refl|].
  rewrite roundAt_cons. cbn [flat_map]. rewrite (skipn_split index (snd g)).
  rewrite <- !app_assoc. apply Permutation_app_head.
  eapply Permutation_trans; [apply Permutation_app_swap_app|].
  apply Permutation_app_head, IH.
Qed.

Lemma roundAt_nil_rest index gs :
  roundAt index gs = [] -> flat_map (fun g => skipn index (snd g)) gs = [].
Proof.
  induction gs as [|g rest IH]; [reflexivity|].
  rewrite roundAt_cons. intros H. apply app_eq_nil in H. destruct H as [Hg Hr].
  cbn [flat_map]. rewrite (IH Hr), app_nil_r.
  destruct (nth_error (snd g) index) eqn:E; [discriminate|].
  apply skipn_all2, nth_error_None, E.
Qed.

Lemma interleave_result fuel gs : forall index result,
  interleave fuel index gs result
  = option_map (app result) (interleave fuel index gs []).
Proof.
  induction fuel as [|f IH]; intros index result; [reflexivity|].
  simpl. destruct (roundAt index gs) as [|x r] eqn:E.
  - simpl. rewrite app_nil_r. reflexivity.
  - rewrite (IH (S index) (result ++ x :: r)), (IH (S index) (x :: r)).
    destruct (interleave f (S index) gs []); simpl; [|reflexivity].
    rewrite <- app_assoc. reflexivity.
Qed.

(** One turn of the loop: nothing left, or a round followed by the
    output of the remaining turns. *)
Lemma interleave_turn fuel index gs out :
  interleave (S fuel) index gs [] = Some out ->
  (roundAt index gs = [] /\ out = [])
  \/ exists rest,
      roundAt index gs <> []
      /\ out = roundAt index gs ++ rest
      /\ interleave fuel (S index) gs [] = Some rest.
Proof.
  simpl. destruct (roundAt index gs) as [|x r] eqn:E.
  - intros [= <-]. left. split; reflexivity.
  - rewrite interleave_result.
    destruct (interleave fuel (S index) gs []) as [rest|] eqn:Er; [|discriminate].
    simpl. intros [= <-]. right. exists rest.
    repeat split; discriminate.
Qed.

Lemma interleave_enough gs fuel : forall index result,
  Forall (fun g => (length (snd g) <= fuel + index)%nat) gs ->
  exists out, interleave (S fuel) index gs result = Some out.
Proof.
  induction fuel as [|f IH]; intros index result Hlen.
  - simpl. rewrite (roundAt_beyond index gs Hlen). eexists. reflexivity.
  - change (interleave (S (S f)) index gs result)
      with (match roundAt index gs with
            | [] => Some result
            | emitted => interleave (S f) (S index) gs (result ++ emitted)
            end).
    destruct (roundAt index gs) as [|x r]; [eexists; reflexivity|].
    apply IH. eapply Forall_impl; [|exact Hlen]. simpl. intros g Hg. lia.
Qed.

Lemma interleave_items gs fuel : forall index out,
  interleave fuel index gs [] = Some out ->
  Permutation out (flat_map (fun g => skipn index (snd g)) gs).
Proof.
  induction fuel as [|f IH]; intros index out; [discriminate|].
  intros H. apply interleave_turn in H.
  destruct H as [[Hnil ->] | (rest & Hne & -> & Hrest)].
  - rewrite (roundAt_nil_rest _ _ Hnil). apply Permutation_refl.
  - eapply Permutation_trans; [|apply round_then_rest].
    apply Permutation_app_head, (IH _ _ Hrest).
Qed.

Lemma interleave_subjects gs :
  Forall (fun g => Forall (subjectIs (fst g)) (snd g)) gs ->
  forall fuel index out,
    interleave fuel index gs [] = Some out ->
    Forall (fun z => In (subjectOf z) (map fst (active index gs))) out.
Proof.
  intros Hall. induction fuel as [|f IH]; intros index out; [discriminate|].
  intros H. apply interleave_turn in H.
  destruct H as [[_ ->] | (rest & Hne & -> & Hrest)]; [constructor|].
  apply Forall_app. split.
  - apply Forall_forall. intros z Hz.
    rewrite <- (roundAt_subjects index gs Hall). apply in_map, Hz.
  - eapply Forall_impl; [|apply (IH _ _ Hrest)].
    intros z Hz. simpl in Hz. rewrite active_succ in Hz.
    apply in_map_iff in Hz. destruct Hz as [g [Hfst Hg]].
    apply filter_In in Hg. apply in_map_iff. exists g.
    split; [exact Hfst | exact (proj1 Hg)].
Qed.

Lemma NoDup_map_filter {B} (f : B -> string) p (l : list B) :
  NoDup (map f l) -> NoDup (map f (filter p l)).
Proof.
  induction l as [|x t IH]; simpl; intros H; [constructor|].
  inversion H as [|? ? Hnot Hnd]; subst.
  destruct (p x); simpl; [|apply IH, Hnd].
  constructor; [|apply IH, Hnd].
  intros Hin. apply Hnot. apply in_map_iff in Hin.
  destruct Hin as [y [Hy Hin]]. apply filter_In in Hin.
  apply in_map_iff. exists y. split; [exact Hy | exact (proj1 Hin)].
Qed.

(** If the first survivor of a filter has the key of the last element of
    a list with distinct keys, it is the only survivor. *)
Lemma filter_seam {B} (f : B -> string) p (G : list B) g h T :
  NoDup (map f (G ++ [g])) ->
  filter p (G ++ [g]) = h :: T ->
  f h = f g ->
  T = [].
Proof.
  intros Hnd Hfil Hkey. rewrite filter_app in Hfil.
  destruct (filter p G) as [|h' F] eqn:E.
  - simpl in Hfil. destruct (p g); [|discriminate].
    injection Hfil as _ <-. reflexivity.
  - exfalso. simpl in Hfil. injection Hfil as -> _.
    assert (Hin : In h G).
    { apply (proj1 (filter_In p h G)). rewrite E. left. reflexivity. }
    rewrite map_app in Hnd. simpl in Hnd.
    apply NoDup_remove_2 in Hnd. apply Hnd. rewrite app_nil_r.
    rewrite <- Hkey. apply in_map, Hin.
Qed.

Lemma interleave_spacedFrom gs :
  keyed gs ->
  forall fuel index out,
    interleave fuel index gs [] = Some out -> spacedFrom out.
Proof.
  intros [Hnd Hall]. induction fuel as [|f IH]; intros index out;
    [discriminate|].
  intros H. apply interleave_turn in H.
  destruct H as [[_ ->] | (rest & Hne & -> & Hrest)]; [exact I|].
  apply spacedFrom_app.
  - rewrite (roundAt_subjects index gs Hall).
    apply NoDup_map_filter, Hnd.
  - apply (IH _ _ Hrest).
  - intros a' x y post Hround Hy Hxy.
    (* the groups active now end with the one of [x] ... *)
    pose proof (roundAt_subjects index gs Hall) as Hnow.
    rewrite Hround, map_app in Hnow. simpl in Hnow. symmetry in Hnow.
    apply map_eq_app in Hnow. destruct Hnow as (G & G1 & HA & _ & HG1).
    apply map_eq_cons in HG1. destruct HG1 as (g & G2 & -> & Hg & HG2).
    apply map_eq_nil in HG2. subst G2.
    (* ... and those active next start with the one of [y] *)
    destruct f as [|f0]; [discriminate|].
    pose proof (interleave_turn _ _ _ _ Hrest) as Hnext.
    destruct Hnext as [[_ Hnil] | (rest2 & Hne2 & Hr2 & _)]; [congruence|].
    pose proof (roundAt_subjects (S index) gs Hall) as Hsucc.
    destruct (roundAt (S index) gs) as [|y0 r0] eqn:E2; [congruence|].
    rewrite Hy in Hr2. simpl in Hr2. injection Hr2 as -> _.
    simpl in Hsucc. symmetry in Hsucc.
    apply map_eq_cons in Hsucc. destruct Hsucc as (h & T & HA' & Hh & _).
    rewrite active_succ, HA in HA'.
    assert (HT : T = []).
    { apply (filter_seam fst (fun g0 => (S index <? length (snd g0))%nat)
                         G g h T); [|exact HA'|congruence].
      rewrite <- HA. apply NoDup_map_filter, Hnd. }
    subst T.
    pose proof (interleave_subjects gs Hall _ _ _ Hrest) as Hsub.
    rewrite active_succ, HA, HA', Hy in Hsub. simpl in Hsub.
    inversion Hsub as [|? ? _ Hpost]; subst.
    eapply Forall_impl; [|exact Hpost].
    intros z [Hz | []]. unfold subjectIs. congruence.
Qed.

Lemma group_length_bound (gs : Groups) g :
  In g gs -> (length (snd g) <= length (flat_map snd gs))%nat.
Proof.
  induction gs as [|g0 rest IH]; simpl; [intros []|].
  rewrite length_app. intros [-> | Hin]; [lia|].
  specialize (IH Hin). lia.
Qed.

Lemma keyed_nil : keyed [].
Proof. split; constructor. Qed.

Definition topic (name subject : string) (level : Z) : Item.t :=
  Item.mk name (Some subject) level None None false None None None None None.

(** C7: in the sequence returned by recommendContentSequence, whenever two
    consecutive items have the same subject ("general" standing for an
    absent one), every item emitted after them has that subject as well:
    no other subject had anything left to emit.  The call always
    terminates, the returned sequence is a rearrangement of the input, and
    a sequence is returned whenever no subject is named like a member of
    Object.prototype. *)
Theorem sequence_spaces_subjects :
  forall (engineSort : (Item.t -> Item.t -> Z) -> list Item.t -> list Item.t),
    (forall cmp l, Permutation l (engineSort cmp l)) ->
    forall contentItems : list Item.t,
    exists r,
      recommendContentSequence engineSort (Some contentItems) = Some r
      /\ (Forall (fun item => inherited (subjectOf item) = false) contentItems ->
          exists out, r = Ok out)
      /\ forall out,
          r = Ok out ->
          Permutation contentItems out
          /\ forall pre x y post,
              out = pre ++ x :: y :: post ->
              subjectOf x = subjectOf y ->
              Forall (fun z => subjectOf z = subjectOf y) post.
Proof.
  intros engineSort Hsort [|first rest].
  { exists (Ok []). split; [reflexivity|]. split; [intros _; eexists; reflexivity|].
    intros out [= <-]. split; [constructor|].
    intros [|? ?] x y post Hout; discriminate. }
  unfold recommendContentSequence.
  destruct (fold_left groupItem (first :: rest) (Ok [])) as [bySubject|] eqn:Eg.
  2:{ exists TypeError. split; [reflexivity|]. split; [|discriminate].
      intros Hall. destruct (grouping_returns _ [] Hall) as [gs Hgs].
      exfalso.
      assert (Hboth : @Ok Groups gs = TypeError)
        by (rewrite <- Hgs; exact Eg).
      discriminate Hboth. }
  destruct (grouping_keyed _ _ _ Eg keyed_nil) as [Hk Hitems]. simpl in Hitems.
  pose proof (sortGroups_keyed engineSort Hsort _ Hk) as Hk'.
  pose proof (sortGroups_items engineSort Hsort bySubject) as Hitems'.
  set (gs := sortGroups engineSort bySubject) in *.
  assert (Hlen : Forall (fun g => (length (snd g)
                                   <= length (first :: rest) + 0)%nat) gs).
  { apply Forall_forall. intros g Hg. apply group_length_bound in Hg.
    rewrite (Permutation_length Hitems'), (Permutation_length Hitems) in Hg.
    lia. }
  destruct (interleave_enough gs _ 0%nat [] Hlen) as [out Hout].
  rewrite Hout. exists (Ok out). split; [reflexivity|].
  split; [intros _; eexists; reflexivity|].
  intros out' [= <-]. split.
  - apply Permutation_sym.
    eapply Permutation_trans; [apply (interleave_items gs _ _ _ Hout)|].
    eapply Permutation_trans; [exact Hitems'|exact Hitems].
  - apply (spacedFrom_spaced out (interleave_spacedFrom gs Hk' _ _ _ Hout)).
Qed.

Lemma sequence_spaces_subjects_witness :
  exists r,
    recommendContentSequence stable_sort
      (Some [topic "a1" "algebra" 2; topic "a2" "algebra" 1;
             topic "g1" "geometry" 3; topic "a3" "algebra" 4]) = Some r
    /\ r = Ok [topic "a2" "algebra" 1; topic "g1" "geometry" 3;
               topic "a1" "algebra" 2; topic "a3" "algebra" 4].
Proof.
  destruct (sequence_spaces_subjects
              stable_sort (fun cmp l => SortFacts.stable_sort_perm cmp l)
              [topic "a1" "algebra" 2; topic "a2" "algebra" 1;
               topic "g1" "geometry" 3; topic "a3" "algebra" 4])
    as [r [Hr _]].
  exists r. split; [exact Hr|].
  vm_compute in Hr. injection Hr as Hr. symmetry. exact Hr.
Defined.

End SequencerFacts.

(** ** Prioritisation: scores, order and stability *)

Module PrioritizerOrderFacts.

Import Js ContentPrioritization.

Lemma deadlineBonus_range now item : 0 <= deadlineBonus now item <= 3.
Proof.
  unfold deadlineBonus. destruct (Item.dueDate item); [|lia].
  repeat (match goal with |- context [if ?c then _ else _] => destruct c end);
    lia.
Qed.

Lemma computePriorityScore_range now weak strong item :
  3 <= computePriorityScore now weak strong item <= 16.
Proof.
  unfold computePriorityScore.
  pose proof (deadlineBonus_range now item).
  destruct (includes weak (Item.subject item)),
           (includes strong (Item.subject item)),
           (Item.previouslyStruggled item),
           (Item.lastStudied item); lia.
Qed.

Lemma priorityLevel_not_optional s : 3 <= s -> priorityLevel s <> "optional".
Proof.
  intros Hs. unfold priorityLevel.
  destruct (10 <=? s); [discriminate|].
  destruct (8 <=? s); [discriminate|].
  destruct (5 <=? s); [discriminate|].
  destruct (Z.leb_spec 3 s); [discriminate | lia].
Qed.

(** X1: every item returned by prioritizeContent carries a priorityScore
    between 3 and 16 and the priority level of that score; the level
    'optional' is never assigned. *)
Theorem prioritized_scores_in_range :
  forall (now : Z) (contentItems : option (list Item.t))
         (userData : option UserData),
    Forall (fun item =>
              exists s,
                Item.priorityScore item = Some s
                /\ 3 <= s <= 16
                /\ Item.priority item = Some (priorityLevel s)
                /\ Item.priority item <> Some "optional")
           (prioritizeContent now contentItems userData).
Proof.
  intros now [[|first rest]|] [ud|]; try constructor.
  unfold prioritizeContent.
  apply Forall_forall. intros item Hin.
  apply SortFacts.stable_sort_in in Hin.
  apply in_map_iff in Hin. destruct Hin as [src [<- _]].
  set (weak := areasOr weakAreas (performance ud)).
  set (strong := areasOr strongAreas (performance ud)).
  pose proof (computePriorityScore_range now weak strong src) as Hr.
  exists (computePriorityScore now weak strong src).
  repeat split; try lia.
  simpl. intros [= H]. apply (priorityLevel_not_optional _ (proj1 Hr) H).
Qed.

(** Non-increasing scores from left to right. *)
Definition scoreNotBelow (a b : Item.t) : Prop := scoreOf a >= scoreOf b.

Lemma before_is_scoreNotBelow l :
  Sorted (SortFacts.before byScoreDescending) l -> StronglySorted scoreNotBelow l.
Proof.
  intros H. apply Sorted_StronglySorted.
  - intros a b c. unfold scoreNotBelow. lia.
  - eapply Sorted_ind with (P := Sorted scoreNotBelow); [constructor | | exact H].
    intros a t _ IH Hhd. constructor; [exact IH|].
    destruct Hhd as [|b t' Hab]; constructor.
    unfold SortFacts.before, byScoreDescending in Hab.
    unfold scoreNotBelow. lia.
Qed.

(** X2: the items returned by prioritizeContent are the scored input
    items, rearranged so that priorityScore never increases from one
    position to any later one. *)
Theorem prioritized_sorted_by_score :
  forall (now : Z) (contentItems : list Item.t) (ud : UserData),
    let scored :=
      map (scoreItem now (areasOr weakAreas (performance ud))
                     (areasOr strongAreas (performance ud))) contentItems in
    let result := prioritizeContent now (Some contentItems) (Some ud) in
    Permutation scored result
    /\ StronglySorted scoreNotBelow result.
Proof.
  intros now contentItems ud scored result. subst scored result.
  rewrite PrioritizationFacts.prioritizeContent_present. split.
  - apply SortFacts.stable_sort_perm.
  - apply before_is_scoreNotBelow, SortFacts.stable_sort_sorted.
    apply PrioritizationFacts.byScoreDescending_total.
Qed.

(** Insertion never lets an element overtake one of its own class. *)
Lemma filter_insert {A} (cmp : A -> A -> Z) (p : A -> bool) x l :
  (forall a b, 0 < cmp a b -> p a = true -> p b = true -> False) ->
  filter p (insert cmp x l) = filter p (x :: l).
Proof.
  intros Hclass. induction l as [|y t IH]; [reflexivity|].
  simpl insert. destruct (Z.leb_spec (cmp x y) 0) as [Hle | Hgt];
    [reflexivity|].
  simpl filter in *. rewrite IH.
  destruct (p x) eqn:Ex, (p y) eqn:Ey; try reflexivity.
  exfalso. exact (Hclass x y Hgt Ex Ey).
Qed.

Lemma filter_stable_sort {A} (cmp : A -> A -> Z) (p : A -> bool) l :
  (forall a b, 0 < cmp a b -> p a = true -> p b = true -> False) ->
  filter p (stable_sort cmp l) = filter p l.
Proof.
  intros Hclass. induction l as [|x t IH]; [reflexivity|].
  simpl stable_sort. rewrite (filter_insert cmp p _ _ Hclass).
  simpl. rewrite IH. reflexivity.
Qed.

(** X3: the sort of prioritizeContent is stable: for every score, the
    returned items with that score appear in the order they had in the
    input. *)
Theorem prioritized_ties_keep_input_order :
  forall (now : Z) (contentItems : list Item.t) (ud : UserData) (score : Z),
    let hasScore := fun item => scoreOf item =? score in
    filter hasScore (prioritizeContent now (Some contentItems) (Some ud))
    = filter hasScore
        (map (scoreItem now (areasOr weakAreas (performance ud))
                        (areasOr strongAreas (performance ud))) contentItems).
Proof.
  intros now contentItems ud score hasScore.
  rewrite PrioritizationFacts.prioritizeContent_present.
  apply filter_stable_sort.
  intros a b Hgt Ha Hb. subst hasScore. simpl in Ha, Hb.
  apply Z.eqb_eq in Ha, Hb. unfold byScoreDescending in Hgt. lia.
Qed.

End PrioritizerOrderFacts.

(** ** Session grouping: shape of the result *)

Module SessionShapeFacts.

Import Js ContentPrioritization GroupingFacts.

Lemma fold_addItem_invariant (P : Grouping -> Prop) T :
  (forall g item, P g -> P (addItem T g item)) ->
  forall l g, P g -> P (fold_left (addItem T) l g).
Proof.
  intros Hstep. induction l as [|x l IH]; intros g Hg; simpl; [exact Hg|].
  apply IH, Hstep, Hg.
Qed.

Lemma concat_length_ge (ss : list Session.t) :
  Forall (fun s => Session.items s <> []) ss ->
  (length ss <= length (concat (map Session.items ss)))%nat.
Proof.
  induction 1 as [|s rest Hs _ IH]; simpl; [lia|].
  rewrite length_app. destruct (Session.items s); [contradiction|].
  simpl. lia.
Qed.

(** X4: groupContentIntoSessions returns no empty session and at most as
    many sessions as there are items; it returns no session at all exactly
    when the input is empty. *)
Theorem group_sessions_nonempty :
  forall (prioritizedItems : list Item.t) (targetDuration : Z),
    let result :=
      groupContentIntoSessions (Some prioritizedItems) targetDuration in
    Forall (fun s => Session.items s <> []) result
    /\ (length result <= length prioritizedItems)%nat
    /\ (result = [] <-> prioritizedItems = []).
Proof.
  intros items T result.
  assert (Hne : Forall (fun s => Session.items s <> []) result)
    by apply (grouped_sessions T (Some items)).
  assert (Hall : concat (map Session.items result) = items).
  { subst result. destruct items as [|first rest]; [reflexivity|].
    unfold groupContentIntoSessions.
    rewrite flush_items, heldItems_fold. reflexivity. }
  split; [exact Hne|]. split.
  - pose proof (concat_length_ge result Hne) as Hlen.
    rewrite Hall in Hlen. exact Hlen.
  - split.
    + intros Hnil. rewrite Hnil in Hall. simpl in Hall. congruence.
    + intros ->. reflexivity.
Qed.

(** Each session, measured by its recorded duration, could not have taken
    the first item of the next one. *)
Fixpoint packed (T : Z) (chain : list Session.t) : Prop :=
  match chain with
  | s :: rest =>
      match rest with
      | s' :: _ =>
          match Session.items s' with
          | x :: _ => T < Session.estimatedDuration s + itemDuration x
          | [] => True
          end /\ packed T rest
      | [] => True
      end
  | [] => True
  end.

Definition sameLoad (a b : Session.t) : Prop :=
  Session.estimatedDuration a = Session.estimatedDuration b
  /\ Session.items a = Session.items b.

Lemma packed_snoc T chain : forall a b,
  packed T (chain ++ [a]) ->
  match Session.items b with
  | x :: _ => T < Session.estimatedDuration a + itemDuration x
  | [] => True
  end ->
  packed T (chain ++ [a; b]).
Proof.
  induction chain as [|s rest IH]; intros a b Hp Hab.
  - simpl. split; [exact Hab | exact I].
  - destruct rest as [|s' rest'].
    + simpl in *. split; [exact (proj1 Hp)|]. split; [exact Hab | exact I].
    + change ((s :: s' :: rest') ++ [a; b])
        with (s :: (s' :: rest') ++ [a; b]).
      change ((s :: s' :: rest') ++ [a]) with (s :: (s' :: rest') ++ [a]) in Hp.
      cbn [packed app] in Hp |- *. destruct Hp as [Hss Hrest].
      split; [exact Hss|]. apply (IH a b Hrest Hab).
Qed.

(** Replacing the last session by one with the same first item and any
    duration keeps the chain packed. *)
Lemma packed_last T chain : forall a a',
  packed T (chain ++ [a]) ->
  (chain <> [] -> exists x t t', Session.items a = x :: t
                                 /\ Session.items a' = x :: t') ->
  packed T (chain ++ [a']).
Proof.
  induction chain as [|s rest IH]; intros a a' Hp Hhead; [exact I|].
  destruct rest as [|s' rest'].
  - simpl in *. destruct (Hhead ltac:(discriminate)) as (x & t & t' & Ha & Ha').
    rewrite Ha in Hp. rewrite Ha'. exact Hp.
  - change ((s :: s' :: rest') ++ [a']) with (s :: (s' :: rest') ++ [a']).
    change ((s :: s' :: rest') ++ [a]) with (s :: (s' :: rest') ++ [a]) in Hp.
    cbn [packed app] in Hp |- *. destruct Hp as [Hss Hrest].
    split; [exact Hss|].
    apply (IH a a' Hrest). intros _. apply Hhead. discriminate.
Qed.

Definition packedState (T : Z) (g : Grouping) : Prop :=
  packed T (sessions g ++ [currentSession g])
  /\ (sessions g <> [] -> Session.items (currentSession g) <> []).

Lemma packedState_addItem T g item :
  packedState T g -> packedState T (addItem T g item).
Proof.
  intros [Hp Hcur]. unfold addItem, packedState.
  destruct (T <? Session.estimatedDuration (currentSession g) + itemDuration item)
    eqn:Eover;
  destruct (0 <? Z.of_nat (length (Session.items (currentSession g)))) eqn:Elen;
  simpl.
  - apply Z.ltb_lt in Eover. split; [|intros _; destruct (Session.items freshSession); discriminate].
    rewrite <- app_assoc. simpl.
    apply packed_snoc.
    + apply (packed_last T (sessions g) (currentSession g)); [exact Hp|].
      intros Hne. specialize (Hcur Hne).
      destruct (Session.items (currentSession g)) as [|x t] eqn:E;
        [contradiction|].
      exists x, t, t. split; [reflexivity|]. simpl. exact E.
    + simpl. exact Eover.
  - assert (Hnil : Session.items (currentSession g) = []).
    { destruct (Session.items (currentSession g)); [reflexivity|].
      simpl in Elen. apply Z.ltb_ge in Elen. lia. }
    assert (Hss : sessions g = []).
    { destruct (sessions g) as [|s ss]; [reflexivity|].
      exfalso. apply Hcur; [discriminate | exact Hnil]. }
    rewrite Hss. split; [exact I | intros Hne; contradiction].
  - split.
    + apply (packed_last T (sessions g) (currentSession g)); [exact Hp|].
      intros Hne. specialize (Hcur Hne).
      destruct (Session.items (currentSession g)) as [|x t] eqn:E;
        [contradiction|].
      exists x, t, (t ++ [item]). split; reflexivity.
    + intros _. simpl. destruct (Session.items (currentSession g)); discriminate.
  - split.
    + apply (packed_last T (sessions g) (currentSession g)); [exact Hp|].
      intros Hne. specialize (Hcur Hne).
      destruct (Session.items (currentSession g)) as [|x t] eqn:E;
        [contradiction|].
      exists x, t, (t ++ [item]). split; reflexivity.
    + intros _. simpl. destruct (Session.items (currentSession g)); discriminate.
Qed.

Lemma packedState_flush T g : packedState T g -> packed T (flush g).
Proof.
  intros [Hp Hcur]. unfold flush.
  destruct (0 <? Z.of_nat (length (Session.items (currentSession g)))) eqn:Elen.
  - apply (packed_last T (sessions g) (currentSession g)); [exact Hp|].
    intros Hne. specialize (Hcur Hne).
    destruct (Session.items (currentSession g)) as [|x t] eqn:E;
      [contradiction|].
    exists x, t, t. split; [reflexivity|]. simpl. exact E.
  - destruct (sessions g) as [|s ss]; [exact I|].
    exfalso. apply Hcur; [discriminate|].
    destruct (Session.items (currentSession g)); [reflexivity|].
    simpl in Elen. apply Z.ltb_ge in Elen. lia.
Qed.

Lemma packed_tail T s rest : packed T (s :: rest) -> packed T rest.
Proof. destruct rest; simpl; [trivial | intros [_ H]; exact H]. Qed.

Lemma packed_at T chain : forall pre s s' post x rest,
  packed T chain ->
  chain = pre ++ s :: s' :: post ->
  Session.items s' = x :: rest ->
  T < Session.estimatedDuration s + itemDuration x.
Proof.
  intros pre. revert chain.
  induction pre as [|p pre IH]; intros chain s s' post x rest Hp -> Hx.
  - simpl in Hp. rewrite Hx in Hp. exact (proj1 Hp).
  - apply (IH _ s s' post x rest (packed_tail _ _ _ Hp) eq_refl Hx).
Qed.

(** X5: the packing is greedy: of two consecutive sessions returned by
    groupContentIntoSessions, the earlier one plus the first item of the
    later one would exceed the target duration. *)
Theorem group_sessions_are_full :
  forall (prioritizedItems : list Item.t) (targetDuration : Z)
         (pre : list Session.t) (s s' : Session.t) (post : list Session.t)
         (x : Item.t) (rest : list Item.t),
    groupContentIntoSessions (Some prioritizedItems) targetDuration
    = pre ++ s :: s' :: post ->
    Session.items s' = x :: rest ->
    targetDuration < Session.estimatedDuration s + itemDuration x.
Proof.
  intros items T pre s s' post x rest Hres Hx.
  apply (packed_at T (groupContentIntoSessions (Some items) T)
                   pre s s' post x rest); [|exact Hres | exact Hx].
  destruct items as [|first others]; [exact I|].
  unfold groupContentIntoSessions.
  apply packedState_flush, fold_addItem_invariant.
  - intros g item. apply packedState_addItem.
  - split; [exact I | intros Hne; contradiction].
Qed.

Lemma group_sessions_are_full_witness :
  25 < Session.estimatedDuration
         (Session.mk [sampleItem "a" (Some 15) None] 15 (Some "low"))
       + itemDuration (sampleItem "b" (Some 15) None).
Proof.
  apply (group_sessions_are_full
           [sampleItem "a" (Some 15) None; sampleItem "b" (Some 15) None;
            sampleItem "c" (Some 15) None]
           25 []
           (Session.mk [sampleItem "a" (Some 15) None] 15 (Some "low"))
           (Session.mk [sampleItem "b" (Some 15) None] 15 (Some "low"))
           [Session.mk [sampleItem "c" (Some 15) None] 15 (Some "low")]
           (sampleItem "b" (Some 15) None) []);
    reflexivity.
Defined.

(** Closed sessions carry the priority the reducer computes from their
    items. *)
Definition prioritiesSet (g : Grouping) : Prop :=
  Forall (fun s => Session.priority s = highestPriority (Session.items s))
         (sessions g).

Lemma prioritiesSet_addItem T g item :
  prioritiesSet g -> prioritiesSet (addItem T g item).
Proof.
  unfold prioritiesSet, addItem. intros H.
  destruct ((T <? _) && _); simpl; [|exact H].
  apply Forall_app. split; [exact H|]. constructor; [reflexivity | constructor].
Qed.

(** X6: the priority of every returned session is 'low' or the label of
    one of its items, its value is a number of at least 1 (the value of
    'low'), and no item of the session has a greater value. *)
Theorem group_session_priority_is_maximal :
  forall (prioritizedItems : option (list Item.t)) (targetDuration : Z),
    Forall (fun s =>
              exists m,
                getPriorityValue (Session.priority s) = Number m
                /\ 1 <= m
                /\ (Session.priority s = Some "low"
                    \/ exists item, In item (Session.items s)
                                    /\ Item.priority item = Session.priority s)
                /\ Forall (fun item =>
                             exceeds (getPriorityValue (Item.priority item))
                                     (Number m) = false)
                          (Session.items s))
           (groupContentIntoSessions prioritizedItems targetDuration).
Proof.
  intros prioritizedItems T.
  assert (Hset : Forall (fun s => Session.priority s
                                  = highestPriority (Session.items s))
                        (groupContentIntoSessions prioritizedItems T)).
  { unfold groupContentIntoSessions.
    destruct prioritizedItems as [[|first rest]|]; try constructor.
    set (g := fold_left _ _ _).
    assert (Hg : prioritiesSet g).
    { apply fold_addItem_invariant; [apply prioritiesSet_addItem | constructor]. }
    unfold flush. destruct (0 <? _); [|exact Hg].
    apply Forall_app. split; [exact Hg|].
    constructor; [reflexivity | constructor]. }
  eapply Forall_impl; [|exact Hset].
  intros s Hs. rewrite Hs.
  destruct (highest_is_maximal (Session.items s) (Some "low") 1 eq_refl)
    as (m & Hm & Hle & Horigin & Hall).
  exists m. repeat split; assumption.
Qed.

End SessionShapeFacts.

(** ** Study mix: size and tags *)

Module StudyMixShapeFacts.

Import Js ContentPrioritization StudyMixFacts.

(** The learner is not in the struggling band: no score recorded, a score
    of 0 (read as none), or a score of at least 60. *)
Definition notStruggling (perf : option Performance) : Prop :=
  forall p a, perf = Some p -> averageScore p = Some a ->
              (a == 0)%Q \/ (60 <= a)%Q.

Lemma notStruggling_percentages perf :
  notStruggling perf ->
  mixPercentages perf = (60, 20, 20) \/ mixPercentages perf = (40, 20, 40).
Proof.
  intros Hns. unfold mixPercentages.
  destruct perf as [p|]; [|left; reflexivity].
  destruct (averageScore p) as [a|] eqn:Ea.
  - destruct (Hns p a eq_refl Ea) as [Hz | Hge].
    + assert (Hzero : isZero a = true) by (apply Qeq_bool_iff, Hz).
      rewrite Hzero. left. reflexivity.
    + assert (Hlow : Qltb (if isZero a then 70%Q else a) 60 = false).
      { destruct (isZero a); [reflexivity|].
        unfold Qltb. apply negb_false_iff, Qle_bool_iff, Hge. }
      rewrite Hlow. destruct (Qltb 85 _); [right | left]; reflexivity.
  - left. reflexivity.
Qed.

Lemma targetCounts_steady items perf w s n :
  items <> [] ->
  mixPercentages perf = (60, 20, 20) \/ mixPercentages perf = (40, 20, 40) ->
  targetCounts items perf = (w, s, n) ->
  0 <= w /\ 0 <= s /\ 0 <= n /\ w + s + n <= 10.
Proof.
  intros Hne Hpct. unfold targetCounts.
  assert (Ht : In (Z.min (Z.of_nat (length items)) 10)
                  [1; 2; 3; 4; 5; 6; 7; 8; 9; 10]).
  { destruct items as [|x l]; [contradiction|]. simpl length. simpl In. lia. }
  set (t := Z.min _ 10) in *. clearbody t. simpl in Ht.
  destruct Hpct as [-> | ->];
    repeat (destruct Ht as [<- | Ht]); try contradiction;
    intros H; vm_compute in H; inversion H; subst; lia.
Qed.

(** X7: generateBalancedStudyMix never returns more than eleven items,
    and never more than ten for a learner who is not in the struggling
    band (no average score, a score of 0, or a score of at least 60). *)
Theorem mix_size_limits :
  forall (contentItems : option (list Item.t)) (perf : option Performance),
    (length (generateBalancedStudyMix contentItems perf) <= 11)%nat
    /\ (notStruggling perf ->
        (length (generateBalancedStudyMix contentItems perf) <= 10)%nat).
Proof.
  intros contentItems perf. split; [apply mix_length_le_11|].
  intros Hns. unfold generateBalancedStudyMix.
  destruct contentItems as [[|first rest]|]; simpl length; try lia.
  destruct (targetCounts (first :: rest) perf) as [[w s] n] eqn:Ecounts.
  apply targetCounts_steady in Ecounts;
    [|discriminate | apply notStruggling_percentages, Hns].
  destruct Ecounts as (Hw & Hs & Hn & Hsum).
  match goal with
  | |- (length ?l <= 10)%nat =>
      assert (Hb : Z.of_nat (length l) <= w + s + n);
      [ apply selection_length_bound; assumption | lia ]
  end.
Qed.

Lemma mix_size_limits_witness :
  (length (generateBalancedStudyMix (Some elevenItems) (strugglingLearner 75))
   <= 10)%nat.
Proof.
  apply (mix_size_limits (Some elevenItems) (strugglingLearner 75)).
  intros p a [= <-] [= <-]. right. discriminate.
Defined.

(** An item of the mix: an input item with its category, the category
    agreeing with the areas its subject belongs to. *)
Definition taggedFrom (contentItems : list Item.t) (perf : option Performance)
           (item : Item.t) : Prop :=
  exists source c,
    In source contentItems
    /\ item = tag c source
    /\ ((c = "weak-area"
         /\ includes (areasOr weakAreas perf) (Item.subject source) = true)
        \/ (c = "strong-area"
            /\ includes (areasOr strongAreas perf) (Item.subject source) = true)
        \/ (c = "new-content"
            /\ includes (areasOr weakAreas perf) (Item.subject source) = false
            /\ includes (areasOr strongAreas perf) (Item.subject source)
               = false)).

Lemma firstn_in {A} (n : nat) : forall (l : list A) x,
  In x (firstn n l) -> In x l.
Proof.
  induction n as [|n IH]; intros [|y t] x; simpl; try contradiction.
  intros [-> | H]; [left; reflexivity | right; apply IH, H].
Qed.

Lemma sliceFront_in count l x : In x (sliceFront count l) -> In x l.
Proof. unfold sliceFront. apply firstn_in. Qed.

(** X8: every item generateBalancedStudyMix returns is an input item with
    a category attached: 'weak-area' only for a subject among the weak
    areas, 'strong-area' only for one among the strong areas,
    'new-content' only for one in neither list. *)
Theorem mix_items_are_tagged_inputs :
  forall (contentItems : list Item.t) (perf : option Performance),
    Forall (taggedFrom contentItems perf)
           (generateBalancedStudyMix (Some contentItems) perf).
Proof.
  intros [|first rest] perf; [constructor|].
  unfold generateBalancedStudyMix.
  destruct (targetCounts (first :: rest) perf) as [[w s] n].
  cbv zeta.
  repeat (apply Forall_app; split);
    apply Forall_map, Forall_forall; intros x Hx;
    apply sliceFront_in, filter_In in Hx; destruct Hx as [Hin Hp].
  - exists x, "weak-area". repeat split; [exact Hin|]. left.
    split; [reflexivity | exact Hp].
  - exists x, "strong-area". repeat split; [exact Hin|]. right. left.
    split; [reflexivity | exact Hp].
  - exists x, "new-content". repeat split; [exact Hin|]. right. right.
    apply andb_true_iff in Hp. destruct Hp as [Hw Hs].
    apply negb_true_iff in Hw, Hs. repeat split; assumption.
Qed.

End StudyMixShapeFacts.

(** ** Schedule generation: the sessions produced *)

Module ScheduleShapeFacts.

Import Js AdaptiveScheduling ScheduleFacts.

Lemma itemsPerDayOf_at_most_3 len days h : itemsPerDayOf len days h <= 3.
Proof.
  unfold itemsPerDayOf.
  destruct (isZero _); [destruct (Qltb 0 _); lia | lia].
Qed.

Lemma mapM_all_some {A} (l : list (option A)) : forall items,
  mapM (fun o : option A => match o with Some i => Ok i | None => TypeError end) l
  = Ok items ->
  l = map Some items.
Proof.
  induction l as [|o t IH]; intros items; simpl.
  - intros [= <-]. reflexivity.
  - destruct o as [i|]; [|discriminate]. simpl.
    destruct (mapM _ t) as [rest|]; [|discriminate]. simpl.
    intros [= <-]. simpl. rewrite (IH rest eq_refl). reflexivity.
Qed.

Lemma dayItemsAt_length sortedContent itemsPerDay day :
  length (dayItemsAt sortedContent itemsPerDay day) = Z.to_nat itemsPerDay.
Proof. unfold dayItemsAt. rewrite length_map, length_seq. reflexivity. Qed.

Lemma dayItemsAt_from_content sortedContent itemsPerDay day item :
  In (Some item) (dayItemsAt sortedContent itemsPerDay day) ->
  In item sortedContent.
Proof.
  unfold dayItemsAt. intros H. apply in_map_iff in H.
  destruct H as [i [H _]]. apply nth_error_In in H. exact H.
Qed.

(** What one iteration of the loop leaves in the schedule. *)
Definition sessionOfDay (ud : UserData) (sortedContent : list Item.t)
           (itemsPerDay : Z) (onDay : Z) (s : StudySession.t) : Prop :=
  exists startHour endHour,
    getBestStudyHours (habits ud) = Some (startHour, endHour)
    /\ StudySession.date s = Date.mk onDay (startHour * 3600000)
    /\ StudySession.completed s = false
    /\ StudySession.breakDuration s = breakDurationOf (preferences ud)
    /\ length (StudySession.items s) = Z.to_nat itemsPerDay
    /\ Forall (fun item => In item sortedContent) (StudySession.items s).

Lemma scheduleDay_session ud sortedContent itemsPerDay day currentDate s :
  scheduleDay ud sortedContent itemsPerDay day currentDate = Ok s ->
  sessionOfDay ud sortedContent itemsPerDay (Date.day currentDate) s.
Proof.
  unfold scheduleDay.
  destruct (getBestStudyHours (habits ud)) as [[startHour endHour]|] eqn:Eh;
    [|discriminate].
  destruct (mapM _ (dayItemsAt sortedContent itemsPerDay day)) as [items|] eqn:E;
    [|discriminate].
  simpl. intros [= <-]. apply mapM_all_some in E.
  exists startHour, endHour. simpl. repeat split.
  - exact Eh.
  - rewrite <- (length_map Some items), <- E. apply dayItemsAt_length.
  - apply Forall_forall. intros item Hin.
    apply (dayItemsAt_from_content sortedContent itemsPerDay day).
    rewrite E. apply in_map, Hin.
Qed.

Lemma scheduleFrom_sessions ud sortedContent itemsPerDay :
  forall remaining day currentDate schedule,
    scheduleFrom ud sortedContent itemsPerDay remaining day currentDate
    = Ok schedule ->
    forall k s,
      nth_error schedule k = Some s ->
      sessionOfDay ud sortedContent itemsPerDay
                   (Date.day currentDate + Z.of_nat k) s.
Proof.
  induction remaining as [|n IH]; intros day currentDate schedule; simpl.
  - intros [= <-] [|k] s; discriminate.
  - destruct (scheduleDay ud sortedContent itemsPerDay day currentDate)
      as [session|] eqn:Eday; [|discriminate]. simpl.
    destruct (scheduleFrom ud sortedContent itemsPerDay n (day + 1)
                           (Date.nextDay currentDate)) as [later|] eqn:Elater;
      [|discriminate]. simpl.
    intros [= <-] [|k] s; simpl.
    + intros [= <-]. rewrite Z.add_0_r.
      apply (scheduleDay_session _ _ _ _ _ _ Eday).
    + intros Hk. pose proof (IH _ _ _ Elater k s Hk) as H.
      simpl in H.
      replace (Date.day currentDate + Z.pos (Pos.of_succ_nat k))
        with (Date.day currentDate + 1 + Z.of_nat k) by lia.
      exact H.
Qed.

(** X9: in a schedule returned by generateAdaptiveSchedule every session
    holds the same number of items, between one and three, all taken from
    the content list. *)
Theorem schedule_sessions_hold_one_to_three_items :
  forall (ud : UserData) (contentItems : list Item.t) (startDate : Date.t)
         (daysToSchedule : Z) (schedule : list StudySession.t),
    generateAdaptiveSchedule (Some ud) (Some contentItems) startDate
                             daysToSchedule = Ok schedule ->
    exists itemsPerDay : nat,
      (1 <= itemsPerDay <= 3)%nat
      /\ Forall (fun s =>
                   length (StudySession.items s) = itemsPerDay
                   /\ Forall (fun item => In item contentItems)
                             (StudySession.items s))
                schedule.
Proof.
  intros ud [|first rest] startDate days schedule.
  { intros [= <-]. exists 1%nat. split; [lia | constructor]. }
  unfold generateAdaptiveSchedule.
  set (sorted := stable_sort (weakThenHard (performance ud)) (first :: rest)).
  set (ipd := itemsPerDayOf (Z.of_nat (length sorted)) days (habits ud)).
  intros Hgen. exists (Z.to_nat ipd).
  pose proof (itemsPerDayOf_positive (Z.of_nat (length sorted)) days (habits ud)).
  pose proof (itemsPerDayOf_at_most_3 (Z.of_nat (length sorted)) days (habits ud)).
  fold ipd in H, H0. split; [lia|].
  apply Forall_forall. intros s Hs.
  apply In_nth_error in Hs. destruct Hs as [k Hk].
  destruct (scheduleFrom_sessions _ _ _ _ _ _ _ Hgen k s Hk)
    as (startHour & endHour & _ & _ & _ & _ & Hlen & Hitems).
  split; [exact Hlen|].
  eapply Forall_impl; [|exact Hitems].
  intros item Hin. apply (SortFacts.stable_sort_in _ _ _ Hin).
Qed.

Definition weekOfBlankUser : list StudySession.t :=
  Eval vm_compute in
  match generateAdaptiveSchedule (Some blankUser)
                                 (Some [lesson "l1" "calculus" 4;
                                        lesson "l2" "physics" 2])
                                 mondayMorning 7 with
  | Ok schedule => schedule
  | TypeError => []
  end.

Lemma weekOfBlankUser_generated :
  generateAdaptiveSchedule (Some blankUser)
                           (Some [lesson "l1" "calculus" 4;
                                  lesson "l2" "physics" 2])
                           mondayMorning 7 = Ok weekOfBlankUser.
Proof. vm_compute. reflexivity. Qed.

Lemma schedule_sessions_hold_one_to_three_items_witness :
  exists itemsPerDay : nat,
    (1 <= itemsPerDay <= 3)%nat
    /\ Forall (fun s =>
                 length (StudySession.items s) = itemsPerDay
                 /\ Forall (fun item =>
                              In item [lesson "l1" "calculus" 4;
                                       lesson "l2" "physics" 2])
                           (StudySession.items s))
              weekOfBlankUser.
Proof.
  exact (schedule_sessions_hold_one_to_three_items
           blankUser [lesson "l1" "calculus" 4; lesson "l2" "physics" 2]
           mondayMorning 7 weekOfBlankUser weekOfBlankUser_generated).
Defined.

Lemma generated_session_slot ud contentItems startDate days schedule k s :
  generateAdaptiveSchedule (Some ud) (Some contentItems) startDate days
  = Ok schedule ->
  nth_error schedule k = Some s ->
  exists startHour endHour,
    getBestStudyHours (habits ud) = Some (startHour, endHour)
    /\ StudySession.date s
       = Date.mk (Date.day startDate + Z.of_nat k) (startHour * 3600000)
    /\ StudySession.completed s = false
    /\ StudySession.breakDuration s = breakDurationOf (preferences ud).
Proof.
  destruct contentItems as [|first rest].
  { intros [= <-]. destruct k; discriminate. }
  unfold generateAdaptiveSchedule. intros Hgen Hk.
  destruct (scheduleFrom_sessions _ _ _ _ _ _ _ Hgen k s Hk)
    as (startHour & endHour & Hh & Hdate & Hdone & Hbreak & _).
  exists startHour, endHour. repeat split; assumption.
Qed.



Lemma bestPeriod_is_best_learning_time h :
  bestPeriod h = AdaptiveBehavior.calculateBestLearningTime h.
Proof.
  unfold bestPeriod, preferredTimeOf, AdaptiveBehavior.calculateBestLearningTime.
  destruct h as [hb|]; [|reflexivity].
  destruct (preferredStudyTime hb); reflexivity.
Qed.

(** An index-like key of preferredStudyTime is listed before 'morning':
    with both at 0.5 the best period is '7', which has no hours. *)
Example schedule_raises_for_index_like_period :
  let user :=
    {| performance := None;
       habits := Some {| preferredStudyTime :=
                           Some [("morning", 1 # 2); ("7", 1 # 2)];
                         consistencyScore := None |};
       preferences := None |} in
  bestPeriod (habits user) = "7"
  /\ generateAdaptiveSchedule (Some user) (Some [lesson "l1" "calculus" 3])
                              mondayMorning 2 = TypeError.
Proof. split; vm_compute; reflexivity. Qed.

Lemma defaultHours_none_iff period :
  defaultHours period = None
  <-> ~ In period ["morning"; "afternoon"; "evening"].
Proof.
  unfold defaultHours. simpl.
  destruct (String.eqb_spec period "morning") as [-> | H1];
    [split; [discriminate | intros H; exfalso; apply H; auto]|].
  destruct (String.eqb_spec period "afternoon") as [-> | H2];
    [split; [discriminate | intros H; exfalso; apply H; auto]|].
  destruct (String.eqb_spec period "evening") as [-> | H3];
    [split; [discriminate | intros H; exfalso; apply H; auto]|].
  split; [|reflexivity].
  intros _ [H | [H | [H | []]]]; congruence.
Qed.

(** X11: generateAdaptiveSchedule raises a TypeError exactly when userData
    is present, the content list is not empty, at least one day is asked
    for, and the period calculateBestLearningTime picks from the
    learner's habits is none of morning, afternoon and evening; in every
    other case it returns a schedule. *)
Theorem schedule_raises_exactly_when :
  forall (userData : option UserData) (contentItems : option (list Item.t))
         (startDate : Date.t) (daysToSchedule : Z),
    generateAdaptiveSchedule userData contentItems startDate daysToSchedule
    = TypeError
    <-> exists ud first rest,
        userData = Some ud
        /\ contentItems = Some (first :: rest)
        /\ 1 <= daysToSchedule
        /\ ~ In (AdaptiveBehavior.calculateBestLearningTime (habits ud))
                ["morning"; "afternoon"; "evening"].
Proof.
  intros userData contentItems startDate days. split.
  - destruct userData as [ud|]; [|discriminate].
    destruct contentItems as [[|first rest]|]; try discriminate.
    intros Hraise. exists ud, first, rest.
    split; [reflexivity|]. split; [reflexivity|].
    destruct (getBestStudyHours (habits ud)) as [hours|] eqn:Eh.
    + exfalso. unfold generateAdaptiveSchedule in Hraise.
      set (sorted := stable_sort _ _) in Hraise.
      destruct (scheduleFrom_returns
                  ud sorted
                  (itemsPerDayOf (Z.of_nat (length sorted)) days (habits ud))
                  hours Eh) with (remaining := Z.to_nat days) (day := 0)
                                 (currentDate := startDate)
        as [schedule [Hok _]].
      * intro Hnil. apply (f_equal (@length Item.t)) in Hnil. subst sorted.
        rewrite SortFacts.stable_sort_length in Hnil. discriminate.
      * pose proof (itemsPerDayOf_positive (Z.of_nat (length sorted)) days
                                           (habits ud)). lia.
      * lia.
      * congruence.
    + split.
      * destruct (Z_le_gt_dec 1 days) as [H | H]; [exact H|].
        exfalso. unfold generateAdaptiveSchedule in Hraise.
        replace (Z.to_nat days) with 0%nat in Hraise by lia.
        discriminate.
      * rewrite <- bestPeriod_is_best_learning_time.
        apply defaultHours_none_iff. exact Eh.
  - intros (ud & first & rest & -> & -> & Hdays & Hperiod).
    apply schedule_raises_without_hours; [|exact Hdays].
    unfold getBestStudyHours. apply defaultHours_none_iff.
    rewrite bestPeriod_is_best_learning_time. exact Hperiod.
Qed.

Lemma defaultHours_start_in_period period startHour endHour :
  defaultHours period = Some (startHour, endHour) ->
  Providers.timeOfDayOf startHour = period.
Proof.
  unfold defaultHours.
  destruct (String.eqb_spec period "morning") as [-> | _];
    [intros [= <- <-]; reflexivity|].
  destruct (String.eqb_spec period "afternoon") as [-> | _];
    [intros [= <- <-]; reflexivity|].
  destruct (String.eqb_spec period "evening") as [-> | _];
    [intros [= <- <-]; reflexivity | discriminate].
Qed.

(** X12: every session of a returned schedule starts at an hour that the
    clock classification of AdaptiveProvider (updateTimeOfDay) assigns to
    the period calculateBestLearningTime picks for the learner. *)
Theorem schedule_sessions_start_in_best_period :
  forall (ud : UserData) (contentItems : list Item.t) (startDate : Date.t)
         (daysToSchedule : Z) (schedule : list StudySession.t),
    generateAdaptiveSchedule (Some ud) (Some contentItems) startDate
                             daysToSchedule = Ok schedule ->
    Forall (fun s =>
              Providers.timeOfDayOf
                (Date.timeOfDay (StudySession.date s) / 3600000)
              = AdaptiveBehavior.calculateBestLearningTime (habits ud))
           schedule.
Proof.
  intros ud contentItems startDate days schedule Hgen.
  apply Forall_forall. intros s Hs.
  apply In_nth_error in Hs. destruct Hs as [k Hk].
  destruct (generated_session_slot
              ud contentItems startDate days schedule k s Hgen Hk)
    as (startHour & endHour & Hh & Hdate & _).
  rewrite Hdate. simpl. rewrite Z.div_mul by discriminate.
  rewrite <- bestPeriod_is_best_learning_time.
  apply (defaultHours_start_in_period _ _ endHour). exact Hh.
Qed.

Lemma schedule_sessions_start_in_best_period_witness :
  Forall (fun s =>
            Providers.timeOfDayOf
              (Date.timeOfDay (StudySession.date s) / 3600000)
            = "evening")
         weekOfBlankUser.
Proof.
  exact (schedule_sessions_start_in_best_period
           blankUser [lesson "l1" "calculus" 4; lesson "l2" "physics" 2]
           mondayMorning 7 weekOfBlankUser weekOfBlankUser_generated).
Defined.

End ScheduleShapeFacts.

(** ** Schedule adjustment: what is kept *)

Module AdjustmentShapeFacts.

Import Js AdaptiveScheduling AdjustmentFacts.

(** Same date, break and completion flag. *)
Definition sameSlot (s u : StudySession.t) : Prop :=
  StudySession.date u = StudySession.date s
  /\ StudySession.breakDuration u = StudySession.breakDuration s
  /\ StudySession.completed u = StudySession.completed s.

Lemma sameSlot_refl s : sameSlot s s.
Proof. repeat split. Qed.

Lemma Forall2_sameSlot_refl l : Forall2 sameSlot l l.
Proof. induction l; constructor; [apply sameSlot_refl | assumption]. Qed.

Lemma Forall2_assignAt l : forall k v x,
  nth_error l k = Some x -> sameSlot x v -> Forall2 sameSlot l (assignAt k v l).
Proof.
  induction l as [|y t IH]; intros [|k] v x; simpl; try discriminate.
  - intros [= ->] Hv. constructor; [exact Hv | apply Forall2_sameSlot_refl].
  - intros Hk Hv. constructor; [apply sameSlot_refl | apply (IH k v x Hk Hv)].
Qed.

Lemma Forall2_shortenFrom l : forall m index,
  Forall2 sameSlot l m -> Forall2 sameSlot l (shortenFrom index m).
Proof.
  induction l as [|s t IH]; intros m index H; inversion H; subst; simpl.
  - constructor.
  - constructor; [|apply IH; assumption].
    destruct (0 <? index)%nat; [|assumption].
    unfold sameSlot, shorten in *. simpl. assumption.
Qed.

Lemma addReinforcement_sameSlot now f schedule :
  Forall2 sameSlot schedule (addReinforcement now f schedule).
Proof.
  unfold addReinforcement.
  destruct (_ && _); [|apply Forall2_sameSlot_refl].
  destruct (findIndex _ schedule) as [k|]; [|apply Forall2_sameSlot_refl].
  destruct (nth_error schedule k) as [next|] eqn:E;
    [|apply Forall2_sameSlot_refl].
  apply (Forall2_assignAt schedule k _ next E). repeat split.
Qed.

(** X13: whatever the feedback, adjustScheduleBasedOnPerformance returns
    as many sessions as it was given, each with the date, break duration
    and completion flag of the session at the same position of the
    input. *)
Theorem adjustment_keeps_slots :
  forall (now : Date.t) (schedule : list StudySession.t) (f : Feedback.t),
    exists updated,
      adjustScheduleBasedOnPerformance now (Some schedule) (Some f)
      = Some updated
      /\ length updated = length schedule
      /\ Forall2 sameSlot schedule updated.
Proof.
  intros now schedule f. unfold adjustScheduleBasedOnPerformance.
  eexists. split; [reflexivity|].
  assert (H : Forall2 sameSlot schedule
                      (if performsWell f
                       then shortenFrom 0 (addReinforcement now f schedule)
                       else addReinforcement now f schedule)).
  { destruct (performsWell f);
      [apply Forall2_shortenFrom|]; apply addReinforcement_sameSlot. }
  split; [symmetry; apply (Forall2_length H) | exact H].
Qed.

Lemma findIndex_none {A} (p : A -> bool) l :
  Forall (fun x => p x = false) l -> findIndex p l = None.
Proof.
  induction 1 as [|x t Hx _ IH]; simpl; [reflexivity|].
  rewrite Hx, IH. reflexivity.
Qed.

(** X14: feedback that names no struggled item (or arrives when no
    session is dated after now) and whose average score is absent or at
    most 85 leaves the schedule exactly as it was. *)
Theorem adjustment_without_cause_is_identity :
  forall (now : Date.t) (schedule : list StudySession.t) (f : Feedback.t),
    (Feedback.struggledItems f = None
     \/ Feedback.struggledItems f = Some []
     \/ Forall (fun s => Date.toMs (StudySession.date s) <= Date.toMs now)
               schedule) ->
    (forall a, Feedback.averageScore f = Some a -> (a <= 85)%Q) ->
    adjustScheduleBasedOnPerformance now (Some schedule) (Some f)
    = Some schedule.
Proof.
  intros now schedule f Hquiet Hscore.
  unfold adjustScheduleBasedOnPerformance.
  assert (Hwell : performsWell f = false).
  { unfold performsWell. destruct (Feedback.averageScore f) as [a|];
      [|reflexivity].
    apply andb_false_iff. right. unfold Qltb.
    apply negb_false_iff, Qle_bool_iff, Hscore. reflexivity. }
  rewrite Hwell. f_equal. unfold addReinforcement.
  destruct Hquiet as [-> | [-> | Hpast]]; try reflexivity.
  destruct (_ && _); [|reflexivity].
  rewrite findIndex_none; [reflexivity|].
  eapply Forall_impl; [|exact Hpast].
  intros s Hs. simpl in Hs. apply Z.ltb_ge. exact Hs.
Qed.

Lemma adjustment_without_cause_is_identity_witness :
  adjustScheduleBasedOnPerformance
    (Date.mk 10 0)
    (Some [sessionAt 9 30; sessionAt 11 30])
    (Some (Feedback.mk None (Some []) (Some 80%Q)))
  = Some [sessionAt 9 30; sessionAt 11 30].
Proof.
  apply (adjustment_without_cause_is_identity
           (Date.mk 10 0) [sessionAt 9 30; sessionAt 11 30]
           (Feedback.mk None (Some []) (Some 80%Q))).
  - right. left. reflexivity.
  - intros a [= <-]. discriminate.
Defined.

Lemma findIndex_first {A} (p : A -> bool) l : forall k,
  findIndex p l = Some k ->
  (exists x, nth_error l k = Some x /\ p x = true)
  /\ forall j y, (j < k)%nat -> nth_error l j = Some y -> p y = false.
Proof.
  induction l as [|x t IH]; intros k; simpl; [discriminate|].
  destruct (p x) eqn:Ex.
  - intros [= <-]. split; [exists x; split; [reflexivity | exact Ex]|].
    intros j y Hj. lia.
  - destruct (findIndex p t) as [k'|]; simpl; [|discriminate].
    intros [= <-]. destruct (IH k' eq_refl) as [Hat Hbefore].
    split; [exact Hat|].
    intros [|j] y Hj; simpl.
    + intros [= <-]. exact Ex.
    + apply Hbefore. lia.
Qed.

Lemma findIndex_at {A} (p : A -> bool) l : forall i x,
  nth_error l i = Some x ->
  p x = true ->
  (forall j y, (j < i)%nat -> nth_error l j = Some y -> p y = false) ->
  findIndex p l = Some i.
Proof.
  induction l as [|y t IH]; intros [|i] x; simpl; try discriminate.
  - intros [= ->] Hx _. rewrite Hx. reflexivity.
  - intros Hi Hx Hbefore.
    rewrite (Hbefore 0%nat y ltac:(lia) eq_refl).
    rewrite (IH i x Hi Hx); [reflexivity|].
    intros j z Hj Hz. apply (Hbefore (S j) z); [lia | exact Hz].
Qed.

(** The session at position [i] is the first one dated after now. *)
Definition firstAfter (now : Date.t) (schedule : list StudySession.t)
           (i : nat) (s : StudySession.t) : Prop :=
  Date.toMs now < Date.toMs (StudySession.date s)
  /\ forall j s',
      (j < i)%nat -> nth_error schedule j = Some s' ->
      Date.toMs (StudySession.date s') <= Date.toMs now.

(** X15: reinforcement touches exactly one session.  When the feedback
    names struggled items, the first session dated after now gets the first
    two of them in front of its own items; every other session, and every
    session when no struggled item is named, keeps exactly its items. *)
Theorem adjustment_reinforces_first_future_session :
  forall (now : Date.t) (schedule : list StudySession.t) (f : Feedback.t),
    exists updated,
      adjustScheduleBasedOnPerformance now (Some schedule) (Some f)
      = Some updated
      /\ forall (i : nat) (s : StudySession.t),
          nth_error schedule i = Some s ->
          exists u,
            nth_error updated i = Some u
            /\ (reinforcementOf f <> [] -> firstAfter now schedule i s ->
                StudySession.items u
                = firstn 2 (reinforcementOf f) ++ StudySession.items s)
            /\ (reinforcementOf f = [] \/ ~ firstAfter now schedule i s ->
                StudySession.items u = StudySession.items s).
Proof.
  intros now schedule f. unfold adjustScheduleBasedOnPerformance.
  eexists. split; [reflexivity|].
  intros i s Hs.
  pose proof (addReinforcement_nth now f schedule i s Hs) as Hmid.
  set (after := fun x : StudySession.t =>
                  Date.toMs now <? Date.toMs (StudySession.date x)).
  assert (Hlen : (0 <? Z.of_nat (length schedule)) = true).
  { apply Z.ltb_lt. destruct schedule; [destruct i; discriminate|]. simpl. lia. }
  assert (Hitems :
            (reinforcementOf f <> [] -> firstAfter now schedule i s ->
             StudySession.items (afterReinforcement now f schedule i s)
             = firstn 2 (reinforcementOf f) ++ StudySession.items s)
            /\ (reinforcementOf f = [] \/ ~ firstAfter now schedule i s ->
                StudySession.items (afterReinforcement now f schedule i s)
                = StudySession.items s)).
  { unfold afterReinforcement, reinforcedIndex. rewrite Hlen, andb_true_r.
    fold after. split.
    - intros Hne [Hafter Hbefore].
      assert (Hpos : (0 <? Z.of_nat (length (reinforcementOf f))) = true).
      { apply Z.ltb_lt. destruct (reinforcementOf f); [contradiction|].
        simpl. lia. }
      rewrite Hpos.
      rewrite (findIndex_at after schedule i s Hs).
      + rewrite Nat.eqb_refl. reflexivity.
      + apply Z.ltb_lt, Hafter.
      + intros j y Hj Hy. apply Z.ltb_ge. apply (Hbefore j y Hj Hy).
    - intros Hquiet.
      destruct (0 <? Z.of_nat (length (reinforcementOf f))) eqn:Epos;
        [|reflexivity].
      destruct (findIndex after schedule) as [k|] eqn:Ek; [|reflexivity].
      destruct (Nat.eqb_spec i k) as [-> | _]; [|reflexivity].
      exfalso.
      destruct (findIndex_first _ _ _ Ek) as [[x [Hx Hpx]] Hbefore].
      rewrite Hs in Hx. injection Hx as <-.
      destruct Hquiet as [Hnil | Hnot].
      + rewrite Hnil in Epos. discriminate.
      + apply Hnot. split; [apply Z.ltb_lt, Hpx|].
        intros j s' Hj Hs'. apply Z.ltb_ge. apply (Hbefore j s' Hj Hs'). }
  destruct (performsWell f).
  - rewrite (shortenFrom_nth _ 0 i _ Hmid). eexists. split; [reflexivity|].
    destruct (0 <? 0 + i)%nat; exact Hitems.
  - eexists. split; [exact Hmid | exact Hitems].
Qed.

End AdjustmentShapeFacts.

(** ** Adaptive behaviour *)

Module AdaptiveBehaviorFacts.

Import Js AdaptiveBehavior.

Lemma Qltb_lt x y : Qltb x y = true <-> (x < y)%Q.
Proof.
  unfold Qltb. rewrite negb_true_iff. split.
  - intros H. apply Qnot_le_lt. intros Hle.
    apply Qle_bool_iff in Hle. congruence.
  - intros H. destruct (Qle_bool y x) eqn:E; [|reflexivity].
    apply Qle_bool_iff in E. exfalso. apply (Qlt_not_le _ _ H E).
Qed.

Lemma Qltb_ge x y : Qltb x y = false <-> (y <= x)%Q.
Proof.
  unfold Qltb. rewrite negb_false_iff. apply Qle_bool_iff.
Qed.

(** The state of the [forEach] after the whole mapping. *)
Definition bestEntry (preferred : list (string * Q)) (start : string * Q)
  : string * Q :=
  fold_left
    (fun (acc : string * Q) (entry : string * Q) =>
       if Qltb (snd acc) (snd entry) then (fst entry, snd entry) else acc)
    preferred start.

Lemma bestEntry_maximal preferred : forall start,
  (snd start <= snd (bestEntry preferred start))%Q
  /\ Forall (fun entry => (snd entry <= snd (bestEntry preferred start))%Q)
            preferred
  /\ (bestEntry preferred start = start
      \/ (In (bestEntry preferred start) preferred
          /\ (snd start < snd (bestEntry preferred start))%Q)).
Proof.
  induction preferred as [|[period score] rest IH]; intros start.
  - simpl. split; [apply Qle_refl|]. split; [constructor | left; reflexivity].
  - unfold bestEntry. simpl fold_left.
    destruct (Qltb (snd start) score) eqn:E.
    + apply Qltb_lt in E.
      destruct (IH (period, score)) as (Hge & Hall & Horigin).
      fold (bestEntry rest (period, score)) in *. simpl in Hge.
      split; [apply Qlt_le_weak, (Qlt_le_trans _ _ _ E Hge)|].
      split; [constructor; [exact Hge | exact Hall]|].
      right. destruct Horigin as [-> | [Hin Hlt]].
      * split; [left; reflexivity | exact E].
      * split; [right; exact Hin|].
        simpl in Hlt. apply (Qlt_trans _ _ _ E Hlt).
    + apply Qltb_ge in E.
      destruct (IH start) as (Hge & Hall & Horigin).
      fold (bestEntry rest start) in *.
      split; [exact Hge|].
      split; [constructor; [apply (Qle_trans _ _ _ E Hge) | exact Hall]|].
      destruct Horigin as [-> | [Hin Hlt]]; [left; reflexivity|].
      right. split; [right; exact Hin | exact Hlt].
Qed.

(** The winner is the first entry, in the order of the fold, that reaches
    the highest score. *)
Lemma bestEntry_first preferred : forall start,
  (bestEntry preferred start = start
   /\ Forall (fun entry => (snd entry <= snd start)%Q) preferred)
  \/ exists pre post,
      preferred = pre ++ bestEntry preferred start :: post
      /\ (snd start < snd (bestEntry preferred start))%Q
      /\ Forall (fun entry => (snd entry < snd (bestEntry preferred start))%Q)
                pre.
Proof.
  induction preferred as [|[period score] rest IH]; intros start.
  - left. split; [reflexivity | constructor].
  - unfold bestEntry. simpl fold_left.
    destruct (Qltb (snd start) score) eqn:E.
    + apply Qltb_lt in E. right.
      destruct (IH (period, score)) as [[Hsame Hall] | (pre & post & Hl & Hlt & Hpre)];
        fold (bestEntry rest (period, score)) in *.
      * exists [], rest. rewrite Hsame. simpl.
        split; [reflexivity|]. split; [exact E | constructor].
      * exists ((period, score) :: pre), post. simpl in Hlt.
        split; [simpl; rewrite <- Hl; reflexivity|].
        split; [apply (Qlt_trans _ _ _ E Hlt)|].
        constructor; [exact Hlt | exact Hpre].
    + apply Qltb_ge in E.
      destruct (IH start) as [[Hsame Hall] | (pre & post & Hl & Hlt & Hpre)];
        fold (bestEntry rest start) in *.
      * left. split; [exact Hsame|]. constructor; [exact E | exact Hall].
      * right. exists ((period, score) :: pre), post.
        split; [simpl; rewrite <- Hl; reflexivity|].
        split; [exact Hlt|].
        constructor; [apply (Qle_lt_trans _ _ _ E Hlt) | exact Hpre].
Qed.

(** X16: calculateBestLearningTime returns a period no entry of
    preferredStudyTime outscores: 'evening' when no score is positive,
    and otherwise the name of the entry with the highest score, the first
    such entry in the order Object.entries lists them (index-like keys
    first, then the others as created). *)
Theorem best_learning_time_is_highest_scored :
  forall (hb : Habits) (preferred : list (string * Q)),
    preferredStudyTime hb = Some preferred ->
    exists best : Q,
      Forall (fun entry => (snd entry <= best)%Q) preferred
      /\ ((calculateBestLearningTime (Some hb) = "evening" /\ best = 0%Q)
          \/ (In (calculateBestLearningTime (Some hb), best) preferred
              /\ (0 < best)%Q
              /\ exists pre post,
                  ownPropertyOrder preferred
                  = pre ++ (calculateBestLearningTime (Some hb), best) :: post
                  /\ Forall (fun entry => (snd entry < best)%Q) pre)).
Proof.
  intros hb preferred Hp. unfold calculateBestLearningTime. rewrite Hp.
  set (listed := ownPropertyOrder preferred).
  assert (Hperm : Permutation listed preferred)
    by apply SequencerFacts.ownPropertyOrder_perm.
  fold (bestEntry listed ("evening", 0%Q)).
  destruct (bestEntry_maximal listed ("evening", 0%Q)) as (_ & Hall & _).
  exists (snd (bestEntry listed ("evening", 0%Q))).
  split; [apply (Permutation_Forall Hperm Hall)|].
  destruct (bestEntry_first listed ("evening", 0%Q))
    as [[Hsame _] | (pre & post & Hl & Hlt & Hpre)].
  - left. rewrite Hsame. split; reflexivity.
  - right. destruct (bestEntry listed ("evening", 0%Q)) as [name score] eqn:Eb.
    simpl in *. split; [|split; [exact Hlt|]].
    + apply (Permutation_in _ Hperm). rewrite Hl.
      apply in_or_app. right. left. reflexivity.
    + exists pre, post. split; [exact Hl | exact Hpre].
Qed.

Lemma best_learning_time_is_highest_scored_witness :
  exists best : Q,
    Forall (fun entry => (snd entry <= best)%Q)
           [("night", 9 # 10); ("2", 9 # 10); ("morning", 7 # 10)]
    /\ ((calculateBestLearningTime
           (Some {| preferredStudyTime :=
                      Some [("night", 9 # 10); ("2", 9 # 10);
                            ("morning", 7 # 10)];
                    consistencyScore := None |}) = "evening"
         /\ best = 0%Q)
        \/ (In (calculateBestLearningTime
                  (Some {| preferredStudyTime :=
                             Some [("night", 9 # 10); ("2", 9 # 10);
                                   ("morning", 7 # 10)];
                           consistencyScore := None |}), best)
               [("night", 9 # 10); ("2", 9 # 10); ("morning", 7 # 10)]
            /\ (0 < best)%Q
            /\ exists pre post,
                ownPropertyOrder
                  [("night", 9 # 10); ("2", 9 # 10); ("morning", 7 # 10)]
                = pre ++ (calculateBestLearningTime
                            (Some {| preferredStudyTime :=
                                       Some [("night", 9 # 10); ("2", 9 # 10);
                                             ("morning", 7 # 10)];
                                     consistencyScore := None |}), best)
                         :: post
                /\ Forall (fun entry => (snd entry < best)%Q) pre)).
Proof.
  apply (best_learning_time_is_highest_scored
           {| preferredStudyTime :=
                Some [("night", 9 # 10); ("2", 9 # 10); ("morning", 7 # 10)];
              consistencyScore := None |}).
  reflexivity.
Defined.

(** An index-like key is listed before the keys created ahead of it: with
    'night' and '2' both at 0.9 the answer is '2'. *)
Example best_learning_time_lists_index_keys_first :
  calculateBestLearningTime
    (Some {| preferredStudyTime := Some [("night", 9 # 10); ("2", 9 # 10)];
             consistencyScore := None |}) = "2".
Proof. vm_compute. reflexivity. Qed.

(** Layouts in order of complexity; 'simple' stands apart, at the
    bottom. *)
Definition layoutRank (layout : string) : Z :=
  if String.eqb layout "advanced" then 2
  else if String.eqb layout "standard" then 1
  else 0.

Lemma above_monotone x y t :
  (x <= y)%Q -> above (Some x) t = true -> above (Some y) t = true.
Proof.
  simpl. intros Hxy H. apply Qltb_lt in H. apply Qltb_lt.
  apply (Qlt_le_trans _ _ _ H Hxy).
Qed.

Definition withScores (score rate : Q) : Profile.PerformanceDetails :=
  {| Profile.scores := {| averageScore := Some score;
                          weakAreas := None;
                          strongAreas := None |};
     Profile.completionRate := Some rate |}.

(** X17: determineLayoutComplexity is monotone: on the same device, a
    learner with an average score and a completion rate at least as high
    as another's never gets a less complex layout (guided, standard,
    advanced in that order). *)
Theorem layout_complexity_is_monotone :
  forall (p1 p2 : Profile.PerformanceDetails) (deviceType : string)
         (score1 score2 rate1 rate2 : Q),
    Profile.averageScoreOf p1 = Some score1 ->
    Profile.averageScoreOf p2 = Some score2 ->
    Profile.completionRate p1 = Some rate1 ->
    Profile.completionRate p2 = Some rate2 ->
    (score1 <= score2)%Q ->
    (rate1 <= rate2)%Q ->
    layoutRank (determineLayoutComplexity (Some p1) deviceType)
    <= layoutRank (determineLayoutComplexity (Some p2) deviceType).
Proof.
  intros p1 p2 deviceType score1 score2 rate1 rate2 Hs1 Hs2 Hr1 Hr2 Hs Hr.
  unfold determineLayoutComplexity. rewrite Hs1, Hs2, Hr1, Hr2.
  destruct (String.eqb deviceType "mobile"); [reflexivity|].
  destruct (above (Some score1) 80 && above (Some rate1) (B64.lit (7 # 10)))
    eqn:Eadv.
  - apply andb_true_iff in Eadv. destruct Eadv as [Ha Hb].
    rewrite (above_monotone _ _ _ Hs Ha), (above_monotone _ _ _ Hr Hb).
    reflexivity.
  - destruct (above (Some score1) 60 && above (Some rate1) (B64.lit (5 # 10)))
      eqn:Estd.
    + apply andb_true_iff in Estd. destruct Estd as [Ha Hb].
      rewrite (above_monotone _ _ _ Hs Ha), (above_monotone _ _ _ Hr Hb).
      destruct (above (Some score2) 80
                && above (Some rate2) (B64.lit (7 # 10)));
        vm_compute; intros Hgt; discriminate Hgt.
    + destruct (above (Some score2) 80
                && above (Some rate2) (B64.lit (7 # 10)));
        [vm_compute; intros Hgt; discriminate Hgt|].
      destruct (above (Some score2) 60
                && above (Some rate2) (B64.lit (5 # 10)));
        vm_compute; intros Hgt; discriminate Hgt.
Qed.

Lemma layout_complexity_is_monotone_witness :
  layoutRank (determineLayoutComplexity (Some (withScores 65 (6 # 10)))
                                        "desktop")
  <= layoutRank (determineLayoutComplexity (Some (withScores 90 (8 # 10)))
                                           "desktop").
Proof.
  apply (layout_complexity_is_monotone
           (withScores 65 (6 # 10)) (withScores 90 (8 # 10)) "desktop"
           65 90 (6 # 10) (8 # 10));
    try reflexivity; discriminate.
Defined.

(** X18: shouldChunkContent never asks for chunking at an average score
    of 80 or more, whatever the content type, and always asks for it
    below 60 unless the content type is named like a member of
    Object.prototype (for which it never does). *)
Theorem chunking_thresholds_lie_between_60_and_80 :
  forall (p : Profile.PerformanceDetails) (contentType : option string)
         (score : Q),
    Profile.averageScoreOf p = Some score ->
    ((80 <= score)%Q -> shouldChunkContent (Some p) contentType = false)
    /\ ((score < 60)%Q ->
        (forall c, contentType = Some c -> inherited c = false) ->
        shouldChunkContent (Some p) contentType = true)
    /\ (forall c, contentType = Some c -> inherited c = true ->
        shouldChunkContent (Some p) contentType = false).
Proof.
  intros p contentType score Hscore.
  assert (Hknown : forall t, chunkThreshold contentType = Some t ->
                             (60 <= t)%Q /\ (t <= 80)%Q).
  { unfold chunkThreshold. intros t.
    destruct contentType as [c|]; [|intros [= <-]; split; discriminate].
    repeat (match goal with
            | |- context [if ?b then _ else _] => destruct b
            end; [intros [= <-]; split; discriminate|]);
      try discriminate.
    intros [= <-]; split; discriminate. }
  unfold shouldChunkContent. rewrite Hscore. repeat split.
  - intros Hhigh. destruct (chunkThreshold contentType) as [t|] eqn:Et;
      [|reflexivity].
    simpl. apply Qltb_ge. apply (Qle_trans _ 80); [apply Hknown, eq_refl|exact Hhigh].
  - intros Hlow Hplain.
    destruct (chunkThreshold contentType) as [t|] eqn:Et.
    + simpl. apply Qltb_lt.
      apply (Qlt_le_trans _ 60); [exact Hlow | apply Hknown, eq_refl].
    + exfalso. unfold chunkThreshold in Et.
      destruct contentType as [c|]; [|discriminate].
      rewrite (Hplain c eq_refl) in Et.
      repeat (match type of Et with
              | context [if ?b then _ else _] => destruct b
              end; try discriminate).
  - intros c -> Hc. unfold chunkThreshold.
    assert (Hnot : forall name, inherited name = false ->
                                String.eqb c name = false).
    { intros name Hname. destruct (String.eqb_spec c name) as [-> |];
        [congruence | reflexivity]. }
    rewrite !Hnot by reflexivity. rewrite Hc. reflexivity.
Qed.

Lemma chunking_thresholds_lie_between_60_and_80_witness :
  shouldChunkContent (Some (withScores 85 (6 # 10))) (Some "quiz") = false.
Proof.
  apply (chunking_thresholds_lie_between_60_and_80
           (withScores 85 (6 # 10)) (Some "quiz") 85 eq_refl).
  discriminate.
Defined.

(** X19: when userData is present, getAccessibilityRecommendations passes
    the learner's highContrast, screenReader and motionReduced settings
    through unchanged, never turns off largeText when the learner has it
    on, and recommends largeText on a mobile device.  When userData is
    absent it recommends nothing, on any device: all four settings are
    false, largeText included even on mobile. *)
Theorem accessibility_recommendations_respect_settings :
  forall (ud : Profile.t) (deviceType : string),
    let explicit := spreadAccessibility (Profile.accessibility ud) in
    let r := getAccessibilityRecommendations (Some ud) deviceType in
    let none := getAccessibilityRecommendations None deviceType in
    (Profile.highContrast r = Profile.highContrast explicit
     /\ Profile.screenReader r = Profile.screenReader explicit
     /\ Profile.motionReduced r = Profile.motionReduced explicit
     /\ (truthy (Profile.largeText explicit) = true ->
         truthy (Profile.largeText r) = true)
     /\ (deviceType = "mobile" -> truthy (Profile.largeText r) = true))
    /\ (Profile.highContrast none = Some false
        /\ Profile.largeText none = Some false
        /\ Profile.screenReader none = Some false
        /\ Profile.motionReduced none = Some false).
Proof.
  intros ud deviceType explicit r none. subst r none.
  split; [|repeat split].
  unfold getAccessibilityRecommendations. fold explicit.
  set (r1 := if String.eqb deviceType "mobile" then _ else explicit).
  assert (H1 : Profile.highContrast r1 = Profile.highContrast explicit
               /\ Profile.screenReader r1 = Profile.screenReader explicit
               /\ Profile.motionReduced r1 = Profile.motionReduced explicit
               /\ (truthy (Profile.largeText explicit) = true ->
                   truthy (Profile.largeText r1) = true)
               /\ (deviceType = "mobile" ->
                   truthy (Profile.largeText r1) = true)).
  { subst r1. destruct (String.eqb_spec deviceType "mobile") as [Hm | Hm].
    - simpl. repeat split.
      + destruct (truthy (Profile.largeText explicit)) eqn:E; [|discriminate].
        intros _. exact E.
      + intros _. destruct (truthy (Profile.largeText explicit)) eqn:E;
          [exact E | reflexivity].
    - repeat split; [intros H; exact H | intros H; contradiction]. }
  destruct H1 as (Hc & Hsr & Hmr & Hkeep & Hmobile).
  destruct (Profile.performance ud) as [p|], (Profile.habits ud) as [hb|];
    try (repeat split; assumption).
  destruct (_ && _); [|repeat split; assumption].
  simpl. repeat split; try assumption; intros _; reflexivity.
Qed.

(** X20: in the hints of generateAdaptiveUIHints, step-by-step guidance
    is never on without progress emphasis, and a mobile device always gets
    simplified navigation and the compact layout. *)
Theorem ui_hints_are_consistent :
  forall (userData : option Profile.t)
         (deviceType timeOfDay adaptiveLayout : string),
    let hints :=
      generateAdaptiveUIHints userData deviceType timeOfDay adaptiveLayout in
    (useStepByStep hints = true -> emphasizeProgress hints = true)
    /\ (deviceType = "mobile" ->
        simplifyNavigation hints = true /\ useCompactLayout hints = true).
Proof.
  intros userData deviceType timeOfDay adaptiveLayout hints. subst hints.
  simpl. split.
  - destruct (profileConsistency userData) as [c|]; simpl; [|discriminate].
    intros H. apply Qltb_lt in H. apply Qltb_lt.
    apply (Qlt_trans _ _ _ H). vm_compute. reflexivity.
  - intros ->. simpl. split; [apply orb_true_r | reflexivity].
Qed.

End AdaptiveBehaviorFacts.

(** ** Break times, study durations and study patterns *)

Module StudyRhythmFacts.

Import Js StudyRhythm.

(** The integers [lo], [lo + 1], ..., [lo + n - 1]. *)
Definition zrange (lo : Z) (n : nat) : list Z :=
  map (fun i => lo + Z.of_nat i) (seq 0 n).

Lemma in_zrange lo n z : lo <= z < lo + Z.of_nat n -> In z (zrange lo n).
Proof.
  intros H. unfold zrange. apply in_map_iff.
  exists (Z.to_nat (z - lo)). split; [lia|].
  apply in_seq. lia.
Qed.

(** The break in whole numbers: a fifth of the session rounded to the
    nearest minute, at least 5, plus half a minute per point of fatigue
    above 5 and of difficulty above 3, rounded half up and kept between 5
    and 20. *)
Definition breakInWholeMinutes (sessionDuration fatigue difficulty : Z) : Z :=
  Z.max 5 (Z.min 20 (Z.max 5 ((sessionDuration + 2) / 5)
                     + (fatigue + difficulty - 7) / 2)).

Lemma base_break_rounds_everywhere :
  forallb (fun d => Math_round (B64.div (inject_Z d) 5) =? (d + 2) / 5)
          (zrange 0 301) = true.
Proof. vm_compute. reflexivity. Qed.

Lemma adjusted_break_rounds_everywhere :
  forallb
    (fun f =>
       let fatigueAdjustment := B64.mul (B64.sub (inject_Z f) 5) (1 # 2) in
       forallb
         (fun c =>
            let difficultyAdjustment :=
              B64.mul (B64.sub (inject_Z c) 3) (1 # 2) in
            forallb
              (fun b =>
                 Math_round (B64.add (B64.add (inject_Z b) fatigueAdjustment)
                                     difficultyAdjustment)
                 =? b + (f + c - 7) / 2)
              (zrange 5 56))
         (zrange 1 5))
    (zrange 0 11) = true.
Proof. vm_compute. reflexivity. Qed.

Lemma break_closed_form d f c :
  0 <= d <= 300 -> 0 <= f <= 10 -> 1 <= c <= 5 ->
  calculateOptimalBreakTime (inject_Z d) (inject_Z f) (inject_Z c)
  = breakInWholeMinutes d f c.
Proof.
  intros Hd Hf Hc. unfold calculateOptimalBreakTime, breakInWholeMinutes.
  pose proof base_break_rounds_everywhere as Hbase.
  rewrite forallb_forall in Hbase.
  specialize (Hbase d (in_zrange 0 301 d ltac:(lia))).
  apply Z.eqb_eq in Hbase. rewrite Hbase.
  set (b := Z.max 5 ((d + 2) / 5)).
  assert (Hb : 5 <= b < 5 + Z.of_nat 56).
  { subst b. assert ((d + 2) / 5 <= 302 / 5)
      by (apply Z.div_le_mono; lia).
    change (302 / 5) with 60 in H. lia. }
  pose proof adjusted_break_rounds_everywhere as Hall.
  rewrite forallb_forall in Hall.
  specialize (Hall f (in_zrange 0 11 f ltac:(lia))).
  cbv zeta in Hall. rewrite forallb_forall in Hall.
  specialize (Hall c (in_zrange 1 5 c ltac:(lia))).
  cbv zeta in Hall. rewrite forallb_forall in Hall.
  specialize (Hall b (in_zrange 5 56 b Hb)).
  apply Z.eqb_eq in Hall. rewrite Hall. reflexivity.
Qed.

(** X21: for a session of 0 to 300 whole minutes, a fatigue level of 0 to
    10 and a difficulty of 1 to 5, calculateOptimalBreakTime returns
    max(5, round(duration / 5)) + floor((fatigue + difficulty - 7) / 2),
    kept between 5 and 20 minutes; so the break never shrinks when the
    session gets longer, the learner more tired or the content harder. *)
Theorem break_time_in_whole_minutes :
  forall sessionDuration fatigue difficulty : Z,
    0 <= sessionDuration <= 300 ->
    0 <= fatigue <= 10 ->
    1 <= difficulty <= 5 ->
    calculateOptimalBreakTime (inject_Z sessionDuration) (inject_Z fatigue)
                              (inject_Z difficulty)
    = breakInWholeMinutes sessionDuration fatigue difficulty
    /\ 5 <= calculateOptimalBreakTime (inject_Z sessionDuration)
                                      (inject_Z fatigue)
                                      (inject_Z difficulty) <= 20
    /\ forall d' f' c',
        sessionDuration <= d' <= 300 -> fatigue <= f' <= 10 ->
        difficulty <= c' <= 5 ->
        calculateOptimalBreakTime (inject_Z sessionDuration)
                                  (inject_Z fatigue) (inject_Z difficulty)
        <= calculateOptimalBreakTime (inject_Z d') (inject_Z f')
                                     (inject_Z c').
Proof.
  pose proof break_closed_form as Hclosed.
  intros d f c Hd Hf Hc. split; [apply Hclosed; assumption|]. split.
  - rewrite (Hclosed d f c Hd Hf Hc). unfold breakInWholeMinutes. lia.
  - intros d' f' c' Hd' Hf' Hc'.
    rewrite (Hclosed d f c Hd Hf Hc), (Hclosed d' f' c') by lia.
    unfold breakInWholeMinutes.
    assert ((d + 2) / 5 <= (d' + 2) / 5)
      by (apply Z.div_le_mono; lia).
    assert ((f + c - 7) / 2 <= (f' + c' - 7) / 2)
      by (apply Z.div_le_mono; lia).
    lia.
Qed.

Lemma break_time_in_whole_minutes_witness :
  calculateOptimalBreakTime 25 5 3 = breakInWholeMinutes 25 5 3.
Proof.
  apply (break_time_in_whole_minutes 25 5 3); lia.
Defined.

Lemma div_of_zero q : B64.div 0 q = 0%Q.
Proof. destruct q as [n d]. destruct n; reflexivity. Qed.

Definition habitsWithHistory (history : option (list Profile.DayRecord))
  : Profile.HabitDetails :=
  {| Profile.core := {| preferredStudyTime := None; consistencyScore := None |};
     Profile.averageSessionLength := None;
     Profile.distractionLevel := None;
     Profile.completionHistory := history |}.

(** X22: detectStudyPattern answers 'unknown' exactly when there is no
    completion history to look at (no habits, no history, or an empty
    one); with any recorded day it returns one of the four patterns
    together with both averages. *)
Theorem pattern_unknown_only_without_history :
  forall h : option Profile.HabitDetails,
    (pattern (detectStudyPattern h) = "unknown"
     <-> (h = None
          \/ exists hb, h = Some hb
                        /\ (Profile.completionHistory hb = None
                            \/ Profile.completionHistory hb = Some [])))
    /\ (pattern (detectStudyPattern h) <> "unknown" ->
        In (pattern (detectStudyPattern h))
           ["frequent-short"; "daily-long"; "infrequent-intensive";
            "irregular"]
        /\ averageSessions (detectStudyPattern h) <> None
        /\ averageDuration (detectStudyPattern h) <> None).
Proof.
  intros [hb|].
  2:{ split; [split; [intros _; left; reflexivity | reflexivity]|].
      intros H. exfalso. apply H. reflexivity. }
  unfold detectStudyPattern.
  destruct (Profile.completionHistory hb) as [[|day rest]|] eqn:Eh.
  - split; [split; [|reflexivity]|intros H; exfalso; apply H; reflexivity].
    intros _. right. exists hb. split; [reflexivity|]. right. exact Eh.
  - repeat match goal with
           | |- context [if ?b then _ else _] => destruct b
           end;
      (split;
       [ split;
         [ simpl; intros H; discriminate H
         | intros [H | (hb' & [= <-] & [H | H])]; congruence ]
       | intros _; simpl; repeat split; auto 6; discriminate ]).
  - split; [split; [|reflexivity]|intros H; exfalso; apply H; reflexivity].
    intros _. right. exists hb. split; [reflexivity|]. left. exact Eh.
Qed.

(** X23: a history in which no session was ever completed is classified
    'irregular', with both averages 0: the division by the number of
    completed sessions is skipped. *)
Theorem pattern_without_completed_sessions_is_irregular :
  forall (hb : Profile.HabitDetails) (history : list Profile.DayRecord),
    Profile.completionHistory hb = Some history ->
    history <> [] ->
    totalSessionsOf history = 0 ->
    pattern (detectStudyPattern (Some hb)) = "irregular"
    /\ averageSessions (detectStudyPattern (Some hb)) = Some 0%Q
    /\ averageDuration (detectStudyPattern (Some hb)) = Some 0%Q.
Proof.
  intros hb history Hh Hne Hzero. unfold detectStudyPattern. rewrite Hh.
  destruct history as [|day rest]; [contradiction|].
  rewrite Hzero. change (inject_Z 0) with 0%Q. rewrite div_of_zero.
  repeat split.
Qed.

Lemma pattern_without_completed_sessions_is_irregular_witness :
  pattern (detectStudyPattern
             (Some (habitsWithHistory
                      (Some [{| Profile.date := "2023-05-20";
                                Profile.sessionsCompleted := 0;
                                Profile.duration := 0 |}]))))
  = "irregular".
Proof.
  apply (pattern_without_completed_sessions_is_irregular
           (habitsWithHistory
              (Some [{| Profile.date := "2023-05-20";
                        Profile.sessionsCompleted := 0;
                        Profile.duration := 0 |}]))
           [{| Profile.date := "2023-05-20";
               Profile.sessionsCompleted := 0;
               Profile.duration := 0 |}]);
    [reflexivity | discriminate | reflexivity].
Defined.

End StudyRhythmFacts.

(** ** Optimal study duration *)

Module StudyDurationFacts.

Import Js AdaptiveBehavior StudyRhythmFacts.

(** The factor the average score contributes, and the duration computed
    from a base time and that factor. *)
Definition factorOf (score : Q) : Q :=
  B64.add (B64.lit (7 # 10)) (B64.mul (B64.lit (5 # 10)) (B64.div score 100)).

Definition durationFrom (baseTime factor : Q) : Z :=
  Math_round (B64.div (B64.mul baseTime factor) 5) * 5.

Lemma study_duration_unfolds hb p sessionLength score :
  Profile.averageSessionLength hb = Some sessionLength ->
  Profile.averageScoreOf p = Some score ->
  calculateOptimalStudyDuration (Some hb) (Some p)
  = Some (durationFrom (if isZero sessionLength then 25%Q else sessionLength)
                       (factorOf score)).
Proof.
  intros Hl Hs. unfold calculateOptimalStudyDuration. rewrite Hl, Hs.
  reflexivity.
Qed.

Lemma isZero_inject_Z z : z <> 0 -> isZero (inject_Z z) = false.
Proof.
  intros Hz. unfold isZero. destruct (Qeq_bool (inject_Z z) 0) eqn:E;
    [|reflexivity].
  apply Qeq_bool_iff in E. unfold Qeq in E. simpl in E. lia.
Qed.

Lemma study_duration_close_everywhere :
  forallb
    (fun s =>
       let factor := factorOf (inject_Z s) in
       forallb
         (fun b =>
            Z.abs (200 * durationFrom (inject_Z b) factor - b * (140 + s))
            <=? 500)
         (zrange 25 21))
    (zrange 0 101) = true.
Proof. vm_compute. reflexivity. Qed.

(** X24: calculateOptimalStudyDuration returns 25 when habits or
    performance is missing and NaN when performance has no average score;
    otherwise a multiple of 5, which for an average session length of 25
    to 45 whole minutes and a whole average score of 0 to 100 lies within
    2.5 minutes of length x (0.7 + score / 200). *)
Theorem study_duration_is_nearest_five :
  forall (hb : Profile.HabitDetails) (p : Profile.PerformanceDetails)
         (minutes score : Z),
    Profile.averageSessionLength hb = Some (inject_Z minutes) ->
    Profile.averageScoreOf p = Some (inject_Z score) ->
    25 <= minutes <= 45 ->
    0 <= score <= 100 ->
    (exists r,
        calculateOptimalStudyDuration (Some hb) (Some p) = Some r
        /\ r mod 5 = 0
        /\ Z.abs (200 * r - minutes * (140 + score)) <= 500)
    /\ calculateOptimalStudyDuration None (Some p) = Some 25
    /\ calculateOptimalStudyDuration (Some hb) None = Some 25
    /\ (forall p', Profile.averageScoreOf p' = None ->
                   calculateOptimalStudyDuration (Some hb) (Some p') = None).
Proof.
  intros hb p minutes score Hl Hs Hm Hsc. repeat split.
  - rewrite (study_duration_unfolds _ _ _ _ Hl Hs).
    rewrite isZero_inject_Z by lia.
    eexists. split; [reflexivity|]. split.
    + unfold durationFrom. apply Z.mod_mul. discriminate.
    + pose proof study_duration_close_everywhere as Hall.
      rewrite forallb_forall in Hall.
      specialize (Hall score (in_zrange 0 101 score ltac:(lia))).
      cbv zeta in Hall. rewrite forallb_forall in Hall.
      specialize (Hall minutes (in_zrange 25 21 minutes ltac:(lia))).
      apply Z.leb_le in Hall. exact Hall.
  - intros p' Hp'. unfold calculateOptimalStudyDuration. rewrite Hp'.
    reflexivity.
Qed.

Definition habitsOfLength (minutes : Q) : Profile.HabitDetails :=
  {| Profile.core := {| preferredStudyTime := None; consistencyScore := None |};
     Profile.averageSessionLength := Some minutes;
     Profile.distractionLevel := None;
     Profile.completionHistory := None |}.

Lemma study_duration_is_nearest_five_witness :
  exists r,
    calculateOptimalStudyDuration
      (Some (habitsOfLength 35))
      (Some (AdaptiveBehaviorFacts.withScores 75 (68 # 100))) = Some r
    /\ r mod 5 = 0
    /\ Z.abs (200 * r - 35 * (140 + 75)) <= 500.
Proof.
  apply (study_duration_is_nearest_five
           (habitsOfLength 35)
           (AdaptiveBehaviorFacts.withScores 75 (68 # 100)) 35 75);
    try reflexivity; lia.
Defined.

End StudyDurationFacts.

(** ** Completion history *)

Module HistoryFacts.

Import Js StudyRhythm Providers.







Definition otherDay (today : string) (e : Profile.DayRecord) : bool :=
  negb (String.eqb (Profile.date e) today).


Lemma bumpEntry_missing today minutes history :
  bumpEntry today minutes history = None ->
  filter (otherDay today) history = history.
Proof.
  induction history as [|e rest IH]; simpl; [reflexivity|].
  unfold otherDay at 1.
  destruct (String.eqb (Profile.date e) today); [discriminate|].
  destruct (bumpEntry today minutes rest); [discriminate|].
  intros _. simpl. rewrite IH; reflexivity.
Qed.



(** X26: the active theme stays one of the four defined themes: the
    effect always selects one of them, and changeTheme keeps a defined
    theme unless it is given the name of a member of Object.prototype,
    which it accepts as if it were a theme. *)
Theorem active_theme_stays_defined :
  (forall (highContrast focusMode : bool) (timeOfDay : string),
      In (selectTheme highContrast focusMode timeOfDay) themeNames)
  /\ (forall activeTheme themeName : string,
         In activeTheme themeNames ->
         inherited themeName = false ->
         In (changeTheme activeTheme themeName) themeNames)
  /\ (forall activeTheme themeName : string,
         inherited themeName = true ->
         changeTheme activeTheme themeName = themeName
         /\ ~ In themeName themeNames).
Proof.
  repeat split.
  - intros [|] [|] timeOfDay; unfold selectTheme; simpl; auto.
    destruct (String.eqb timeOfDay "night"); simpl; auto.
  - intros activeTheme themeName Hactive Hplain. unfold changeTheme.
    rewrite Hplain, orb_false_r.
    destruct (existsb (String.eqb themeName) themeNames) eqn:E;
      [|exact Hactive].
    apply existsb_exists in E. destruct E as [name [Hin Heq]].
    apply String.eqb_eq in Heq. subst. exact Hin.
  - unfold changeTheme. rewrite H, orb_true_r. reflexivity.
  - intros Hin. simpl in Hin.
    destruct Hin as [<- | [<- | [<- | [<- | []]]]]; discriminate H.
Qed.

End HistoryFacts.

(** ** Content sequencing: failures and order within a subject *)

Module SequencerOrderFacts.

Import Js ContentPrioritization SequencerFacts.

Lemma grouping_raises items :
  Exists (fun item => inherited (subjectOf item) = true) items ->
  forall acc, fold_left groupItem items acc = TypeError.
Proof.
  induction 1 as [x l Hx | x l _ IH]; intros acc; simpl.
  - destruct acc as [g|]; simpl; [rewrite Hx|]; apply groupItem_raised.
  - apply IH.
Qed.

Section Engine.

Variable engineSort : (Item.t -> Item.t -> Z) -> list Item.t -> list Item.t.
Hypothesis engineSort_perm :
  forall cmp l, Permutation l (engineSort cmp l).

(** Once the grouping has succeeded the loop runs to its end. *)
Lemma sequence_completes first rest bySubject :
  fold_left groupItem (first :: rest) (Ok []) = Ok bySubject ->
  exists out,
    interleave (S (length (first :: rest))) 0
               (sortGroups engineSort bySubject) [] = Some out
    /\ recommendContentSequence engineSort (Some (first :: rest))
       = Some (Ok out)
    /\ keyed bySubject.
Proof.
  intros Eg.
  destruct (grouping_keyed _ _ _ Eg keyed_nil) as [Hk Hitems].
  simpl in Hitems.
  pose proof (sortGroups_items engineSort engineSort_perm bySubject) as Hitems'.
  set (gs := sortGroups engineSort bySubject) in *.
  assert (Hlen : Forall (fun g => (length (snd g)
                                   <= length (first :: rest) + 0)%nat) gs).
  { apply Forall_forall. intros g Hg. apply group_length_bound in Hg.
    rewrite (Permutation_length Hitems'), (Permutation_length Hitems) in Hg.
    lia. }
  destruct (interleave_enough gs _ 0%nat [] Hlen) as [out Hout].
  exists out. split; [exact Hout|]. split; [|exact Hk].
  unfold recommendContentSequence.
  assert (Hfold : fold_left groupItem (first :: rest) (Ok []) = Ok bySubject)
    by exact Eg.
  rewrite Hfold. fold gs. rewrite Hout. reflexivity.
Qed.

(** X27: recommendContentSequence raises a TypeError exactly when some
    item's subject is named like a member of Object.prototype (such as
    "constructor" or "toString"); otherwise it returns a sequence. *)
Theorem sequence_raises_on_inherited_subject :
  forall contentItems : list Item.t,
    (recommendContentSequence engineSort (Some contentItems) = Some TypeError
     <-> Exists (fun item => inherited (subjectOf item) = true) contentItems)
    /\ (Forall (fun item => inherited (subjectOf item) = false) contentItems ->
        exists out,
          recommendContentSequence engineSort (Some contentItems)
          = Some (Ok out)).
Proof.
  intros [|first rest].
  { split; [split; [discriminate | intros H; inversion H]|].
    intros _. exists []. reflexivity. }
  assert (Hreturns :
            Forall (fun item => inherited (subjectOf item) = false)
                   (first :: rest) ->
            exists out,
              recommendContentSequence engineSort (Some (first :: rest))
              = Some (Ok out)).
  { intros Hall. destruct (grouping_returns _ [] Hall) as [gs Hgs].
    destruct (sequence_completes first rest gs Hgs) as [out [_ [Hout _]]].
    exists out. exact Hout. }
  split; [|exact Hreturns]. split.
  - intros Hraise.
    destruct (Forall_Exists_dec
                (fun item => inherited (subjectOf item) = false)
                (fun item => bool_dec (inherited (subjectOf item)) false)
                (first :: rest)) as [Hall | Hex].
    + destruct (Hreturns Hall) as [out Hout]. congruence.
    + eapply Exists_impl; [|exact Hex].
      intros item Hitem. simpl in Hitem.
      destruct (inherited (subjectOf item)); [reflexivity | contradiction].
  - intros Hex. unfold recommendContentSequence.
    assert (Hfold : fold_left groupItem (first :: rest) (Ok [])
                    = @TypeError Groups)
      by apply (grouping_raises _ Hex).
    rewrite Hfold. reflexivity.
Qed.

(** The items filed under a subject. *)
Definition groupOf (k : string) (gs : Groups) : list Item.t :=
  flat_map (fun g => if String.eqb (fst g) k then snd g else []) gs.

Definition ofSubject (k : string) (item : Item.t) : bool :=
  String.eqb (subjectOf item) k.

Lemma groupOf_absent k gs : ~ In k (map fst gs) -> groupOf k gs = [].
Proof.
  induction gs as [|g rest IH]; [reflexivity|].
  simpl. intros Hnot.
  destruct (String.eqb_spec (fst g) k) as [Heq | _];
    [exfalso; apply Hnot; left; exact Heq|].
  apply IH. intros Hin. apply Hnot. right. exact Hin.
Qed.

Lemma groupOf_present gs : forall g,
  NoDup (map fst gs) -> In g gs -> groupOf (fst g) gs = snd g.
Proof.
  induction gs as [|g0 rest IH]; intros g Hnd Hin; [contradiction|].
  simpl in Hnd. inversion Hnd as [|? ? Hnot Hnd']; subst.
  simpl. destruct Hin as [-> | Hin].
  - rewrite String.eqb_refl, (groupOf_absent _ _ Hnot). apply app_nil_r.
  - destruct (String.eqb_spec (fst g0) (fst g)) as [Heq | _].
    + exfalso. apply Hnot. rewrite Heq. apply in_map, Hin.
    + apply (IH g Hnd' Hin).
Qed.

Lemma groupOf_perm k gs gs' :
  NoDup (map fst gs) -> Permutation gs gs' -> groupOf k gs = groupOf k gs'.
Proof.
  intros Hnd Hp.
  assert (Hnd' : NoDup (map fst gs'))
    by apply (Permutation_NoDup (Permutation_map fst Hp) Hnd).
  destruct (in_dec string_dec k (map fst gs)) as [Hin | Hnot].
  - apply in_map_iff in Hin. destruct Hin as [g [<- Hg]].
    rewrite (groupOf_present gs g Hnd Hg).
    rewrite (groupOf_present gs' g Hnd' (Permutation_in _ Hp Hg)).
    reflexivity.
  - rewrite (groupOf_absent _ _ Hnot). symmetry. apply groupOf_absent.
    intros Hin. apply Hnot.
    apply (Permutation_in _ (Permutation_sym (Permutation_map fst Hp)) Hin).
Qed.

Lemma engineSort_nil cmp : engineSort cmp [] = [].
Proof. apply Permutation_nil, engineSort_perm. Qed.

Lemma groupOf_sortEach k gs :
  NoDup (map fst gs) ->
  groupOf k (sortEach engineSort gs)
  = engineSort dependencyCompare (groupOf k gs).
Proof.
  intros Hnd.
  assert (Hkeys : map fst (sortEach engineSort gs) = map fst gs).
  { unfold sortEach. rewrite map_map. reflexivity. }
  destruct (in_dec string_dec k (map fst gs)) as [Hin | Hnot].
  - apply in_map_iff in Hin. destruct Hin as [g [<- Hg]].
    rewrite (groupOf_present gs g Hnd Hg).
    apply (groupOf_present (sortEach engineSort gs)
                           (fst g, engineSort dependencyCompare (snd g))).
    + rewrite Hkeys. exact Hnd.
    + unfold sortEach. apply in_map_iff. exists g. split; [reflexivity | exact Hg].
  - rewrite (groupOf_absent k gs Hnot), engineSort_nil.
    apply groupOf_absent. rewrite Hkeys. exact Hnot.
Qed.

Lemma groupOf_pushTo k subject item gs :
  NoDup (map fst gs) ->
  groupOf k (pushTo subject item gs)
  = groupOf k gs ++ (if String.eqb subject k then [item] else []).
Proof.
  induction gs as [|[k0 l] rest IH]; intros Hnd.
  - simpl. rewrite app_nil_r. reflexivity.
  - simpl in Hnd. inversion Hnd as [|? ? Hnot Hnd']; subst.
    simpl. destruct (String.eqb_spec subject k0) as [-> | Hne].
    + simpl. destruct (String.eqb_spec k0 k) as [-> | _].
      * rewrite (groupOf_absent _ _ Hnot), !app_nil_r. reflexivity.
      * simpl. rewrite app_nil_r. reflexivity.
    + simpl. rewrite (IH Hnd'), app_assoc. reflexivity.
Qed.

Lemma grouping_by_subject k items : forall acc gs,
  fold_left groupItem items (Ok acc) = Ok gs ->
  keyed acc ->
  groupOf k gs = groupOf k acc ++ filter (ofSubject k) items.
Proof.
  induction items as [|x l IH]; intros acc gs; simpl.
  - intros [= <-] _. rewrite app_nil_r. reflexivity.
  - destruct (inherited (subjectOf x)).
    + rewrite groupItem_raised. discriminate.
    + intros Hfold Hacc.
      rewrite (IH _ _ Hfold (pushTo_keyed _ x acc eq_refl Hacc)).
      rewrite (groupOf_pushTo k _ x acc (proj1 Hacc)), <- app_assoc.
      unfold ofSubject at 2.
      destruct (String.eqb (subjectOf x) k); reflexivity.
Qed.

Lemma filter_roundAt k index gs :
  keyed gs ->
  filter (ofSubject k) (roundAt index gs)
  = match nth_error (groupOf k gs) index with
    | Some item => [item]
    | None => []
    end.
Proof.
  induction gs as [|g rest IH]; intros [Hnd Hall].
  - simpl. destruct index; reflexivity.
  - simpl in Hnd. inversion Hnd as [|? ? Hnot Hnd']; subst.
    inversion Hall as [|? ? Hg Hrest]; subst.
    rewrite roundAt_cons, filter_app, (IH (conj Hnd' Hrest)).
    simpl groupOf. fold (groupOf k rest).
    destruct (String.eqb_spec (fst g) k) as [Heq | Hne].
    + subst k. rewrite (groupOf_absent _ _ Hnot), app_nil_r.
      destruct (nth_error (snd g) index) as [item|] eqn:E.
      * simpl. unfold ofSubject.
        apply nth_error_In in E. rewrite Forall_forall in Hg.
        rewrite (Hg item E), String.eqb_refl.
        destruct index; reflexivity.
      * destruct index; reflexivity.
    + destruct (nth_error (snd g) index) as [item|] eqn:E; [|reflexivity].
      simpl. unfold ofSubject at 1.
      apply nth_error_In in E. rewrite Forall_forall in Hg.
      rewrite (Hg item E).
      destruct (String.eqb_spec (fst g) k); [contradiction | reflexivity].
Qed.

Lemma filter_interleave k gs :
  keyed gs ->
  forall fuel index out,
    interleave fuel index gs [] = Some out ->
    filter (ofSubject k) out = skipn index (groupOf k gs).
Proof.
  intros Hk. induction fuel as [|f IH]; intros index out; [discriminate|].
  intros H. apply interleave_turn in H.
  destruct H as [[Hnil ->] | (rest & Hne & -> & Hrest)].
  - pose proof (filter_roundAt k index gs Hk) as Hf.
    rewrite Hnil in Hf. simpl in Hf. simpl.
    destruct (nth_error (groupOf k gs) index) eqn:E; [discriminate|].
    symmetry. apply skipn_all2, nth_error_None, E.
  - rewrite filter_app, (filter_roundAt k index gs Hk), (IH _ _ Hrest).
    symmetry. apply skipn_split.
Qed.

(** X28: interleaving never reorders a subject: the items of any one
    subject appear in the returned sequence in exactly the order the
    per-subject sort left them. *)
Theorem sequence_keeps_subject_order :
  forall (contentItems out : list Item.t) (subject : string),
    recommendContentSequence engineSort (Some contentItems) = Some (Ok out) ->
    filter (ofSubject subject) out
    = engineSort dependencyCompare (filter (ofSubject subject) contentItems).
Proof.
  intros [|first rest] out subject.
  { intros [= <-]. simpl. symmetry. apply engineSort_nil. }
  intros Hout.
  destruct (fold_left groupItem (first :: rest) (Ok [])) as [bySubject|] eqn:Eg.
  2:{ unfold recommendContentSequence in Hout.
      assert (Hfold : fold_left groupItem (first :: rest) (Ok [])
                      = @TypeError Groups) by exact Eg.
      rewrite Hfold in Hout. discriminate. }
  destruct (sequence_completes first rest bySubject Eg)
    as (out' & Hloop & Hsame & Hk).
  rewrite Hsame in Hout. injection Hout as <-.
  rewrite (filter_interleave subject _
             (sortGroups_keyed engineSort engineSort_perm _ Hk) _ _ _ Hloop).
  simpl skipn. unfold sortGroups. fold (sortEach engineSort (ownPropertyOrder bySubject)).
  rewrite groupOf_sortEach.
  - f_equal.
    rewrite <- (groupOf_perm subject bySubject (ownPropertyOrder bySubject)
                             (proj1 Hk)
                             (Permutation_sym (ownPropertyOrder_perm _))).
    rewrite (grouping_by_subject subject _ _ _ Eg keyed_nil). reflexivity.
  - apply (Permutation_NoDup
             (Permutation_map fst
                (Permutation_sym (ownPropertyOrder_perm bySubject)))
             (proj1 Hk)).
Qed.

End Engine.

Lemma sequence_raises_on_inherited_subject_witness :
  recommendContentSequence stable_sort
    (Some [topic "a1" "algebra" 2; topic "c1" "constructor" 1])
  = Some TypeError.
Proof.
  apply (sequence_raises_on_inherited_subject
           stable_sort (fun cmp l => SortFacts.stable_sort_perm cmp l)
           [topic "a1" "algebra" 2; topic "c1" "constructor" 1]).
  apply Exists_cons_tl, Exists_cons_hd. reflexivity.
Defined.

Lemma sequence_keeps_subject_order_witness :
  filter (ofSubject "algebra")
         [topic "a2" "algebra" 1; topic "g1" "geometry" 3;
          topic "a1" "algebra" 2; topic "a3" "algebra" 4]
  = stable_sort dependencyCompare
      (filter (ofSubject "algebra")
              [topic "a1" "algebra" 2; topic "a2" "algebra" 1;
               topic "g1" "geometry" 3; topic "a3" "algebra" 4]).
Proof.
  apply (sequence_keeps_subject_order
           stable_sort (fun cmp l => SortFacts.stable_sort_perm cmp l)
           [topic "a1" "algebra" 2; topic "a2" "algebra" 1;
            topic "g1" "geometry" 3; topic "a3" "algebra" 4]).
  vm_compute. reflexivity.
Defined.

End SequencerOrderFacts.
